(** * Balance accounting of [balance_utils.py]: a shallow embedding

    The development follows [src/balance_utils.py].  The Django tables the
    module touches (users, the partner group, monthly entitlements, usage
    details, system notifications) are fields of one record; every awaited
    ORM call is a primitive of a state-and-exception monad; Python floats
    are IEEE 754 binary64 values, computed with the Standard Library's
    executable specification [SpecFloat]. *)

From stdpp Require Import base gmap strings list.
From Stdlib Require Import ZArith Lia.
From Stdlib.Floats Require Import SpecFloat.

Open Scope Z_scope.

(** ** Exceptions and results *)

Inductive exn :=
| DoesNotExist       (* models.User.DoesNotExist *)
| DatabaseError      (* an ORM call failed *)
| AlertError         (* the alert engine failed *)
| OverflowError
| ValueError
| ZeroDivisionError
| AttributeError
| KeyError.

Inductive Res (A : Type) :=
| Ok (a : A)
| Raise (e : exn).
Arguments Ok {A} a.
Arguments Raise {A} e.

(** ** Python numbers: [int] is [Z], [float] is binary64 *)

Module PyFloat.

Definition prec : Z := 53.
Definition emax : Z := 1024.

Definition float := spec_float.

(** [float(n)] for an [int]: correctly rounded, [OverflowError] when the
    integer is too large. *)
Definition float_of_int (n : Z) : Res float :=
  match binary_normalize prec emax n 0 false with
  | S754_infinity _ => Raise OverflowError
  | f => Ok f
  end.

(** [a / b] on two [int]s: the correctly rounded quotient of the exact
    integers (CPython's [long_true_divide]). *)
Definition truediv (a b : Z) : Res float :=
  if b =? 0 then Raise ZeroDivisionError
  else if a =? 0 then Ok (S754_zero (b <? 0))
  else
    let '(mz, ez, lz) :=
      SFdiv_core_binary prec emax (Z.abs a) 0 (Z.abs b) 0 in
    match binary_round_aux prec emax (xorb (a <? 0) (b <? 0)) mz ez lz with
    | S754_infinity _ => Raise OverflowError
    | f => Ok f
    end.

(** [n * x] with [n] an [int] and [x] a [float]. *)
Definition int_mul_float (n : Z) (x : float) : Res float :=
  match float_of_int n with
  | Ok f => Ok (SFmul prec emax f x)
  | Raise e => Raise e
  end.

(** [math.ceil(x)]. *)
Definition math_ceil (x : float) : Res Z :=
  match x with
  | S754_nan => Raise ValueError
  | S754_infinity _ => Raise OverflowError
  | S754_zero _ => Ok 0
  | S754_finite s m e =>
      let v := if s then Z.neg m else Z.pos m in
      match e with
      | Z.neg p => Ok (- ((- v) / 2 ^ Z.pos p))
      | _ => Ok (v * 2 ^ e)
      end
  end.

(** Neither an infinity nor a NaN. *)
Definition is_finite (x : float) : bool :=
  match x with
  | S754_zero _ | S754_finite _ _ _ => true
  | S754_infinity _ | S754_nan => false
  end.

Definition one : float := S754_finite false 4503599627370496 (-52).
Definition two : float := S754_finite false 4503599627370496 (-51).
Definition half : float := S754_finite false 4503599627370496 (-53).

End PyFloat.

(** ** The cost computation (lines 38, 185, 292-293) *)

(** [math.ceil(tokens / 1000) if tokens > 0 else 0] *)
Definition base_cost (tokens : Z) : Res Z :=
  if 0 <? tokens then
    match PyFloat.truediv tokens 1000 with
    | Ok q => PyFloat.math_ceil q
    | Raise e => Raise e
    end
  else Ok 0.

(** [math.ceil(base_cost * cost_multiplier)] *)
Definition token_cost_of (tokens : Z) (cost_multiplier : PyFloat.float) : Res Z :=
  match base_cost tokens with
  | Ok b =>
      match PyFloat.int_mul_float b cost_multiplier with
      | Ok p => PyFloat.math_ceil p
      | Raise e => Raise e
      end
  | Raise e => Raise e
  end.

(** ** Data model *)

(** A row of the user table ([models.User]); membership of the partner
    group is a separate table, [partner_group] below. *)
Record UserRow := mkRow {
  row_surplus_number : Z;
  row_superior_id : option Z;
  row_username : string }.

(** An in-memory [models.User] instance: a primary key and cached fields. *)
Record User := mkUser {
  pk : Z;
  surplus_number : Z;
  superior_id : option Z;
  username : string }.

Record PartnerMonthlyEntitlement := mkEnt {
  ent_user : Z;
  ent_partner : Z;
  is_active : bool;
  start_at : Z;
  end_at : Z }.

Record AIUsageDetails := mkUsage {
  use_number : Z;
  surplus : Z;
  use_type : string;
  usage_user : Z;
  usage_tokens : Z;
  consumer : Z;
  usage_store : option Z }.

Record SystemNotify := mkNotify {
  title : string;
  content : string;
  notify_type : string;
  notify_user : Z }.

Inductive BillingMode := normal | partner_only | dual.

Inductive Level := INFO | WARNING | ERROR.

(** What a [logger] call reports; the formatted text is not modelled. *)
Inductive LogEvent :=
| ev_balance_insufficient (required remaining : Z)
| ev_remainder_recorded (remainder : Z)
| ev_balance_zeroed
| ev_notify_created
| ev_handler_exception (e : exn)
| ev_zero_tokens
| ev_deduct_exception (e : exn)
| ev_credit_not_positive (amount : Z)
| ev_credit_user_missing
| ev_credit_done (amount remaining : Z)
| ev_credit_exception (e : exn)
| ev_partner_billing_exception (e : exn)
| ev_partner_notified
| ev_partner_notify_failed (e : exn)
| ev_partner_billing_done (mode : BillingMode)
| ev_normal_insufficient (required remaining : Z)
| ev_normal_conflict (required : Z)
| ev_normal_done (deducted remaining : Z).

(** A statement that changed a row of the user table. *)
Inductive UserWrite :=
| wr_decrement (k cost : Z)
| wr_increment (k amount : Z)
| wr_save (k balance : Z).

(** The state a call runs in: the caller's [user] instance, which the module
    mutates in place, the tables, the clock, the sinks and the schedule of
    failures of the awaited calls ([true]: the next call raises). *)
Record State := mkState {
  user : User;
  users : gmap Z UserRow;
  partner_group : gset Z;
  entitlements : list PartnerMonthlyEntitlement;
  now : Z;
  usage_details : list AIUsageDetails;
  notifications : list SystemNotify;
  alerts : list (Z * Z);
  log : list (Level * LogEvent);
  user_writes : list UserWrite;
  faults : list bool }.

Definition set_user (u : User) (s : State) : State :=
  mkState u (users s) (partner_group s) (entitlements s) (now s)
    (usage_details s) (notifications s) (alerts s) (log s) (user_writes s)
    (faults s).

Definition set_users (m : gmap Z UserRow) (s : State) : State :=
  mkState (user s) m (partner_group s) (entitlements s) (now s)
    (usage_details s) (notifications s) (alerts s) (log s) (user_writes s)
    (faults s).

Definition add_usage (r : AIUsageDetails) (s : State) : State :=
  mkState (user s) (users s) (partner_group s) (entitlements s) (now s)
    (usage_details s ++ [r]) (notifications s) (alerts s) (log s)
    (user_writes s) (faults s).

Definition add_notify (n : SystemNotify) (s : State) : State :=
  mkState (user s) (users s) (partner_group s) (entitlements s) (now s)
    (usage_details s) (notifications s ++ [n]) (alerts s) (log s)
    (user_writes s) (faults s).

Definition add_alert (a : Z * Z) (s : State) : State :=
  mkState (user s) (users s) (partner_group s) (entitlements s) (now s)
    (usage_details s) (notifications s) (alerts s ++ [a]) (log s)
    (user_writes s) (faults s).

Definition add_log (l : Level * LogEvent) (s : State) : State :=
  mkState (user s) (users s) (partner_group s) (entitlements s) (now s)
    (usage_details s) (notifications s) (alerts s) (log s ++ [l])
    (user_writes s) (faults s).

Definition add_user_write (u : UserWrite) (s : State) : State :=
  mkState (user s) (users s) (partner_group s) (entitlements s) (now s)
    (usage_details s) (notifications s) (alerts s) (log s)
    (user_writes s ++ [u]) (faults s).

Definition set_faults (f : list bool) (s : State) : State :=
  mkState (user s) (users s) (partner_group s) (entitlements s) (now s)
    (usage_details s) (notifications s) (alerts s) (log s) (user_writes s) f.

(** ** The monad: state and exceptions; the state survives a [raise] *)

Definition M (A : Type) : Type := State -> Res A * State.

Definition ret {A} (a : A) : M A := λ s, (Ok a, s).

Definition bind {A B} (m : M A) (f : A -> M B) : M B := λ s,
  match m s with
  | (Ok a, s') => f a s'
  | (Raise e, s') => (Raise e, s')
  end.

Notation "'let*' x ':=' m 'in' k" := (bind m (λ x, k))
  (at level 10, x name, m at level 100, k at level 200, only parsing).
Notation "'let*' ' p ':=' m 'in' k" := (bind m (λ x, match x with p => k end))
  (at level 10, p pattern, m at level 100, k at level 200, only parsing).
Notation "m '>>' k" := (bind m (λ _, k))
  (at level 100, k at level 200, right associativity, only parsing).

Definition raise {A} (e : exn) : M A := λ s, (Raise e, s).

Definition lift {A} (r : Res A) : M A := λ s, (r, s).

Definition get : M State := λ s, (Ok s, s).

Definition modify (f : State -> State) : M () := λ s, (Ok (), f s).

(** [try: body / except Exception as e: handler e] *)
Definition try_except {A} (body : M A) (handler : exn -> M A) : M A := λ s,
  match body s with
  | (Ok a, s') => (Ok a, s')
  | (Raise e, s') => handler e s'
  end.

Definition logger (l : Level) (e : LogEvent) : M () := modify (add_log (l, e)).

(** ** The awaited calls *)

(** Every awaited call takes the next entry of the failure schedule. *)
Definition awaited (e : exn) : M () := λ s,
  match faults s with
  | true :: f => (Raise e, set_faults f s)
  | false :: f => (Ok (), set_faults f s)
  | [] => (Ok (), s)
  end.

Definition instance_of (k : Z) (r : UserRow) : User :=
  mkUser k (row_surplus_number r) (row_superior_id r) (row_username r).

Definition row_of (u : User) : UserRow :=
  mkRow (surplus_number u) (superior_id u) (username u).

(** [models.User.objects.select_related().aget(pk=k)] *)
Definition User_aget (k : Z) : M User :=
  awaited DatabaseError >>
  let* s := get in
  match users s !! k with
  | Some r => ret (instance_of k r)
  | None => raise DoesNotExist
  end.

(** [superior.groups.filter(name='合作商').aexists()] *)
Definition groups_partner_aexists (superior : User) : M bool :=
  awaited DatabaseError >>
  let* s := get in
  ret (bool_decide (pk superior ∈ partner_group s)).

(** [timezone.now()] *)
Definition timezone_now : M Z := let* s := get in ret (now s).

Definition entitlement_matches (u p t : Z) (e : PartnerMonthlyEntitlement) : bool :=
  (ent_user e =? u) && (ent_partner e =? p) && is_active e
  && (start_at e <=? t) && (t <? end_at e).

(** [PartnerMonthlyEntitlement.objects.filter(user=.., partner=..,
    is_active=True, start_at__lte=now, end_at__gt=now).aexists()] *)
Definition entitlement_aexists (u p : User) (t : Z) : M bool :=
  awaited DatabaseError >>
  let* s := get in
  ret (existsb (entitlement_matches (pk u) (pk p) t) (entitlements s)).

Definition with_surplus (b : Z) (r : UserRow) : UserRow :=
  mkRow b (row_superior_id r) (row_username r).

(** [User.objects.filter(pk=k, surplus_number__gte=c)
      .aupdate(surplus_number=F('surplus_number') - c)]: the number of rows
    changed. *)
Definition aupdate_decrement (k c : Z) : M Z :=
  awaited DatabaseError >>
  let* s := get in
  match users s !! k with
  | Some r =>
      if c <=? row_surplus_number r then
        modify (set_users (<[k := with_surplus (row_surplus_number r - c) r]> (users s))) >>
        modify (add_user_write (wr_decrement k c)) >>
        ret 1
      else ret 0
  | None => ret 0
  end.

(** [User.objects.filter(pk=k)
      .aupdate(surplus_number=F('surplus_number') + a)] *)
Definition aupdate_increment (k a : Z) : M Z :=
  awaited DatabaseError >>
  let* s := get in
  match users s !! k with
  | Some r =>
      modify (set_users (<[k := with_surplus (row_surplus_number r + a) r]> (users s))) >>
      modify (add_user_write (wr_increment k a)) >>
      ret 1
  | None => ret 0
  end.

(** [obj.arefresh_from_db(fields=['surplus_number'])], returning the
    refreshed instance. *)
Definition arefresh_from_db (u : User) : M User :=
  awaited DatabaseError >>
  let* s := get in
  match users s !! pk u with
  | Some r => ret (mkUser (pk u) (row_surplus_number r) (superior_id u) (username u))
  | None => raise DoesNotExist
  end.

(** [user.asave()]: every field of the instance is written to its row. *)
Definition User_asave (u : User) : M () :=
  awaited DatabaseError >>
  let* s := get in
  modify (set_users (<[pk u := row_of u]> (users s))) >>
  modify (add_user_write (wr_save (pk u) (surplus_number u))).

(** [AIUsageDetails(...).asave()] and [AIUsageDetails.objects.acreate(...)] *)
Definition AIUsageDetails_acreate (r : AIUsageDetails) : M () :=
  awaited DatabaseError >>
  modify (add_usage r).

(** [SystemNotify(...).asave()] and [SystemNotify.objects.acreate(...)] *)
Definition SystemNotify_acreate (n : SystemNotify) : M () :=
  awaited DatabaseError >>
  modify (add_notify n).

(** [alert_engine.check_and_trigger('balance', {'user': u, 'value': v})] *)
Definition alert_check_and_trigger (u : User) (v : Z) : M () :=
  awaited AlertError >>
  modify (add_alert (pk u, v)).

(** ** Result dictionaries *)

Inductive Status :=
| status_success
| status_error
| status_insufficient_balance
| status_concurrent_conflict.

Inductive Message :=
| msg (text : string)
| msg_exception (prefix : string) (e : exn).

(** The third component of [check_and_handle_insufficient_balance]:
    [result_info] of the internal handler, or [error_info] of the
    partner-only branch. *)
Inductive Info :=
| result_info (user_id : Z) (name : string)
    (original_balance required_cost tokens : Z) (usage_type : string)
    (status : Status) (message : Message)
| error_info (required partner_available : Z).

Definition info_status (i : Info) : Status :=
  match i with
  | result_info _ _ _ _ _ _ st _ => st
  | error_info _ _ => status_insufficient_balance
  end.

Definition info_message (i : Info) : Message :=
  match i with
  | result_info _ _ _ _ _ _ _ m => m
  | error_info _ _ => msg "合作商余额不足"
  end.

(** The dictionaries returned next to the success flag, one constructor for
    each literal in the source. *)
Inductive Detail :=
| zero_cost (remaining : Z) (multiplier : PyFloat.float)
| partner_insufficient (required partner_available : Z) (mode : BillingMode)
| dual_insufficient (required partner_available user_available : Z)
    (mode : BillingMode)
| partner_conflict (mode : BillingMode)
| user_conflict_rolled_back (mode : BillingMode)
| partner_done (mode : BillingMode)
    (partner_deducted user_deducted partner_remaining user_remaining : Z)
| partner_exception (e : exn) (mode : BillingMode)
| normal_insufficient (required available : Z) (detail_info : Info)
| normal_conflict (required : Z)
| normal_done (deducted tokens remaining : Z) (multiplier : PyFloat.float)
| deduct_exception (e : exn)
| credit_not_positive (amount : Z)
| credit_user_missing
| credit_done (added remaining : Z)
| credit_exception (e : exn).

(** The ["status"] entry.  In [normal_insufficient] the literal ends with
    [**detail_info], whose own ["status"] overrides the one written first. *)
Definition status_of (d : Detail) : Status :=
  match d with
  | zero_cost _ _ | partner_done _ _ _ _ _ | normal_done _ _ _ _
  | credit_done _ _ => status_success
  | partner_insufficient _ _ _ | dual_insufficient _ _ _ _ =>
      status_insufficient_balance
  | partner_conflict _ | user_conflict_rolled_back _ | normal_conflict _ =>
      status_concurrent_conflict
  | normal_insufficient _ _ i => info_status i
  | partner_exception _ _ | deduct_exception _ | credit_not_positive _
  | credit_user_missing | credit_exception _ => status_error
  end.

Definition message_of (d : Detail) : option Message :=
  match d with
  | zero_cost _ _ | partner_done _ _ _ _ _ | normal_done _ _ _ _
  | credit_done _ _ => None
  | partner_insufficient _ _ _ => Some (msg "合作商余额不足")
  | dual_insufficient _ _ _ _ => Some (msg "余额不足")
  | partner_conflict _ => Some (msg "合作商余额扣减失败（并发冲突）")
  | user_conflict_rolled_back _ =>
      Some (msg "用户余额扣减失败，已回滚合作商扣费")
  | normal_conflict _ => Some (msg "余额扣减失败（并发冲突）")
  | normal_insufficient _ _ i => Some (info_message i)
  | partner_exception e _ | deduct_exception e =>
      Some (msg_exception "扣费异常: " e)
  | credit_not_positive _ => Some (msg "充值金额必须大于0")
  | credit_user_missing => Some (msg "用户不存在")
  | credit_exception e => Some (msg_exception "充值异常: " e)
  end.

(** ** Billing strategy (lines 508-556) *)

Record Strategy := mkStrategy {
  is_partner_subordinate : bool;
  partner_user : option User;
  has_monthly_entitlement : bool;
  billing_mode : BillingMode }.

Definition default_strategy : Strategy := mkStrategy false None false normal.

#[global] Instance BillingMode_eq_dec : EqDecision BillingMode.
Proof. solve_decision. Defined.

(** [if user.superior_id:] is false for [None] and for [0]. *)
Definition truthy (o : option Z) : bool :=
  match o with
  | Some k => negb (k =? 0)
  | None => false
  end.

(** The only call of the [try] block that can raise
    [models.User.DoesNotExist] is [aget], which runs before the dictionary is
    changed; any other exception leaves the function. *)
Definition _get_billing_strategy : M Strategy :=
  let* s := get in
  let u := user s in
  if truthy (superior_id u) then
    try_except
      (let* superior := User_aget (default 0 (superior_id u)) in
       let* is_partner := groups_partner_aexists superior in
       if is_partner then
         let* t := timezone_now in
         let* has_entitlement := entitlement_aexists u superior t in
         ret (mkStrategy true (Some superior) has_entitlement
                 (if has_entitlement then partner_only else dual))
       else ret default_strategy)
      (λ e : exn,
         match e with
         | DoesNotExist => ret default_strategy
         | _ => raise e
         end)
  else ret default_strategy.

(** ** Insufficient balance (lines 15-172) *)

Definition dict_get (d : list (string * string)) (k : string) (dflt : string)
  : string :=
  match List.find (λ kv, bool_decide (kv.1 = k)) d with
  | Some kv => kv.2
  | None => dflt
  end.

Definition _get_customer_friendly_message (usage_type : string) : string :=
  dict_get
    [("ai回复", "抱歉，当前客服繁忙");
     ("标题生成", "剩余AI回复条数不足，请检查剩余条数");
     ("知识库修改", "剩余AI回复条数不足，请检查剩余条数");
     ("商品参数提取", "剩余AI回复条数不足，请检查剩余条数")]
    usage_type "剩余AI回复条数不足，请检查剩余条数".

Definition _get_notification_title (usage_type : string) : string :=
  dict_get
    [("ai回复", "AI回复条数不足");
     ("标题生成", "AI回复条数不足");
     ("知识库修改", "AI回复条数不足");
     ("商品参数提取", "AI回复条数不足")]
    usage_type "AI回复条数不足".

Definition _get_notification_content (usage_type : string)
    (closed_stores_count : Z) : string :=
  "尊敬的顾客
您的账户余额已不足，请购买条数或续费套餐。续费后，请重启水滴智能通讯插件".

(** [store if usage_type not in ["充值", "购买合作商套餐", "套餐赠送"]
    else None] *)
Definition store_of (usage_type : string) (store : option Z) : option Z :=
  if bool_decide (usage_type ∈ ["充值"; "购买合作商套餐"; "套餐赠送"])
  then None else store.

Definition zeroed (u : User) : User :=
  mkUser (pk u) 0 (superior_id u) (username u).

Definition _handle_insufficient_balance_internal
    (token_cost tokens : Z) (usage_type : string) (store : option Z) : M Info :=
  let* s0 := get in
  let u0 := user s0 in
  let info := result_info (pk u0) (username u0) (surplus_number u0)
                token_cost tokens usage_type in
  try_except
    ((if 0 <? surplus_number u0 then
        AIUsageDetails_acreate
          (mkUsage (surplus_number u0) 0 usage_type (pk u0) tokens (pk u0)
             (store_of usage_type store)) >>
        logger INFO (ev_remainder_recorded (surplus_number u0))
      else ret ()) >>
     modify (set_user (zeroed u0)) >>
     User_asave (zeroed u0) >>
     logger INFO ev_balance_zeroed >>
     SystemNotify_acreate
       (mkNotify (_get_notification_title usage_type)
          (_get_notification_content usage_type 0) "系统通知" (pk u0)) >>
     logger INFO ev_notify_created >>
     ret (info status_success (msg "余额不足处理完成")))
    (λ e : exn,
       logger ERROR (ev_handler_exception e) >>
       ret (info status_error (msg_exception "处理异常: " e))).

(** Lines 679-708. *)
Definition _handle_partner_insufficient_balance
    (partner : User) (token_cost : Z) (usage_type : string) : M () :=
  let* s := get in
  let u := user s in
  try_except
    (SystemNotify_acreate
       (mkNotify (_get_notification_title usage_type)
          "您的上级合作商余额不足，请联系合作商充值或购买套餐"
          "系统通知" (pk u)) >>
     SystemNotify_acreate
       (mkNotify "下级用户余额不足"
          ("您的下级用户 " +:+ username u
             +:+ " 因余额不足无法使用AI服务，请及时充值")
          "系统通知" (pk partner)) >>
     logger INFO ev_partner_notified)
    (λ e : exn, logger ERROR (ev_partner_notify_failed e)).

(** The test [strategy.get("is_partner_subordinate") and
    strategy.get("billing_mode") == "partner_only" and
    strategy.get("partner_user") is not None] of lines 42-46 and 239-243:
    the partner instance when it holds. *)
Definition partner_only_payer (strategy : Strategy) : option User :=
  if is_partner_subordinate strategy
     && bool_decide (billing_mode strategy = partner_only)
  then partner_user strategy else None.

Definition check_and_handle_insufficient_balance
    (tokens : Z) (usage_type : string) (store : option Z)
  : M (bool * option string * option Info) :=
  let* token_cost := lift (base_cost tokens) in
  let* billing_strategy := _get_billing_strategy in
  match partner_only_payer billing_strategy with
  | Some partner =>
      if token_cost <=? surplus_number partner then ret (true, None, None)
      else
        _handle_partner_insufficient_balance partner token_cost usage_type >>
        ret (false, Some (_get_customer_friendly_message usage_type),
             Some (error_info token_cost (surplus_number partner)))
  | None =>
      let* s := get in
      if token_cost <=? surplus_number (user s) then ret (true, None, None)
      else
        logger WARNING
          (ev_balance_insufficient token_cost (surplus_number (user s))) >>
        let* info := _handle_insufficient_balance_internal
                       token_cost tokens usage_type store in
        ret (false, Some (_get_customer_friendly_message usage_type),
             Some info)
  end.

(** Lines 176-228. *)
Definition check_balance_sufficient (tokens : Z) : M (bool * string) :=
  let* token_cost := lift (base_cost tokens) in
  if token_cost =? 0 then ret (true, "")
  else
    let* billing_strategy := _get_billing_strategy in
    let* s := get in
    let u := user s in
    if is_partner_subordinate billing_strategy then
      match partner_user billing_strategy with
      | None =>
          if token_cost <=? surplus_number u then ret (true, "")
          else ret (false, "您的余额不足，请充值")
      | Some partner =>
          if bool_decide (billing_mode billing_strategy = partner_only) then
            if token_cost <=? surplus_number partner then ret (true, "")
            else ret (false, "合作商余额不足，请联系合作商充值")
          else
            let partner_sufficient := token_cost <=? surplus_number partner in
            let user_sufficient := token_cost <=? surplus_number u in
            if partner_sufficient && user_sufficient then ret (true, "")
            else if negb partner_sufficient && negb user_sufficient then
              ret (false, "您和合作商的余额都不足，请充值或联系合作商充值")
            else if negb partner_sufficient then
              ret (false, "合作商余额不足，请联系合作商充值")
            else ret (false, "您的余额不足，请充值")
      end
    else if token_cost <=? surplus_number u then ret (true, "")
    else ret (false, "您的余额不足，请充值").

(** Lines 231-246. *)
Definition get_balance_owner : M User :=
  let* s := get in
  try_except
    (let* strategy := _get_billing_strategy in
     match partner_only_payer strategy with
     | Some partner => ret partner
     | None => ret (user s)
     end)
    (λ _ : exn, ret (user s)).

(** ** Credit (lines 410-503) *)

Definition increase_balance (amount : Z) (usage_type : string)
  : M (bool * Detail) :=
  try_except
    (if amount <=? 0 then
       logger WARNING (ev_credit_not_positive amount) >>
       ret (false, credit_not_positive amount)
     else
       let* s := get in
       let* updated_count := aupdate_increment (pk (user s)) amount in
       if updated_count =? 0 then
         logger ERROR ev_credit_user_missing >>
         ret (false, credit_user_missing)
       else
         let* u := arefresh_from_db (user s) in
         modify (set_user u) >>
         AIUsageDetails_acreate
           (mkUsage amount (surplus_number u) usage_type (pk u) 0 (pk u) None) >>
         logger INFO (ev_credit_done amount (surplus_number u)) >>
         ret (true, credit_done amount (surplus_number u)))
    (λ e : exn,
       logger ERROR (ev_credit_exception e) >>
       ret (false, credit_exception e)).

(** ** Partner billing (lines 559-751) *)

(** The partner instance is returned with the result: on success its
    refreshed balance is read again by the caller.  After an exception the
    caller reads only its key and name, so the handler hands back the
    instance it was given. *)
Definition _execute_partner_billing
    (partner : User) (token_cost : Z) (mode : BillingMode)
    (usage_type : string) (tokens : Z) (store : option Z)
  : M (User * (bool * Detail)) :=
  let* s0 := get in
  let u0 := user s0 in
  let insufficient :=
    match mode with
    | partner_only => surplus_number partner <? token_cost
    | _ => (surplus_number partner <? token_cost)
           || (surplus_number u0 <? token_cost)
    end in
  if insufficient then
    ret (partner,
         (false,
          match mode with
          | partner_only =>
              partner_insufficient token_cost (surplus_number partner) mode
          | _ =>
              dual_insufficient token_cost (surplus_number partner)
                (surplus_number u0) mode
          end))
  else
    try_except
      (let* partner_updated := aupdate_decrement (pk partner) token_cost in
       if partner_updated =? 0 then ret (partner, (false, partner_conflict mode))
       else
         let* partner' := arefresh_from_db partner in
         let* rejected :=
           (if bool_decide (mode = dual) then
              let* user_updated := aupdate_decrement (pk u0) token_cost in
              if user_updated =? 0 then
                aupdate_increment (pk partner') token_cost >>
                ret true
              else
                let* u := arefresh_from_db u0 in
                modify (set_user u) >>
                ret false
            else ret false) in
         if (rejected : bool) then
           ret (partner', (false, user_conflict_rolled_back mode))
         else
           let* s1 := get in
           AIUsageDetails_acreate
             (mkUsage token_cost (surplus_number partner') usage_type
                (pk partner') tokens (pk (user s1))
                (store_of usage_type store)) >>
           (if bool_decide (mode = dual) then
              AIUsageDetails_acreate
                (mkUsage token_cost (surplus_number (user s1)) usage_type
                   (pk (user s1)) tokens (pk (user s1))
                   (store_of usage_type store))
            else ret ()) >>
           ret (partner',
                (true,
                 partner_done mode token_cost
                   (if bool_decide (mode = dual) then token_cost else 0)
                   (surplus_number partner') (surplus_number (user s1)))))
      (λ e : exn,
         logger ERROR (ev_partner_billing_exception e) >>
         ret (partner, (false, partner_exception e mode))).

(** Lines 711-727. *)
Definition _trigger_balance_alerts (partner : User) : M () :=
  try_except
    (let* s := get in
     alert_check_and_trigger (user s) (surplus_number (user s)) >>
     alert_check_and_trigger partner (surplus_number partner))
    (λ _ : exn, ret ()).

(** Lines 730-751: one [logger.info]. *)
Definition _log_partner_billing_success (result : Detail) : M () :=
  match result with
  | partner_done mode _ _ _ _ => logger INFO (ev_partner_billing_done mode)
  | _ => raise KeyError
  end.

(** ** Normal billing (lines 754-850) *)

Definition _execute_normal_billing
    (tokens token_cost : Z) (usage_type : string) (store : option Z)
    (cost_multiplier : PyFloat.float)
  : M (bool * Detail) :=
  let* '(is_sufficient, error_msg, detail_info) :=
    check_and_handle_insufficient_balance tokens usage_type store in
  if negb is_sufficient then
    let* s := get in
    logger WARNING
      (ev_normal_insufficient token_cost (surplus_number (user s))) >>
    match detail_info with
    | Some info =>
        ret (false,
             normal_insufficient token_cost (surplus_number (user s)) info)
    | None => raise AttributeError
    end
  else
    let* s := get in
    let* updated_count := aupdate_decrement (pk (user s)) token_cost in
    if updated_count =? 0 then
      logger ERROR (ev_normal_conflict token_cost) >>
      ret (false, normal_conflict token_cost)
    else
      let* u := arefresh_from_db (user s) in
      modify (set_user u) >>
      AIUsageDetails_acreate
        (mkUsage token_cost (surplus_number u) usage_type (pk u) tokens (pk u)
           (store_of usage_type store)) >>
      logger INFO (ev_normal_done token_cost (surplus_number u)) >>
      try_except
        (alert_check_and_trigger u (surplus_number u))
        (λ _ : exn, ret ()) >>
      ret (true,
           normal_done token_cost tokens (surplus_number u) cost_multiplier).

(** ** The entry points (lines 256-407)

    [log_prefix] and [details] only reach the text of log lines and are left
    out. *)
Definition deduct_balance_by_tokens
    (tokens : Z) (usage_type : string) (store : option Z)
    (cost_multiplier : PyFloat.float)
  : M (bool * Detail) :=
  try_except
    (let* token_cost := lift (token_cost_of tokens cost_multiplier) in
     if token_cost =? 0 then
       logger WARNING ev_zero_tokens >>
       let* s := get in
       ret (true, zero_cost (surplus_number (user s)) cost_multiplier)
     else
       let* billing_strategy := _get_billing_strategy in
       if is_partner_subordinate billing_strategy then
         match partner_user billing_strategy with
         | Some partner =>
             let* '(partner', (success, result)) :=
               _execute_partner_billing partner token_cost
                 (billing_mode billing_strategy) usage_type tokens store in
             if negb success then
               _handle_partner_insufficient_balance partner' token_cost
                 usage_type >>
               ret (false, result)
             else
               _log_partner_billing_success result >>
               _trigger_balance_alerts partner' >>
               ret (true, result)
         | None => raise AttributeError
         end
       else
         _execute_normal_billing tokens token_cost usage_type store
           cost_multiplier)
    (λ e : exn,
       logger ERROR (ev_deduct_exception e) >>
       ret (false, deduct_exception e)).

Definition deduct_single_balance (usage_type : string) (store : option Z)
  : M bool :=
  try_except
    (let* '(success, result) :=
       deduct_balance_by_tokens 1000 usage_type store PyFloat.one in
     ret success)
    (λ e : exn, logger ERROR (ev_deduct_exception e) >> ret false).

(** ** Running a call *)

Definition initial (u : User) (rows : list (Z * UserRow)) (partners : list Z)
    (ents : list PartnerMonthlyEntitlement) (t : Z) (f : list bool) : State :=
  mkState u (list_to_map rows) (list_to_set partners) ents t [] [] [] [] [] f.

Definition balance_of (k : Z) (s : State) : option Z :=
  row_surplus_number <$> users s !! k.

(** A user without a superior, with the same balance cached and stored. *)
Definition solo (balance : Z) (f : list bool) : State :=
  initial (mkUser 1 balance None "alice")
    [(1, mkRow balance None "alice")] [] [] 0 f.

(** User 1 under partner 2 at time 20; [cached] is the balance the instance
    holds, [stored] the one in its row. *)
Definition sponsored (cached stored partner_balance : Z)
    (ents : list PartnerMonthlyEntitlement) (f : list bool) : State :=
  initial (mkUser 1 cached (Some 2) "bob")
    [(1, mkRow stored (Some 2) "bob"); (2, mkRow partner_balance None "partner")]
    [2] ents 20 f.

Definition expired : PartnerMonthlyEntitlement := mkEnt 1 2 true 0 10.
Definition running : PartnerMonthlyEntitlement := mkEnt 1 2 true 0 30.

(** ** Predicates of the statements *)

(** An entitlement of the user with this sponsor that is active and whose
    window [start_at, end_at) holds the present instant. *)
Definition active_grant (s : State) (sponsor : Z) : Prop :=
  ∃ e, In e (entitlements s)
       ∧ ent_user e = pk (user s) ∧ ent_partner e = sponsor
       ∧ is_active e = true ∧ start_at e <= now s < end_at e.

(** What a call leaves alone; the sinks and the failure schedule are free. *)
Definition same_accounts (s s' : State) : Prop :=
  user s' = user s ∧ users s' = users s ∧ user_writes s' = user_writes s
  ∧ partner_group s' = partner_group s ∧ entitlements s' = entitlements s
  ∧ now s' = now s.

(** The call resolved to dual billing: the cost is [c], not zero, and the
    strategy names the partner instance [p]; [s0] is the state after the
    strategy's queries. *)
Record dual_resolved (tokens : Z) (m : PyFloat.float) (s s0 : State) (c : Z)
    (p : User) : Prop := {
  cost_computed : token_cost_of tokens m = Ok c;
  cost_nonzero : c ≠ 0;
  strategy_dual :
    _get_billing_strategy s = (Ok (mkStrategy true (Some p) false dual), s0) }.

(** The run of the dual branch up to the account's conditional update that
    changes no row: the pre-check passed on the cached balances, the
    sponsor's update changed its row, the account's changed none. *)
Record dual_half_done (partner : User) (c : Z) (s s3 : State) (p' : User)
    : Prop := {
  partner_covers : c <= surplus_number partner;
  user_covers : c <= surplus_number (user s);
  sponsor_debit :
    ∃ s1 s2, aupdate_decrement (pk partner) c s = (Ok 1, s1)
             ∧ arefresh_from_db partner s1 = (Ok p', s2)
             ∧ aupdate_decrement (pk (user s)) c s2 = (Ok 0, s3) }.

(** The normal path up to the refreshed instance: both strategy look-ups say
    [normal], the pre-check passes, the conditional update changes the row. *)
Record normal_debited (tokens : Z) (m : PyFloat.float) (s sK : State) (c : Z)
    : Prop := {
  nd_cost : token_cost_of tokens m = Ok c;
  nd_nonzero : c ≠ 0;
  nd_run :
    ∃ s0 s1 s2 b u',
      _get_billing_strategy s = (Ok default_strategy, s0)
      ∧ base_cost tokens = Ok b
      ∧ _get_billing_strategy s0 = (Ok default_strategy, s1)
      ∧ b <= surplus_number (user s)
      ∧ aupdate_decrement (pk (user s)) c s1 = (Ok 1, s2)
      ∧ arefresh_from_db (user s) s2 = (Ok u', sK) }.

(** The partner paths up to the last refresh. *)
Record partner_debited (tokens : Z) (m : PyFloat.float) (mode : BillingMode)
    (s sK : State) (c : Z) (p : User) : Prop := {
  pd_cost : token_cost_of tokens m = Ok c;
  pd_nonzero : c ≠ 0;
  pd_run :
    ∃ s0 s1 s2 p',
      _get_billing_strategy s
      = (Ok (mkStrategy true (Some p) (bool_decide (mode = partner_only)) mode), s0)
      ∧ c <= surplus_number p
      ∧ aupdate_decrement (pk p) c s0 = (Ok 1, s1)
      ∧ arefresh_from_db p s1 = (Ok p', s2)
      ∧ (mode = partner_only ∧ sK = s2
         ∨ mode = dual ∧ c <= surplus_number (user s)
           ∧ ∃ s3 s4 u',
               aupdate_decrement (pk (user s)) c s2 = (Ok 1, s3)
               ∧ arefresh_from_db (user s) s3 = (Ok u', s4)
               ∧ sK = set_user u' s4) }.

(** The conditional updates of the call have changed their rows; [sK] is the
    state in which the usage record is about to be appended. *)
Definition debited (mode : BillingMode) (tokens : Z) (m : PyFloat.float)
    (s sK : State) (c : Z) : Prop :=
  match mode with
  | normal => normal_debited tokens m s sK c
  | _ => ∃ p, partner_debited tokens m mode s sK c p
  end.

Definition record_failure_detail (mode : BillingMode) : Detail :=
  match mode with
  | normal => deduct_exception DatabaseError
  | _ => partner_exception DatabaseError mode
  end.

Definition record_failure_event (mode : BillingMode) : LogEvent :=
  match mode with
  | normal => ev_deduct_exception DatabaseError
  | _ => ev_partner_billing_exception DatabaseError
  end.

(** The stored balance of one account, if it has a row, is not negative. *)
Definition nonneg_in (acct : Z) (m : gmap Z UserRow) : Prop :=
  ∀ r, m !! acct = Some r -> 0 <= row_surplus_number r.

Definition balance_nonneg (acct : Z) (s : State) : Prop :=
  nonneg_in acct (users s).

Definition preserves (acct : Z) {A} (m : M A) : Prop :=
  ∀ s, balance_nonneg acct s -> balance_nonneg acct (m s).2.

(** ** The key of the paying account (lines 249-253) *)

Definition get_balance_owner_id : M Z :=
  let* owner := get_balance_owner in
  ret (pk owner).

(** ** States and results of the further statements *)

(** Only the failure schedule differs. *)
Definition only_faults_consumed (s s' : State) : Prop :=
  s' = set_faults (faults s') s.

(** The tables and the caller's instance are what they were; the log, the
    alerts and the failure schedule are free. *)
Definition same_tables (s s' : State) : Prop :=
  user s' = user s ∧ users s' = users s ∧ user_writes s' = user_writes s
  ∧ usage_details s' = usage_details s ∧ notifications s' = notifications s.

(** The two notices of [_handle_partner_insufficient_balance] (lines
    690-703). *)
Definition user_notice (ut : string) (u : User) : SystemNotify :=
  mkNotify (_get_notification_title ut)
    "您的上级合作商余额不足，请联系合作商充值或购买套餐" "系统通知" (pk u).

Definition partner_notice (u partner : User) : SystemNotify :=
  mkNotify "下级用户余额不足"
    ("您的下级用户 " +:+ username u +:+ " 因余额不足无法使用AI服务，请及时充值")
    "系统通知" (pk partner).

(** The notices [_handle_partner_insufficient_balance] gets to file when the
    awaited calls it makes meet the failure schedule [rest]: none when the
    first creation fails, the user's alone when the second does. *)
Definition notices_sent (rest : list bool) (ut : string) (u partner : User)
  : list SystemNotify :=
  match rest with
  | true :: _ => []
  | false :: true :: _ => [user_notice ut u]
  | _ => [user_notice ut u; partner_notice u partner]
  end.

(** The state after the two notices of a rejected partner call. *)
Definition notified (ut : string) (partner : User) (s : State) : State :=
  add_log (INFO, ev_partner_notified)
    (add_notify (partner_notice (user s) partner)
       (add_notify (user_notice ut (user s)) s)).

(** What [_handle_insufficient_balance_internal] returns: [result_info]
    as completed (lines 134-135), or as the handler of line 137 leaves it
    after catching [e]. *)
Definition handler_info (u : User) (token_cost tokens : Z) (ut : string)
    (outcome : option exn) : Info :=
  match outcome with
  | None =>
      result_info (pk u) (username u) (surplus_number u) token_cost tokens ut
        status_success (msg "余额不足处理完成")
  | Some e =>
      result_info (pk u) (username u) (surplus_number u) token_cost tokens ut
        status_error (msg_exception "处理异常: " e)
  end.

(** The usage record of lines 105-113 and the notification of lines
    125-130. *)
Definition remainder_record (u : User) (tokens : Z) (ut : string)
    (store : option Z) : AIUsageDetails :=
  mkUsage (surplus_number u) 0 ut (pk u) tokens (pk u) (store_of ut store).

Definition balance_notice (ut : string) (u : User) : SystemNotify :=
  mkNotify (_get_notification_title ut) (_get_notification_content ut 0)
    "系统通知" (pk u).

(** The state the internal handler leaves when none of its awaited calls
    fails. *)
Definition settled (tokens : Z) (ut : string) (store : option Z) (s : State)
  : State :=
  let u := user s in
  add_log (INFO, ev_notify_created)
    (add_notify (balance_notice ut u)
       (add_log (INFO, ev_balance_zeroed)
          (add_user_write (wr_save (pk u) 0)
             (set_users (<[pk u := row_of (zeroed u)]> (users s))
                (set_user (zeroed u)
                   (if 0 <? surplus_number u then
                      add_log (INFO, ev_remainder_recorded (surplus_number u))
                        (add_usage (remainder_record u tokens ut store) s)
                    else s)))))).

(** The state a credit of [amount] leaves when nothing fails; [r] is the
    row of the user before. *)
Definition credited (amount : Z) (ut : string) (r : UserRow) (s : State)
  : State :=
  let u := user s in
  let balance := row_surplus_number r + amount in
  add_log (INFO, ev_credit_done amount balance)
    (add_usage (mkUsage amount balance ut (pk u) 0 (pk u) None)
       (set_user (mkUser (pk u) balance (superior_id u) (username u))
          (add_user_write (wr_increment (pk u) amount)
             (set_users (<[pk u := with_surplus balance r]> (users s)) s)))).

(** [m] keeps [I]: run in a state that satisfies it, it ends in one that
    does, whether it returns or raises. *)
Definition invariant (I : State -> Prop) {A} (m : M A) : Prop :=
  ∀ s, I s -> I (m s).2.

(** What makes a property of the state an invariant of every call: it does
    not look at the failure schedule, appending to a sink keeps it, and so
    do a write to the row of a key in [ok_key] and the replacement of the
    caller's instance by one in [ok_user]; the caller's instance is in
    [ok_user], and its key and its superior's are in [ok_key]. *)
Record stable (I : State -> Prop) (ok_key : Z -> Prop) (ok_user : User -> Prop)
  : Prop := {
  st_faults : ∀ f s, I s -> I (set_faults f s);
  st_log : ∀ l s, I s -> I (add_log l s);
  st_usage : ∀ r s, I s -> I (add_usage r s);
  st_notify : ∀ n s, I s -> I (add_notify n s);
  st_alert : ∀ a s, I s -> I (add_alert a s);
  st_write : ∀ w s, I s -> I (add_user_write w s);
  st_users : ∀ k r s, ok_key k -> I s -> I (set_users (<[k := r]> (users s)) s);
  st_user : ∀ u s, ok_user u -> I s -> I (set_user u s);
  st_me : ∀ s, I s -> ok_user (user s) ∧ ok_key (pk (user s));
  st_superior : ∀ s k, I s -> superior_id (user s) = Some k -> ok_key k;
  st_refreshed : ∀ u b,
    ok_user u -> ok_user (mkUser (pk u) b (superior_id u) (username u)) }.

(** The caller is [me] under [sup], and the row of [k] is [R]. *)
Definition untouched (me : Z) (sup : option Z) (k : Z) (R : option UserRow)
    (s : State) : Prop :=
  pk (user s) = me ∧ superior_id (user s) = sup ∧ users s !! k = R.

(** The records of [s0] are still there in [s], in their order. *)
Definition grows (s0 s : State) : Prop :=
  usage_details s0 `prefix_of` usage_details s
  ∧ notifications s0 `prefix_of` notifications s
  ∧ log s0 `prefix_of` log s.

(** ** Rounding to nearest *)

(** What [round_nearest_even] returns for a mantissa and the position of
    the discarded part. *)
Definition rounds (q : Z) (l : location) (v : Z) : Prop :=
  match l with
  | loc_Exact | loc_Inexact Lt => v = q
  | loc_Inexact Gt => v = q + 1
  | loc_Inexact Eq => v = q ∨ v = q + 1
  end.

(** The position after one more digit is shifted out: [b] is that digit,
    [l] the position before. *)
Definition halved (b : bool) (l : location) : location :=
  match b, l with
  | false, loc_Exact => loc_Exact
  | false, _ => loc_Inexact Lt
  | true, loc_Exact => loc_Inexact Eq
  | true, _ => loc_Inexact Gt
  end.

(** * Binary64 arithmetic of the cost *)

Section Binary64.

Local Abbreviation prec := PyFloat.prec.
Local Abbreviation emax := PyFloat.emax.

Lemma digits2_pos_size (p : positive) : digits2_pos p = Pos.size p.
Proof. induction p; cbn; congruence. Qed.

Lemma Zdigits2_bounds (p : positive) :
  2 ^ (Zdigits2 (Z.pos p) - 1) <= Z.pos p < 2 ^ Zdigits2 (Z.pos p).
Proof.
  cbn [Zdigits2]. rewrite digits2_pos_size.
  pose proof (Pos.size_gt p) as Hgt. pose proof (Pos.size_le p) as Hle.
  apply Pos2Z.pos_lt_pos in Hgt. apply Pos2Z.pos_le_pos in Hle.
  rewrite Pos2Z.inj_pow in Hgt, Hle.
  change (Z.pos p~0) with (2 * Z.pos p) in Hle.
  split; [|exact Hgt].
  replace (Z.pos (Pos.size p)) with (Z.succ (Z.pos (Pos.size p) - 1)) in Hle by lia.
  rewrite Z.pow_succ_r in Hle by lia. lia.
Qed.

Lemma Zdigits2_unique (n k : Z) :
  2 ^ (k - 1) <= n < 2 ^ k -> 0 < k -> Zdigits2 n = k.
Proof.
  intros [Hlo Hhi] Hk.
  assert (0 < n) by (pose proof (Z.pow_pos_nonneg 2 (k - 1)); lia).
  destruct n as [|p|p]; try lia.
  pose proof (Zdigits2_bounds p) as [Hl Hh].
  set (d := Zdigits2 (Z.pos p)) in *.
  assert (0 < d) by (subst d; cbn; lia).
  destruct (Z.lt_trichotomy d k) as [Hlt|[Heq|Hgt]]; [|exact Heq|].
  - assert (2 ^ d <= 2 ^ (k - 1)) by (apply Z.pow_le_mono_r; lia). lia.
  - assert (2 ^ k <= 2 ^ (d - 1)) by (apply Z.pow_le_mono_r; lia). lia.
Qed.

Lemma loc_of_record_of_loc (m : Z) (l : location) :
  loc_of_shr_record (shr_record_of_loc m l) = l.
Proof. now destruct l as [|[]]. Qed.

Lemma shr_m_record_of_loc (m : Z) (l : location) :
  shr_m (shr_record_of_loc m l) = m.
Proof. now destruct l as [|[]]. Qed.

(** Rounding a mantissa that already has 53 digits. *)
Lemma round_aux_53 (sx : bool) (q e : Z) (l : location) :
  2 ^ 52 <= q < 2 ^ 53 -> -1074 <= e <= 960 ->
  binary_round_aux prec emax sx q e l
  = if round_nearest_even q l <? 2 ^ 53
    then S754_finite sx (Z.to_pos (round_nearest_even q l)) e
    else S754_finite sx (Z.to_pos (2 ^ 52)) (e + 1).
Proof.
  intros Hq He. unfold binary_round_aux, shr_fexp.
  rewrite (Zdigits2_unique q 53) by (cbn; lia).
  replace (fexp prec emax (53 + e) - e) with 0
    by (unfold fexp, emin, PyFloat.prec, PyFloat.emax; lia).
  cbn [shr]. rewrite loc_of_record_of_loc, shr_m_record_of_loc.
  assert (Hr : round_nearest_even q l = q ∨ round_nearest_even q l = q + 1).
  { destruct l as [|[]]; cbn; try (now left); try (now right).
    destruct (Z.even q); [now left|now right]. }
  destruct (Z.ltb_spec (round_nearest_even q l) (2 ^ 53)) as [Hlt|Hge].
  - rewrite (Zdigits2_unique _ 53) by (cbn; lia).
    replace (fexp prec emax (53 + e) - e) with 0
      by (unfold fexp, emin, PyFloat.prec, PyFloat.emax; lia).
    cbn [shr shr_record_of_loc shr_m].
    destruct (round_nearest_even q l) as [|p|p] eqn:E; try lia.
    assert ((e <=? emax - prec) = true) as ->
      by (unfold PyFloat.prec, PyFloat.emax; lia).
    reflexivity.
  - assert (round_nearest_even q l = 2 ^ 53) as -> by lia.
    assert ((e + 1 <=? emax - prec) = true) as Hx
      by (unfold PyFloat.prec, PyFloat.emax; lia).
    rewrite (Zdigits2_unique (2 ^ 53) 54) by (cbn; lia).
    replace (fexp prec emax (54 + e) - e) with 1
      by (unfold fexp, emin, PyFloat.prec, PyFloat.emax; lia).
    cbn. cbn in Hx. now rewrite Hx.
Qed.

Lemma rounds_nearest_even (q : Z) (l : location) :
  rounds q l (round_nearest_even q l).
Proof.
  destruct l as [|[]]; cbn; try reflexivity.
  destruct (Z.even q); [now left|now right].
Qed.

Lemma shr_fexp_53 (m e : Z) (l : location) :
  2 ^ 52 <= m < 2 ^ 53 -> -1074 <= e <= 960 ->
  shr_fexp prec emax m e l = (shr_record_of_loc m l, e).
Proof.
  intros Hm He. unfold shr_fexp.
  rewrite (Zdigits2_unique m 53) by (cbn; lia).
  replace (fexp prec emax (53 + e) - e) with 0
    by (unfold fexp, emin, PyFloat.prec, PyFloat.emax; lia).
  reflexivity.
Qed.

Lemma shr_fexp_54 (m e : Z) (l : location) :
  2 ^ 53 <= m < 2 ^ 54 -> -1074 <= e <= 900 ->
  shr_fexp prec emax m e l = (shr_1 (shr_record_of_loc m l), e + 1).
Proof.
  intros Hm He. unfold shr_fexp.
  rewrite (Zdigits2_unique m 54) by (cbn; lia).
  replace (fexp prec emax (54 + e) - e) with 1
    by (unfold fexp, emin, PyFloat.prec, PyFloat.emax; lia).
  reflexivity.
Qed.

(** One digit shifted out of a positive mantissa. *)
Lemma shr_1_halves (q : Z) (l : location) :
  0 < q ->
  ∃ (m1 : Z) (b : bool),
    q = 2 * m1 + (if b then 1 else 0)
    ∧ shr_m (shr_1 (shr_record_of_loc q l)) = m1
    ∧ loc_of_shr_record (shr_1 (shr_record_of_loc q l)) = halved b l.
Proof.
  intros Hq. destruct q as [|[p|p|]|]; try lia.
  - exists (Z.pos p), true. split; [lia|]. now destruct l as [|[]].
  - exists (Z.pos p), false. split; [lia|]. now destruct l as [|[]].
  - exists 0, true. split; [lia|]. now destruct l as [|[]].
Qed.

Lemma round_aux_54 (sx : bool) (q e : Z) (l : location) :
  2 ^ 53 <= q < 2 ^ 54 -> -1074 <= e <= 900 ->
  binary_round_aux prec emax sx q e l
  = binary_round_aux prec emax sx
      (shr_m (shr_1 (shr_record_of_loc q l))) (e + 1)
      (loc_of_shr_record (shr_1 (shr_record_of_loc q l))).
Proof.
  intros Hq He.
  destruct (shr_1_halves q l ltac:(lia)) as (m1 & b & Hq2 & Hm1 & _).
  assert (Hm : 2 ^ 52 <= shr_m (shr_1 (shr_record_of_loc q l)) < 2 ^ 53)
    by (rewrite Hm1; destruct b; lia).
  unfold binary_round_aux.
  rewrite (shr_fexp_54 q e l Hq He).
  rewrite (shr_fexp_53 _ (e + 1) _ Hm) by lia.
  now rewrite loc_of_record_of_loc, shr_m_record_of_loc.
Qed.

(** The rounded value, scaled back to the exponent the mantissa came with:
    the mantissa rounded at its last digit when it has 53 digits, at its
    last but one when it has 54. *)
Lemma round_aux_value (q e : Z) (l : location) :
  2 ^ 52 <= q < 2 ^ 54 -> -1074 <= e <= 900 ->
  ∃ (M : positive) (E : Z),
    binary_round_aux prec emax false q e l = S754_finite false M E
    ∧ e <= E <= e + 2
    ∧ (q < 2 ^ 53 -> rounds q l (Z.pos M * 2 ^ (E - e)))
    ∧ (2 ^ 53 <= q ->
       ∃ (m1 v1 : Z) (b : bool),
         q = 2 * m1 + (if b then 1 else 0)
         ∧ rounds m1 (halved b l) v1
         ∧ Z.pos M * 2 ^ (E - e) = 2 * v1).
Proof.
  intros Hq He.
  assert (H53 : ∀ q e l, 2 ^ 52 <= q < 2 ^ 53 -> -1074 <= e <= 960 ->
            ∃ (M : positive) (E : Z),
              binary_round_aux prec emax false q e l = S754_finite false M E
              ∧ e <= E <= e + 1
              ∧ Z.pos M * 2 ^ (E - e) = round_nearest_even q l).
  { clear. intros q e l Hq He. rewrite round_aux_53 by assumption.
    assert (Hr : round_nearest_even q l = q ∨ round_nearest_even q l = q + 1).
    { pose proof (rounds_nearest_even q l) as H.
      destruct l as [|[]]; cbn in H; tauto. }
    destruct (Z.ltb_spec (round_nearest_even q l) (2 ^ 53)) as [Hlt|Hge].
    - eexists _, e. split; [reflexivity|].
      rewrite Z.sub_diag, Z.mul_1_r, Z2Pos.id by lia. lia.
    - eexists _, (e + 1). split; [reflexivity|].
      replace (e + 1 - e) with 1 by lia. rewrite Z2Pos.id by (cbn; lia).
      change (2 ^ 52 * 2 ^ 1) with (2 ^ 53). lia. }
  destruct (Z.lt_ge_cases q (2 ^ 53)) as [Hlt|Hge].
  - destruct (H53 q e l ltac:(lia) ltac:(lia)) as (M & E & Hrun & HE & HV).
    exists M, E. split; [exact Hrun|]. split; [lia|]. split; [|lia].
    intros _. rewrite HV. apply rounds_nearest_even.
  - rewrite round_aux_54 by (try assumption; lia).
    destruct (shr_1_halves q l ltac:(lia)) as (m1 & b & Hq2 & -> & ->).
    destruct (H53 m1 (e + 1) (halved b l) ltac:(destruct b; lia) ltac:(lia))
      as (M & E & Hrun & HE & HV).
    exists M, E. split; [exact Hrun|]. split; [lia|]. split; [lia|].
    intros _. exists m1, (round_nearest_even m1 (halved b l)), b.
    split; [exact Hq2|]. split; [apply rounds_nearest_even|].
    replace (E - e) with (Z.succ (E - (e + 1))) by lia.
    rewrite Z.pow_succ_r by lia. lia.
Qed.

Lemma ceil_unique (M P n : Z) :
  0 < P -> (n - 1) * P < M <= n * P -> - (- M / P) = n.
Proof.
  intros HP [Hlo Hhi].
  assert (- M / P = - n) as ->; [|lia].
  symmetry. apply (Z.div_unique_pos _ _ _ (n * P - M)); lia.
Qed.

Lemma div_core_1000 (t d : Z) :
  0 < t -> Zdigits2 t = d -> 1 <= d <= 54 ->
  SFdiv_core_binary prec emax t 0 1000 0
  = (t * 2 ^ (63 - d) / 1000, d - 63,
     new_location 1000 ((t * 2 ^ (63 - d)) mod 1000)).
Proof.
  intros Ht Hd Hr. unfold SFdiv_core_binary. rewrite Hd.
  change (Zdigits2 1000) with 10.
  replace (Z.min (fexp prec emax (d + 0 - (10 + 0))) (0 - 0)) with (d - 63)
    by (unfold fexp, emin, PyFloat.prec, PyFloat.emax; lia).
  replace (0 - 0 - (d - 63)) with (63 - d) by lia.
  destruct (63 - d) as [|p|p] eqn:Hs; try lia.
  rewrite Z.shiftl_mul_pow2 by lia.
  unfold Z.div, Z.modulo.
  now destruct (Z.div_eucl (t * 2 ^ Z.pos p) 1000).
Qed.

Lemma location_of_remainder (r : Z) :
  0 <= r < 1000 ->
  r = 0 ∧ new_location 1000 r = loc_Exact
  ∨ 0 < 2 * r < 1000 ∧ new_location 1000 r = loc_Inexact Lt
  ∨ 2 * r = 1000 ∧ new_location 1000 r = loc_Inexact Eq
  ∨ 1000 < 2 * r ∧ new_location 1000 r = loc_Inexact Gt.
Proof.
  intros Hr. unfold new_location. change (Z.even 1000) with true.
  unfold new_location_even.
  destruct (Z.eqb_spec r 0) as [->|Hne]; [now left|right].
  destruct (Z.compare_spec (2 * r) 1000); [right; left|left|right; right];
    split; (lia || reflexivity).
Qed.

(** The quotient by 1000 of a positive integer up to [1000 * 2^44], as
    binary64: a finite positive number whose ceiling is the exact ceiling. *)
Lemma truediv_1000 (t : Z) :
  0 < t <= 1000 * 2 ^ 44 ->
  ∃ (M : positive) (p : positive),
    PyFloat.truediv t 1000 = Ok (S754_finite false M (Z.neg p))
    ∧ ((t + 999) / 1000 - 1) * 2 ^ Z.pos p < Z.pos M
      <= (t + 999) / 1000 * 2 ^ Z.pos p.
Proof.
  intros Ht.
  set (n := (t + 999) / 1000).
  assert (Hn : 1000 * (n - 1) < t <= 1000 * n).
  { subst n. pose proof (Z.div_mod (t + 999) 1000 ltac:(lia)).
    pose proof (Z.mod_pos_bound (t + 999) 1000 ltac:(lia)). lia. }
  destruct t as [|tp|tp]; try lia.
  pose proof (Zdigits2_bounds tp) as Hd.
  set (d := Zdigits2 (Z.pos tp)) in *.
  assert (Hd1 : 1 <= d) by (subst d; cbn; lia).
  assert (Hd54 : d <= 54).
  { destruct (Z.le_gt_cases d 54) as [|Hgt]; [assumption|].
    assert (2 ^ 54 <= 2 ^ (d - 1)) by (apply Z.pow_le_mono_r; lia).
    lia. }
  set (K := 2 ^ (63 - d)).
  assert (HK : 2 ^ 9 <= K) by (apply Z.pow_le_mono_r; lia).
  assert (HK53 : d <= 53 -> 2 ^ 10 <= K)
    by (intros; apply Z.pow_le_mono_r; lia).
  assert (HK54 : d = 54 -> K = 2 ^ 9) by (intros Hx; subst K; now rewrite Hx).
  assert (HN : 2 ^ 62 <= Z.pos tp * K < 2 ^ 63).
  { assert (E1 : 2 ^ (d - 1) * K = 2 ^ 62).
    { subst K. rewrite <- Z.pow_add_r by lia. f_equal. lia. }
    assert (E2 : 2 ^ d * K = 2 ^ 63).
    { subst K. rewrite <- Z.pow_add_r by lia. f_equal. lia. }
    cbn in HK. nia. }
  assert (HnK : 1000 * (n * K) - 999 * K <= Z.pos tp * K <= 1000 * (n * K))
    by (cbn in HK; nia).
  assert (Hlast : Z.pos tp <> 1000 * n ->
                  Z.pos tp * K <= 1000 * (n * K) - K) by (cbn in HK; nia).
  assert (Hexact : Z.pos tp = 1000 * n -> Z.pos tp * K = 1000 * (n * K))
    by (intros ->; ring).
  assert (Heven : ∃ h, n * K = 2 * h).
  { exists (n * 2 ^ (63 - d - 1)). subst K.
    replace (63 - d) with (Z.succ (63 - d - 1)) at 1 by lia.
    rewrite Z.pow_succ_r by lia. ring. }
  assert (Hcap : d = 54 -> Z.pos tp * K <= 1000 * 2 ^ 53).
  { intros Hx. rewrite (HK54 Hx). cbn in Ht |- *. lia. }
  set (N := Z.pos tp * K) in *.
  pose proof (Z.div_mod N 1000 ltac:(lia)) as HNq.
  pose proof (Z.mod_pos_bound N 1000 ltac:(lia)) as HNr.
  set (q := N / 1000) in *. set (r := N mod 1000) in *.
  assert (Hq : 2 ^ 52 <= q < 2 ^ 54) by (cbn in HN |- *; lia).
  destruct (round_aux_value q (d - 63) (new_location 1000 r) Hq ltac:(lia))
    as (M & E & Hrun & HE & H53 & H54).
  destruct E as [|p|p]; try lia.
  exists M, p. split.
  - unfold PyFloat.truediv. cbn [Z.eqb Z.abs Z.ltb Z.compare xorb].
    change (Z.abs (Z.pos tp)) with (Z.pos tp). change (Z.abs 1000) with 1000.
    rewrite (div_core_1000 (Z.pos tp) d) by (try reflexivity; lia).
    fold K. fold N. fold q. fold r. now rewrite Hrun.
  - set (P := 2 ^ Z.pos p). set (D := 2 ^ (Z.neg p - (d - 63))) in *.
    assert (HP : 0 < P) by (subst P; apply Z.pow_pos_nonneg; lia).
    assert (HD : 0 < D) by (subst D; apply Z.pow_pos_nonneg; lia).
    assert (HKPD : K = P * D).
    { subst K P D. rewrite <- Z.pow_add_r by lia. f_equal. lia. }
    set (V := Z.pos M * D) in *.
    assert (Hfit : (n - 1) * K < V <= n * K).
    { destruct Heven as (h & Hh).
      replace ((n - 1) * K) with (n * K - K) by ring.
      set (nK := n * K) in *. clearbody nK N K V.
      destruct (Z.lt_ge_cases q (2 ^ 53)) as [Hlt|Hge].
      - specialize (H53 Hlt). clear H54.
        destruct (location_of_remainder r HNr)
          as [[? Hl]|[[? Hl]|[[? Hl]|[? Hl]]]];
          rewrite Hl in H53; cbn [rounds] in H53; lia.
      - destruct (H54 Hge) as (m1 & v1 & b & Hq2 & Hv & ->). clear H53 H54.
        assert (Hd53 : d <= 53 ∨ (d = 54 ∧ r = 0 ∧ q = 2 ^ 53))
          by lia.
        destruct (location_of_remainder r HNr)
          as [[? Hl]|[[? Hl]|[[? Hl]|[? Hl]]]];
          rewrite Hl in Hv; destruct b; cbn [rounds halved] in Hv; lia. }
    rewrite HKPD in Hfit. subst V.
    split.
    + apply (Z.mul_lt_mono_pos_r D); [exact HD|]. lia.
    + apply (Z.mul_le_mono_pos_r _ _ D); [exact HD|]. lia.
Qed.

Lemma base_cost_exact (t : Z) :
  0 < t <= 1000 * 2 ^ 44 -> base_cost t = Ok ((t + 999) / 1000).
Proof.
  intros Ht. unfold base_cost.
  assert ((0 <? t) = true) as -> by lia.
  destruct (truediv_1000 t Ht) as (M & p & -> & Hfit).
  cbn [PyFloat.math_ceil]. f_equal.
  apply ceil_unique; [apply Z.pow_pos_nonneg; lia|exact Hfit].
Qed.

(** [float(n)] keeps an integer below [2^53] as it is: the mantissa is [n]
    shifted up to 53 digits. *)
Lemma float_of_int_exact (n d : Z) :
  0 < n -> Zdigits2 n = d -> d < 53 ->
  PyFloat.float_of_int n
  = Ok (S754_finite false (Z.to_pos (n * 2 ^ (53 - d))) (d - 53)).
Proof.
  intros Hn Hd Hlt. destruct n as [|np|np]; try lia.
  pose proof (Zdigits2_bounds np) as Hb. rewrite Hd in Hb.
  assert (Hd1 : 1 <= d) by (subst d; cbn; lia).
  unfold PyFloat.float_of_int, binary_normalize, binary_round.
  change (Z.pos (digits2_pos np)) with (Zdigits2 (Z.pos np)). rewrite Hd.
  unfold shl_align.
  replace (fexp prec emax (d + 0) - 0) with (d - 53)
    by (unfold fexp, emin, PyFloat.prec, PyFloat.emax; lia).
  replace (fexp prec emax (d + 0)) with (d - 53)
    by (unfold fexp, emin, PyFloat.prec, PyFloat.emax; lia).
  destruct (d - 53) as [|k|k] eqn:Hk; try lia.
  replace (53 - d) with (Z.pos k) by lia.
  assert (Hm : Z.pos (Pos.iter xO np k) = Z.pos np * 2 ^ Z.pos k).
  { pose proof (shift_pos_correct k np) as H. unfold shift_pos in H.
    rewrite H. change (Z.pow_pos 2 k) with (2 ^ Z.pos k). lia. }
  assert (Hr : 2 ^ 52 <= Z.pos (Pos.iter xO np k) < 2 ^ 53).
  { rewrite Hm.
    assert (E1 : 2 ^ (d - 1) * 2 ^ Z.pos k = 2 ^ 52).
    { rewrite <- Z.pow_add_r by lia. f_equal. lia. }
    assert (E2 : 2 ^ d * 2 ^ Z.pos k = 2 ^ 53).
    { rewrite <- Z.pow_add_r by lia. f_equal. lia. }
    assert (0 < 2 ^ Z.pos k) by (apply Z.pow_pos_nonneg; lia). nia. }
  rewrite round_aux_53 by (try assumption; lia).
  cbn [round_nearest_even].
  assert ((Z.pos (Pos.iter xO np k) <? 2 ^ 53) = true) as -> by lia.
  now rewrite <- Hm.
Qed.

Lemma shift_out_52_zeros (m : positive) :
  iter_pos shr_1 52 (Build_shr_record (Z.pos (m * 4503599627370496)) false false)
  = Build_shr_record (Z.pos m) false false.
Proof. rewrite Pos.mul_comm. reflexivity. Qed.

(** Multiplying by a power of two changes the exponent only. *)
Lemma mul_pow2 (m : positive) (e j : Z) :
  2 ^ 52 <= Z.pos m < 2 ^ 53 -> -1000 <= e <= 900 -> -10 <= j <= 10 ->
  SFmul prec emax (S754_finite false m e)
    (S754_finite false 4503599627370496 (j - 52))
  = S754_finite false m (e + j).
Proof.
  intros Hm He Hj. cbn [SFmul xorb].
  unfold binary_round_aux. unfold shr_fexp at 1.
  rewrite (Zdigits2_unique _ 105)
    by (first
          [ lia
          | rewrite Pos2Z.inj_mul;
            change (Z.pos 4503599627370496) with (2 ^ 52);
            change (2 ^ (105 - 1)) with (2 ^ 52 * 2 ^ 52);
            change (2 ^ 105) with (2 ^ 53 * 2 ^ 52); nia ]).
  replace (fexp prec emax (105 + (e + (j - 52))) - (e + (j - 52))) with 52
    by (unfold fexp, emin, PyFloat.prec, PyFloat.emax; lia).
  cbn [shr shr_record_of_loc]. rewrite shift_out_52_zeros.
  cbn [shr_m loc_of_shr_record round_nearest_even].
  rewrite shr_fexp_53 by (try assumption; lia).
  cbn [shr_record_of_loc shr_m].
  assert ((e + (j - 52) + 52 <=? emax - prec) = true) as ->
    by (unfold PyFloat.prec, PyFloat.emax; lia).
  f_equal. lia.
Qed.

(** The product of an integer below [2^45] and [2^j], rounded up. *)
Lemma ceil_int_mul_pow2 (n j : Z) :
  0 < n < 2 ^ 45 -> 0 <= j <= 7 ->
  match PyFloat.int_mul_float n (S754_finite false 4503599627370496 (j - 52)) with
  | Ok p => PyFloat.math_ceil p
  | Raise e => Raise e
  end = Ok (n * 2 ^ j).
Proof.
  intros Hn Hj. destruct n as [|np|np]; try lia.
  pose proof (Zdigits2_bounds np) as Hb.
  set (d := Zdigits2 (Z.pos np)) in *.
  assert (Hd1 : 1 <= d) by (subst d; cbn; lia).
  assert (Hd45 : d <= 45).
  { destruct (Z.le_gt_cases d 45) as [|Hgt]; [assumption|].
    assert (2 ^ 45 <= 2 ^ (d - 1)) by (apply Z.pow_le_mono_r; lia). lia. }
  unfold PyFloat.int_mul_float.
  rewrite (float_of_int_exact (Z.pos np) d) by (try reflexivity; lia).
  set (K := 2 ^ (53 - d)).
  assert (HK : 0 < K) by (subst K; apply Z.pow_pos_nonneg; lia).
  assert (Hr : 2 ^ 52 <= Z.pos np * K < 2 ^ 53).
  { assert (E1 : 2 ^ (d - 1) * K = 2 ^ 52).
    { subst K. rewrite <- Z.pow_add_r by lia. f_equal. lia. }
    assert (E2 : 2 ^ d * K = 2 ^ 53).
    { subst K. rewrite <- Z.pow_add_r by lia. f_equal. lia. }
    nia. }
  rewrite mul_pow2 by (rewrite ?Z2Pos.id by lia; try assumption; lia).
  destruct (d - 53 + j) as [|p|p] eqn:Hp; try lia.
  cbn [PyFloat.math_ceil]. rewrite Z2Pos.id by lia. f_equal.
  apply ceil_unique; [apply Z.pow_pos_nonneg; lia|].
  assert (HKP : K = 2 ^ j * 2 ^ Z.pos p).
  { subst K. rewrite <- Z.pow_add_r by lia. f_equal. lia. }
  assert (0 < 2 ^ Z.pos p) by (apply Z.pow_pos_nonneg; lia).
  rewrite HKP. nia.
Qed.

End Binary64.

(** ** The cost *)

Lemma cost_of_nonpositive (t : Z) (m : PyFloat.float) :
  t <= 0 -> PyFloat.is_finite m = true ->
  base_cost t = Ok 0 ∧ token_cost_of t m = Ok 0.
Proof.
  intros Ht Hm. unfold token_cost_of, base_cost.
  assert ((0 <? t) = false) as -> by lia.
  split; [reflexivity|]. now destruct m.
Qed.

(** C9, as the code has it.  For [t <= 0] the cost is 0 whatever finite
    multiplier is given.  For [0 < t <= 1000 * 2^44] the first rounding is
    exact, the integer ceiling of [t / 1000]; the cost is [math.ceil] of the
    binary64 product of that integer and the multiplier, which for the
    multipliers 1.0 and 2.0 is the ceiling itself and twice the ceiling.
    Both are functions of their arguments alone. *)
Theorem cost_formula_within_binary64 :
  (∀ t m, t <= 0 -> PyFloat.is_finite m = true ->
     base_cost t = Ok 0 ∧ token_cost_of t m = Ok 0)
  ∧ (∀ t, 0 < t <= 1000 * 2 ^ 44 ->
       ∃ n, 1000 * (n - 1) < t <= 1000 * n
            ∧ base_cost t = Ok n
            ∧ (∀ m, token_cost_of t m
                    = match PyFloat.int_mul_float n m with
                      | Ok p => PyFloat.math_ceil p
                      | Raise e => Raise e
                      end)
            ∧ token_cost_of t PyFloat.one = Ok n
            ∧ token_cost_of t PyFloat.two = Ok (2 * n)).
Proof.
  split; [exact cost_of_nonpositive|].
  intros t Ht. exists ((t + 999) / 1000).
  pose proof (base_cost_exact t Ht) as Hb.
  assert (Hn : 1000 * ((t + 999) / 1000 - 1) < t <= 1000 * ((t + 999) / 1000)).
  { pose proof (Z.div_mod (t + 999) 1000 ltac:(lia)).
    pose proof (Z.mod_pos_bound (t + 999) 1000 ltac:(lia)). lia. }
  assert (Hr : 0 < (t + 999) / 1000 < 2 ^ 45) by lia.
  split; [exact Hn|]. split; [exact Hb|].
  unfold token_cost_of. rewrite Hb. split; [reflexivity|]. split.
  - change PyFloat.one with (S754_finite false 4503599627370496 (0 - 52)).
    rewrite ceil_int_mul_pow2 by lia. f_equal. lia.
  - change PyFloat.two with (S754_finite false 4503599627370496 (1 - 52)).
    rewrite ceil_int_mul_pow2 by lia. f_equal. lia.
Qed.

Lemma cost_formula_within_binary64_witness :
  token_cost_of (-5) PyFloat.two = Ok 0
  ∧ ∃ n, 1000 * (n - 1) < 1000001 <= 1000 * n
         ∧ token_cost_of 1000001 PyFloat.two = Ok (2 * n).
Proof.
  split.
  - apply (proj1 cost_formula_within_binary64 (-5) PyFloat.two);
      [lia|reflexivity].
  - destruct (proj2 cost_formula_within_binary64 1000001 ltac:(lia))
      as (n & Hn & _ & _ & _ & H2).
    exists n. split; assumption.
Defined.

(** One more than [1000 * 2^44]: the binary64 quotient falls on [2^44],
    below the exact quotient, and the cost, times 1000, does not reach [t]. *)
Lemma cost_rounds_down_beyond_binary64 :
  base_cost 17592186044416001 = Ok 17592186044416
  ∧ token_cost_of 17592186044416001 PyFloat.one = Ok 17592186044416
  ∧ 1000 * 17592186044416 < 17592186044416001.
Proof. vm_compute. repeat split; reflexivity. Qed.

(** * Runs of the billing functions *)

(** ** Tactics: unfold the monad, simplify the state, split on the next test *)

Ltac prims :=
  unfold User_aget, groups_partner_aexists, timezone_now, entitlement_aexists,
    aupdate_decrement, aupdate_increment, arefresh_from_db, User_asave,
    AIUsageDetails_acreate, SystemNotify_acreate, alert_check_and_trigger,
    logger, awaited, try_except, bind, ret, raise, lift, get, modify in *.

Ltac state_simpl :=
  cbn [user users partner_group entitlements now usage_details notifications
       alerts log user_writes faults set_user set_users add_usage add_notify
       add_alert add_log add_user_write set_faults fst snd
       pk surplus_number superior_id username zeroed instance_of row_of
       with_surplus row_surplus_number row_superior_id row_username
       is_partner_subordinate partner_user has_monthly_entitlement
       billing_mode default_strategy partner_only_payer andb orb negb] in *.

Ltac split_match :=
  match goal with
  | |- context [match ?x with _ => _ end] =>
      first
        [ is_var x;
          lazymatch type of x with
          | list bool => destruct x as [|[] ?]
          | _ => destruct x
          end
        | lazymatch x with
          | _ !! _ => idtac
          | Z.leb _ _ => idtac
          | Z.ltb _ _ => idtac
          | Z.eqb _ _ => idtac
          | bool_decide _ => idtac
          | existsb _ _ => idtac
          | truthy _ => idtac
          end;
          destruct x eqn:? ]
  end.

Ltac split_in H :=
  match type of H with
  | context [match ?x with _ => _ end] =>
      first
        [ is_var x;
          lazymatch type of x with
          | list bool => destruct x as [|[] ?]
          | _ => destruct x
          end
        | lazymatch x with
          | _ !! _ => idtac
          | Z.leb _ _ => idtac
          | Z.ltb _ _ => idtac
          | Z.eqb _ _ => idtac
          | bool_decide _ => idtac
          end;
          destruct x eqn:? ]
  end.

(** ** What a call leaves alone *)

Lemma same_accounts_refl s : same_accounts s s.
Proof. now repeat split. Qed.

Lemma same_accounts_trans s1 s2 s3 :
  same_accounts s1 s2 -> same_accounts s2 s3 -> same_accounts s1 s3.
Proof. unfold same_accounts. intuition congruence. Qed.

Lemma strategy_same_accounts (s : State) :
  same_accounts s (_get_billing_strategy s).2.
Proof.
  unfold _get_billing_strategy. prims. destruct s as [u us pg es t ud ns al lg uw fl].
  state_simpl. repeat (split_match; state_simpl); now repeat split.
Qed.

Lemma strategy_run_same s st s0 :
  _get_billing_strategy s = (Ok st, s0) ->
  same_accounts s s0 ∧ usage_details s0 = usage_details s ∧ log s0 = log s.
Proof.
  intros H. pose proof (strategy_same_accounts s) as Hs.
  rewrite H in Hs. split; [exact Hs|].
  assert (Hx : usage_details (_get_billing_strategy s).2 = usage_details s
               ∧ log (_get_billing_strategy s).2 = log s).
  { unfold _get_billing_strategy. prims.
    destruct s as [u us pg es t ud ns al lg uw fl].
    state_simpl. repeat (split_match; state_simpl); now split. }
  now rewrite H in Hx.
Qed.

Lemma partner_notice_runs (p : User) (c : Z) (ut : string) (s : State) :
  ∃ s', _handle_partner_insufficient_balance p c ut s = (Ok (), s')
        ∧ same_accounts s s' ∧ usage_details s' = usage_details s
        ∧ ∃ l, log s' = log s ++ l.
Proof.
  unfold _handle_partner_insufficient_balance. prims.
  destruct s as [u us pg es t ud ns al lg uw fl]. state_simpl.
  repeat (split_match; state_simpl); eexists; (split; [reflexivity|]);
    (split; [now repeat split|]); (split; [reflexivity|]); state_simpl;
    eexists; reflexivity.
Qed.

Lemma handler_runs c tokens ut store s :
  ∃ info s', _handle_insufficient_balance_internal c tokens ut store s
             = (Ok info, s').
Proof.
  unfold _handle_insufficient_balance_internal. prims.
  destruct s as [u us pg es t ud ns al lg uw fl]. state_simpl.
  repeat (split_match; state_simpl); eexists; eexists; reflexivity.
Qed.

(** ** What the awaited calls do *)

Lemma with_surplus_same (r : UserRow) : with_surplus (row_surplus_number r) r = r.
Proof. now destruct r. Qed.

Lemma decrement_hit (k c : Z) (s s1 : State) :
  aupdate_decrement k c s = (Ok 1, s1) ->
  ∃ r, users s !! k = Some r ∧ c <= row_surplus_number r
       ∧ s1 = add_user_write (wr_decrement k c)
                (set_users
                   (<[k := with_surplus (row_surplus_number r - c) r]> (users s))
                   (set_faults (faults s1) s)).
Proof.
  intros H. unfold aupdate_decrement in H. prims.
  destruct s as [u us pg es t ud ns al lg uw fl]. state_simpl.
  repeat (split_in H; state_simpl); inversion H; subst; clear H;
    (eexists; split; [reflexivity|split; [lia|reflexivity]]).
Qed.

Lemma decrement_miss (k c : Z) (s s1 : State) :
  aupdate_decrement k c s = (Ok 0, s1) ->
  s1 = set_faults (faults s1) s
  ∧ match users s !! k with
    | Some r => row_surplus_number r < c
    | None => True
    end.
Proof.
  intros H. unfold aupdate_decrement in H. prims.
  destruct s as [u us pg es t ud ns al lg uw fl]. state_simpl.
  repeat (split_in H; state_simpl); inversion H; subst; clear H;
    (split; [reflexivity|]);
    repeat match goal with E : _ !! _ = _ |- _ => rewrite E end;
    (exact I || lia).
Qed.

Lemma decrement_cases (k c n : Z) (s s1 : State) :
  aupdate_decrement k c s = (Ok n, s1) ->
  n = 0 ∧ users s1 = users s
  ∨ n = 1 ∧ ∃ r, users s !! k = Some r ∧ c <= row_surplus_number r
              ∧ users s1
                = <[k := with_surplus (row_surplus_number r - c) r]> (users s).
Proof.
  intros H. unfold aupdate_decrement in H. prims.
  destruct s as [u us pg es t ud ns al lg uw fl]. state_simpl.
  repeat (split_in H; state_simpl); inversion H; subst; clear H;
    first [ left; split; reflexivity
          | right; split; [reflexivity|];
            eexists; split; [reflexivity|split; [lia|reflexivity]] ].
Qed.

Lemma refresh_ok (u u' : User) (s s1 : State) :
  arefresh_from_db u s = (Ok u', s1) ->
  s1 = set_faults (faults s1) s
  ∧ ∃ r, users s !! pk u = Some r
         ∧ u' = mkUser (pk u) (row_surplus_number r) (superior_id u) (username u).
Proof.
  intros H. unfold arefresh_from_db in H. prims.
  destruct s as [w us pg es t ud ns al lg uw fl]. state_simpl.
  repeat (split_in H; state_simpl); inversion H; subst; clear H;
    (split; [reflexivity|eexists; split; reflexivity]).
Qed.

(** ** Strategy resolution *)

Lemma entitlement_exists_iff (s : State) (k : Z) :
  existsb (entitlement_matches (pk (user s)) k (now s)) (entitlements s) = true
  ↔ active_grant s k.
Proof.
  rewrite existsb_exists. unfold active_grant, entitlement_matches.
  split; intros (e & Hin & H); exists e; split; try assumption.
  - repeat (apply andb_prop in H; destruct H as [H ?]).
    repeat split; (assumption || lia).
  - destruct H as (-> & -> & -> & ? & ?).
    rewrite !Z.eqb_refl. cbn. apply andb_true_intro. split; lia.
Qed.

(** C4.  When no awaited call fails, the strategy is [normal] for a user
    without a superior, with a superior that has no row, or with one outside
    the partner group; it is [partner_only], with the superior as the paying
    account, when an entitlement is active and its window [start_at, end_at)
    holds the present instant; and it is [dual], with the user as the paying
    account, otherwise. *)
Theorem strategy_resolution (s : State) (H0 : faults s = []) :
  (truthy (superior_id (user s)) = false ->
     _get_billing_strategy s = (Ok default_strategy, s))
  ∧ (∀ k, superior_id (user s) = Some k -> k ≠ 0 ->
       (users s !! k = None ∨ k ∉ partner_group s) ->
       _get_billing_strategy s = (Ok default_strategy, s))
  ∧ (∀ k r, superior_id (user s) = Some k -> k ≠ 0 ->
       users s !! k = Some r -> k ∈ partner_group s ->
       (active_grant s k ->
          _get_billing_strategy s
          = (Ok (mkStrategy true (Some (instance_of k r)) true partner_only), s)
          ∧ get_balance_owner s = (Ok (instance_of k r), s))
       ∧ (¬ active_grant s k ->
          _get_billing_strategy s
          = (Ok (mkStrategy true (Some (instance_of k r)) false dual), s)
          ∧ get_balance_owner s = (Ok (user s), s))).
Proof.
  assert (Hlink : ∀ k, superior_id (user s) = Some k -> k ≠ 0 ->
            truthy (superior_id (user s)) = true).
  { intros k -> Hk. cbn. apply negb_true_iff. lia. }
  split; [|split].
  - intros Hf. unfold _get_billing_strategy. prims. now rewrite Hf.
  - intros k Hs Hk Hno. unfold _get_billing_strategy. prims.
    rewrite (Hlink k Hs Hk), H0, Hs. cbn [default from_option id].
    destruct (users s !! k) as [r|] eqn:Hr; [|reflexivity].
    destruct Hno as [?|Hno]; [discriminate|].
    rewrite H0. state_simpl. now rewrite bool_decide_eq_false_2.
  - intros k r Hs Hk Hr Hin.
    split; intros Ha.
    + assert (_get_billing_strategy s
              = (Ok (mkStrategy true (Some (instance_of k r)) true partner_only), s)) as E.
      { unfold _get_billing_strategy. prims.
        rewrite (Hlink k Hs Hk), H0, Hs. cbn [default from_option id]. rewrite Hr, H0.
        state_simpl. rewrite bool_decide_eq_true_2 by assumption.
        rewrite H0. apply entitlement_exists_iff in Ha. now rewrite Ha. }
      split; [exact E|].
      unfold get_balance_owner, try_except, bind, get, ret. now rewrite E.
    + assert (_get_billing_strategy s
              = (Ok (mkStrategy true (Some (instance_of k r)) false dual), s)) as E.
      { unfold _get_billing_strategy. prims.
        rewrite (Hlink k Hs Hk), H0, Hs. cbn [default from_option id]. rewrite Hr, H0.
        state_simpl. rewrite bool_decide_eq_true_2 by assumption.
        rewrite H0.
        destruct (existsb _ _) eqn:Hex; [|reflexivity].
        apply entitlement_exists_iff in Hex. contradiction. }
      split; [exact E|].
      unfold get_balance_owner, try_except, bind, get, ret. now rewrite E.
Qed.

Lemma strategy_resolution_witness :
  _get_billing_strategy (sponsored 5 5 100 [running] [])
  = (Ok (mkStrategy true (Some (mkUser 2 100 None "partner")) true partner_only),
     sponsored 5 5 100 [running] [])
  ∧ get_balance_owner (sponsored 5 5 100 [running] [])
    = (Ok (mkUser 2 100 None "partner"), sponsored 5 5 100 [running] []).
Proof.
  destruct (strategy_resolution (sponsored 5 5 100 [running] []) eq_refl)
    as (_ & _ & H).
  refine (proj1 (H 2 (mkRow 100 None "partner") eq_refl _ _ _) _).
  - discriminate.
  - reflexivity.
  - apply elem_of_list_to_set. now left.
  - exists running. repeat split; cbn; (now left) || lia.
Defined.

(** ** Dual billing *)

Lemma dual_resolved_same tokens m s s0 c p :
  dual_resolved tokens m s s0 c p ->
  same_accounts s s0 ∧ usage_details s0 = usage_details s ∧ log s0 = log s.
Proof. intros [_ _ H]. exact (strategy_run_same _ _ _ H). Qed.

(** A dual call that fails in [_execute_partner_billing] returns the failure
    after the two notices. *)
Lemma deduct_dual_failure tokens ut store m s s0 c p p' d s1 :
  dual_resolved tokens m s s0 c p ->
  _execute_partner_billing p c dual ut tokens store s0 = (Ok (p', (false, d)), s1) ->
  ∃ s', deduct_balance_by_tokens tokens ut store m s = (Ok (false, d), s')
        ∧ same_accounts s1 s' ∧ usage_details s' = usage_details s1
        ∧ ∃ l, log s' = log s1 ++ l.
Proof.
  intros [Hc Hc0 Hst] Hrun.
  destruct (partner_notice_runs p' c ut s1) as (s' & Hn & Hsame & Hud & Hl).
  exists s'. split; [|split; [exact Hsame|split; [exact Hud|exact Hl]]].
  unfold deduct_balance_by_tokens, try_except, bind, lift. rewrite Hc.
  apply Z.eqb_neq in Hc0. rewrite Hc0, Hst.
  cbn [is_partner_subordinate partner_user billing_mode].
  rewrite Hrun. cbn [negb]. now rewrite Hn.
Qed.

(** C8.  In a dual call whose pre-check finds the account's cached balance
    below the cost, [_execute_partner_billing] returns the rejection in the
    state it was called in, and the whole call leaves the user table and
    the list of writes as they were: no update was issued against the
    sponsor. *)
Theorem dual_precheck_never_debits tokens ut store m s s0 c p :
  dual_resolved tokens m s s0 c p ->
  surplus_number (user s) < c ->
  _execute_partner_billing p c dual ut tokens store s0
  = (Ok (p,
         (false,
          dual_insufficient c (surplus_number p) (surplus_number (user s))
            dual)), s0)
  ∧ ∃ s', deduct_balance_by_tokens tokens ut store m s
          = (Ok (false,
                 dual_insufficient c (surplus_number p)
                   (surplus_number (user s)) dual), s')
          ∧ users s' = users s ∧ user_writes s' = user_writes s
          ∧ usage_details s' = usage_details s.
Proof.
  intros Hres Hlt.
  destruct (dual_resolved_same _ _ _ _ _ _ Hres)
    as ((Hu & Hus & Huw & _) & Hud & _).
  assert (Hpre : _execute_partner_billing p c dual ut tokens store s0
                 = (Ok (p,
                        (false,
                         dual_insufficient c (surplus_number p)
                           (surplus_number (user s)) dual)), s0)).
  { unfold _execute_partner_billing, bind, get, ret. rewrite Hu.
    assert ((surplus_number (user s) <? c) = true) as -> by lia.
    now rewrite orb_true_r. }
  split; [exact Hpre|].
  destruct (deduct_dual_failure _ ut store _ _ _ _ _ _ _ _ Hres Hpre)
    as (s' & Hd & (_ & Hus' & Huw' & _) & Hud' & _).
  exists s'. split; [exact Hd|]. repeat split; congruence.
Qed.

Lemma dual_precheck_never_debits_witness :
  ∃ s', deduct_balance_by_tokens 10000 "ai回复" None PyFloat.one
          (sponsored 5 5 100 [expired] [])
        = (Ok (false, dual_insufficient 10 100 5 dual), s')
        ∧ users s' = users (sponsored 5 5 100 [expired] [])
        ∧ user_writes s' = user_writes (sponsored 5 5 100 [expired] [])
        ∧ usage_details s' = usage_details (sponsored 5 5 100 [expired] []).
Proof.
  refine (proj2 (dual_precheck_never_debits 10000 "ai回复" None PyFloat.one
                   (sponsored 5 5 100 [expired] [])
                   (sponsored 5 5 100 [expired] []) 10
                   (mkUser 2 100 None "partner") _ _)).
  - constructor; [reflexivity|discriminate|reflexivity].
  - cbn. lia.
Defined.

Lemma dual_half_done_state partner c s s3 p' :
  dual_half_done partner c s s3 p' ->
  ∃ r, users s !! pk partner = Some r ∧ c <= row_surplus_number r
       ∧ pk p' = pk partner
       ∧ s3 = add_user_write (wr_decrement (pk partner) c)
                (set_users
                   (<[pk partner := with_surplus (row_surplus_number r - c) r]>
                      (users s))
                   (set_faults (faults s3) s)).
Proof.
  intros [_ _ (s1 & s2 & H1 & H2 & H3)].
  apply decrement_hit in H1 as (r & Hr & Hc & E1).
  apply refresh_ok in H2 as (E2 & r2 & _ & ->).
  apply decrement_miss in H3 as (E3 & _).
  exists r. repeat split; try assumption.
  rewrite E3, E2, E1. destruct s. reflexivity.
Qed.

Lemma dual_rollback_run partner c ut tokens store s s3 p' :
  dual_half_done partner c s s3 p' ->
  head (faults s3) ≠ Some true ->
  ∃ s', _execute_partner_billing partner c dual ut tokens store s
        = (Ok (p', (false, user_conflict_rolled_back dual)), s')
        ∧ users s' = users s
        ∧ user_writes s'
          = user_writes s
            ++ [wr_decrement (pk partner) c; wr_increment (pk partner) c]
        ∧ usage_details s' = usage_details s ∧ user s' = user s.
Proof.
  intros Hd Hf. pose proof (dual_half_done_state _ _ _ _ _ Hd) as (r & Hr & Hc & Hpk & E).
  destruct Hd as [Hp Hu (s1 & s2 & H1 & H2 & H3)].
  unfold _execute_partner_billing, try_except, bind, get.
  assert ((surplus_number partner <? c) = false) as -> by lia.
  assert ((surplus_number (user s) <? c) = false) as -> by lia.
  cbn [orb]. rewrite H1. cbn [Z.eqb]. rewrite H2.
  rewrite bool_decide_eq_true_2 by reflexivity. rewrite H3. cbn [Z.eqb].
  unfold aupdate_increment. prims. rewrite Hpk.
  assert (Hl : users s3 !! pk partner
               = Some (with_surplus (row_surplus_number r - c) r)).
  { rewrite E. state_simpl. apply lookup_insert_eq. }
  destruct (faults s3) as [|[] f] eqn:Hfl; [|now contradiction Hf|].
  - rewrite Hl. state_simpl. eexists. split; [reflexivity|]. state_simpl.
    rewrite E. destruct r as [b sp nm]. state_simpl. rewrite insert_insert_eq.
    replace (b - c + c) with b by lia.
    rewrite insert_id by assumption.
    rewrite <- app_assoc. now repeat split.
  - state_simpl. rewrite Hl. state_simpl. eexists. split; [reflexivity|].
    state_simpl. rewrite E. destruct r as [b sp nm]. state_simpl.
    rewrite insert_insert_eq.
    replace (b - c + c) with b by lia.
    rewrite insert_id by assumption.
    rewrite <- app_assoc. now repeat split.
Qed.

(** C1.  In a dual call whose sponsor debit succeeds and whose account debit
    changes no row, the sponsor is credited the same amount before the
    conflict is returned: afterwards the user table is what it was before
    the call. *)
Theorem dual_compensation_round_trip tokens ut store m s s0 c p s3 p' :
  dual_resolved tokens m s s0 c p ->
  dual_half_done p c s0 s3 p' ->
  head (faults s3) ≠ Some true ->
  (∃ s1, _execute_partner_billing p c dual ut tokens store s0
         = (Ok (p', (false, user_conflict_rolled_back dual)), s1)
         ∧ user_writes s1
           = user_writes s0 ++ [wr_decrement (pk p) c; wr_increment (pk p) c])
  ∧ (∃ s', deduct_balance_by_tokens tokens ut store m s
           = (Ok (false, user_conflict_rolled_back dual), s')
           ∧ balance_of (pk p) s' = balance_of (pk p) s
           ∧ users s' = users s).
Proof.
  intros Hres Hhalf Hf.
  destruct (dual_rollback_run p c ut tokens store s0 s3 p' Hhalf Hf)
    as (s1 & Hrun & Hus & Huw & _).
  split; [now exists s1|].
  destruct (deduct_dual_failure _ _ _ _ _ _ _ _ _ _ _ Hres Hrun)
    as (s' & Hd & (_ & Hus' & _) & _).
  destruct (dual_resolved_same _ _ _ _ _ _ Hres) as ((_ & Hus0 & _) & _).
  assert (users s' = users s) as E by congruence.
  exists s'. split; [exact Hd|]. split; [|exact E].
  unfold balance_of. now rewrite E.
Qed.

Lemma dual_compensation_round_trip_witness :
  ∃ s', deduct_balance_by_tokens 10000 "ai回复" None PyFloat.one
          (sponsored 50 5 100 [expired] [])
        = (Ok (false, user_conflict_rolled_back dual), s')
        ∧ balance_of 2 s' = balance_of 2 (sponsored 50 5 100 [expired] [])
        ∧ users s' = users (sponsored 50 5 100 [expired] []).
Proof.
  refine (proj2 (dual_compensation_round_trip 10000 "ai回复" None PyFloat.one
                   (sponsored 50 5 100 [expired] [])
                   (sponsored 50 5 100 [expired] []) 10
                   (mkUser 2 100 None "partner")
                   (add_user_write (wr_decrement 2 10)
                      (set_users
                         (<[2 := mkRow 90 None "partner"]>
                            (users (sponsored 50 5 100 [expired] [])))
                         (sponsored 50 5 100 [expired] [])))
                   (mkUser 2 90 None "partner") _ _ _)).
  - constructor; [reflexivity|discriminate|reflexivity].
  - constructor; [cbn; lia|cbn; lia|].
    eexists _, _. split; [reflexivity|]. split; reflexivity.
  - cbn. discriminate.
Defined.

Lemma dual_rollback_fault_run partner c ut tokens store s s3 p' f :
  dual_half_done partner c s s3 p' ->
  faults s3 = true :: f ->
  ∃ s' r, _execute_partner_billing partner c dual ut tokens store s
          = (Ok (partner, (false, partner_exception DatabaseError dual)), s')
        ∧ users s !! pk partner = Some r
        ∧ users s' !! pk partner
          = Some (with_surplus (row_surplus_number r - c) r)
        ∧ user_writes s' = user_writes s ++ [wr_decrement (pk partner) c]
        ∧ log s' = log s ++ [(ERROR, ev_partner_billing_exception DatabaseError)]
        ∧ usage_details s' = usage_details s ∧ user s' = user s
        ∧ faults s' = f.
Proof.
  intros Hd Hf.
  pose proof (dual_half_done_state _ _ _ _ _ Hd) as (r & Hr & Hc & Hpk & E).
  destruct Hd as [Hp Hu (s1 & s2 & H1 & H2 & H3)].
  unfold _execute_partner_billing, try_except, bind, get.
  assert ((surplus_number partner <? c) = false) as -> by lia.
  assert ((surplus_number (user s) <? c) = false) as -> by lia.
  cbn [orb]. rewrite H1. cbn [Z.eqb]. rewrite H2.
  rewrite bool_decide_eq_true_2 by reflexivity. rewrite H3. cbn [Z.eqb].
  clear H1 H2 H3. unfold aupdate_increment. prims. rewrite Hf.
  eexists. exists r. split; [reflexivity|]. rewrite E. state_simpl.
  rewrite lookup_insert_eq. now repeat split.
Qed.

(** C6.  When the compensating credit itself fails, the call ends with
    status [error], which is neither of the two rejections, the failure is
    logged at error level, and the sponsor stays debited. *)
Theorem failed_compensation_is_an_error tokens ut store m s s0 c p s3 p' f :
  dual_resolved tokens m s s0 c p ->
  dual_half_done p c s0 s3 p' ->
  faults s3 = true :: f ->
  ∃ s' r d,
    deduct_balance_by_tokens tokens ut store m s = (Ok (false, d), s')
    ∧ d = partner_exception DatabaseError dual
    ∧ status_of d = status_error
    ∧ status_of d ≠ status_insufficient_balance
    ∧ status_of d ≠ status_concurrent_conflict
    ∧ In (ERROR, ev_partner_billing_exception DatabaseError) (log s')
    ∧ users s !! pk p = Some r
    ∧ balance_of (pk p) s' = Some (row_surplus_number r - c).
Proof.
  intros Hres Hhalf Hf.
  destruct (dual_rollback_fault_run p c ut tokens store s0 s3 p' f Hhalf Hf)
    as (s1 & r & Hrun & Hr & Hr1 & Huw & Hlog & _).
  destruct (deduct_dual_failure _ _ _ _ _ _ _ _ _ _ _ Hres Hrun)
    as (s' & Hd & (_ & Hus' & _) & _ & l & Hl).
  destruct (dual_resolved_same _ _ _ _ _ _ Hres) as ((_ & Hus0 & _) & _).
  exists s', r, (partner_exception DatabaseError dual).
  split; [exact Hd|]. repeat split; try (cbn; congruence).
  - rewrite Hl, Hlog. apply in_or_app. left. apply in_or_app. right. now left.
  - unfold balance_of. rewrite Hus', Hr1. reflexivity.
Qed.

Lemma failed_compensation_is_an_error_witness :
  ∃ s' r d,
    deduct_balance_by_tokens 10000 "ai回复" None PyFloat.one
      (sponsored 50 5 100 [expired]
         [false; false; false; false; false; false; true])
    = (Ok (false, d), s')
    ∧ d = partner_exception DatabaseError dual
    ∧ status_of d = status_error
    ∧ status_of d ≠ status_insufficient_balance
    ∧ status_of d ≠ status_concurrent_conflict
    ∧ In (ERROR, ev_partner_billing_exception DatabaseError) (log s')
    ∧ users (sponsored 50 5 100 [expired]
               [false; false; false; false; false; false; true]) !! 2
      = Some r
    ∧ balance_of 2 s' = Some (row_surplus_number r - 10).
Proof.
  refine (failed_compensation_is_an_error 10000 "ai回复" None PyFloat.one
            (sponsored 50 5 100 [expired]
               [false; false; false; false; false; false; true])
            (sponsored 50 5 100 [expired] [false; false; false; true]) 10
            (mkUser 2 100 None "partner")
            (add_user_write (wr_decrement 2 10)
               (set_users
                  (<[2 := mkRow 90 None "partner"]>
                     (users (sponsored 50 5 100 [expired] [])))
                  (sponsored 50 5 100 [expired] [true])))
            (mkUser 2 90 None "partner") [] _ _ _).
  - constructor; [reflexivity|discriminate|reflexivity].
  - constructor; [cbn; lia|cbn; lia|].
    eexists _, _. split; [reflexivity|]. split; reflexivity.
  - reflexivity.
Defined.

(** ** A usage record that cannot be appended *)

Lemma strategy_keeps_notifications s r s0 :
  _get_billing_strategy s = (r, s0) -> notifications s0 = notifications s.
Proof.
  intros H.
  assert (Hx : notifications (_get_billing_strategy s).2 = notifications s).
  { unfold _get_billing_strategy. prims.
    destruct s as [u us pg es t ud ns al lg uw fl].
    state_simpl. repeat (split_match; state_simpl); reflexivity. }
  now rewrite H in Hx.
Qed.

(** The notices name the account by its key and its name only. *)
Lemma notices_sent_same rest ut u u' p :
  pk u' = pk u -> username u' = username u ->
  notices_sent rest ut u' p = notices_sent rest ut u p.
Proof.
  intros Hk Hn. unfold notices_sent, user_notice, partner_notice.
  now rewrite Hk, Hn.
Qed.

Lemma partner_notices_filed (p : User) (c : Z) (ut : string) (s : State) :
  ∃ s', _handle_partner_insufficient_balance p c ut s = (Ok (), s')
        ∧ same_accounts s s' ∧ usage_details s' = usage_details s
        ∧ notifications s'
          = notifications s ++ notices_sent (faults s) ut (user s) p
        ∧ ∃ l, log s' = log s ++ l.
Proof.
  unfold _handle_partner_insufficient_balance. prims.
  destruct s as [u us pg es t ud ns al lg uw fl]. state_simpl.
  destruct fl as [|[] [|[] fl]]; state_simpl;
    (eexists; split; [reflexivity|]);
    (split; [now repeat split|]); (split; [reflexivity|]); state_simpl;
    (split; [cbn [notices_sent]; now rewrite <- ?app_assoc, ?app_nil_r
            |eexists; reflexivity]).
Qed.

Lemma normal_record_failure tokens ut store m s sK c f :
  normal_debited tokens m s sK c ->
  faults sK = true :: f ->
  ∃ s', deduct_balance_by_tokens tokens ut store m s
        = (Ok (false, deduct_exception DatabaseError), s')
        ∧ users s' = users sK ∧ user_writes s' = user_writes sK
        ∧ usage_details s' = usage_details s
        ∧ log s' = log s ++ [(ERROR, ev_deduct_exception DatabaseError)]
        ∧ notifications s' = notifications s.
Proof.
  intros [Hc Hc0 (s0 & s1 & s2 & b & u' & Hs0 & Hb & Hs1 & Hle & Hd & Hr)] Hf.
  destruct (strategy_run_same _ _ _ Hs0) as ((Hu0 & _) & Hud0 & Hl0).
  destruct (strategy_run_same _ _ _ Hs1) as ((Hu1 & _) & Hud1 & Hl1).
  pose proof (strategy_keeps_notifications _ _ _ Hs0) as Hn0.
  pose proof (strategy_keeps_notifications _ _ _ Hs1) as Hn1.
  pose proof (decrement_hit _ _ _ _ Hd) as (r & _ & _ & E2).
  pose proof (refresh_ok _ _ _ _ Hr) as (EK & _).
  unfold deduct_balance_by_tokens, _execute_normal_billing,
    check_and_handle_insufficient_balance, try_except, bind, lift, get, ret.
  rewrite Hc. apply Z.eqb_neq in Hc0. rewrite Hc0, Hs0.
  cbn [is_partner_subordinate default_strategy].
  rewrite Hb, Hs1.
  cbn [partner_only_payer is_partner_subordinate default_strategy andb].
  rewrite Hu1, Hu0. assert ((b <=? surplus_number (user s)) = true) as -> by lia.
  cbn [negb]. rewrite ?Hu1, ?Hu0, Hd. cbn [Z.eqb]. rewrite Hr.
  unfold modify, AIUsageDetails_acreate, bind, awaited, logger, modify.
  state_simpl. rewrite Hf. state_simpl.
  eexists. split; [reflexivity|]. state_simpl.
  rewrite EK, E2. state_simpl. repeat split; congruence.
Qed.

Lemma partner_record_failure tokens ut store m mode s sK c p f :
  partner_debited tokens m mode s sK c p ->
  faults sK = true :: f ∨ mode = dual ∧ faults sK = false :: true :: f ->
  ∃ s', deduct_balance_by_tokens tokens ut store m s
        = (Ok (false, partner_exception DatabaseError mode), s')
        ∧ users s' = users sK ∧ user_writes s' = user_writes sK
        ∧ (faults sK = true :: f -> usage_details s' = usage_details s)
        ∧ In (ERROR, ev_partner_billing_exception DatabaseError) (log s')
        ∧ notifications s'
          = notifications s ++ notices_sent f ut (user s) p.
Proof.
  intros [Hc Hc0 (s0 & s1 & s2 & p' & Hs0 & Hle & Hd & Hr & Hmode)] Hf.
  destruct (strategy_run_same _ _ _ Hs0) as ((Hu0 & _) & Hud0 & Hl0).
  pose proof (strategy_keeps_notifications _ _ _ Hs0) as Hn0.
  pose proof (decrement_hit _ _ _ _ Hd) as (r & _ & _ & E1).
  pose proof (refresh_ok _ _ _ _ Hr) as (E2 & _).
  assert (Hrun : ∃ s3, _execute_partner_billing p c mode ut tokens store s0
                 = (Ok (p, (false, partner_exception DatabaseError mode)), s3)
                 ∧ users s3 = users sK ∧ user_writes s3 = user_writes sK
                 ∧ (faults sK = true :: f -> usage_details s3 = usage_details s)
                 ∧ In (ERROR, ev_partner_billing_exception DatabaseError) (log s3)
                 ∧ notifications s3 = notifications s ∧ faults s3 = f
                 ∧ pk (user s3) = pk (user s)
                 ∧ username (user s3) = username (user s)).
  { unfold _execute_partner_billing, try_except, bind, get, ret.
    destruct Hmode as [(-> & ->)|(-> & Hle' & s3 & s4 & u' & Hd' & Hr' & ->)].
    - assert ((surplus_number p <? c) = false) as -> by lia.
      rewrite Hd. cbn [Z.eqb]. rewrite Hr.
      rewrite bool_decide_eq_false_2 by discriminate.
      destruct Hf as [Hf|[? _]]; [|discriminate].
      unfold AIUsageDetails_acreate, bind, awaited, logger, modify.
      rewrite Hf. state_simpl. eexists. split; [reflexivity|]. state_simpl.
      split; [reflexivity|]. split; [reflexivity|].
      split; [intros _; rewrite E2, E1; state_simpl; exact Hud0|].
      split; [apply in_or_app; right; now left|].
      rewrite E2, E1. state_simpl. rewrite Hn0, Hu0. now repeat split.
    - assert ((surplus_number p <? c) = false) as -> by lia.
      rewrite Hu0.
      assert ((surplus_number (user s) <? c) = false) as -> by lia.
      cbn [orb]. rewrite Hd. cbn [Z.eqb]. rewrite Hr.
      rewrite !bool_decide_eq_true_2 by reflexivity. rewrite Hd'.
      cbn [Z.eqb]. rewrite Hr'.
      pose proof (decrement_hit _ _ _ _ Hd') as (r' & _ & _ & E3).
      pose proof (refresh_ok _ _ _ _ Hr') as (E4 & r'' & _ & Eu').
      unfold AIUsageDetails_acreate, bind, awaited, logger, modify.
      state_simpl.
      destruct Hf as [Hf|[_ Hf]]; rewrite Hf; state_simpl;
        (eexists; split; [reflexivity|]); state_simpl;
        (split; [reflexivity|]); (split; [reflexivity|]);
        (split;
         [first [ solve [intros _; rewrite E4, E3, E2, E1; state_simpl;
                         exact Hud0]
                | intros [=] ]|]);
        (split; [apply in_or_app; right; now left|]);
        rewrite E4, E3, E2, E1; state_simpl; rewrite Hn0, Eu';
        now repeat split. }
  destruct Hrun as (s3 & Hrun & Hus & Huw & Hud & Hlog & Hn3 & Hf3 & Hk3 & Hnm3).
  destruct (partner_notices_filed p c ut s3)
    as (s' & Hn & (_ & Hus' & Huw' & _) & Hud' & Hns & l & Hl).
  exists s'. split; [|repeat split; try congruence].
  - unfold deduct_balance_by_tokens, try_except, bind, lift. rewrite Hc.
    apply Z.eqb_neq in Hc0. rewrite Hc0, Hs0.
    cbn [is_partner_subordinate partner_user billing_mode].
    rewrite Hrun. cbn [negb]. now rewrite Hn.
  - intros Hx. rewrite Hud'. now apply Hud.
  - rewrite Hl. apply in_or_app. now left.
  - rewrite Hns, Hn3, Hf3. f_equal. now apply notices_sent_same.
Qed.

(** C7, as the code has it.  Once the conditional updates have changed the
    rows, a usage record that cannot be appended (the only one, or in dual
    mode either of the two) leaves the debits in place, but the call reports
    failure: the flag is [False], the status is [error], and the exception
    is logged at error level.  The normal path files no notice.  The
    partner paths go on to [_handle_partner_insufficient_balance], as for a
    balance that does not cover the cost: with [f] the failure schedule left
    after the record, the notifications grow by [notices_sent f], which is
    the notice to the account and the one to its sponsor [p] unless their
    creation fails as well. *)
Theorem record_failure_keeps_debit_reports_error mode tokens ut store m s sK c f :
  debited mode tokens m s sK c ->
  faults sK = true :: f ∨ mode = dual ∧ faults sK = false :: true :: f ->
  ∃ s', deduct_balance_by_tokens tokens ut store m s
        = (Ok (false, record_failure_detail mode), s')
        ∧ status_of (record_failure_detail mode) = status_error
        ∧ users s' = users sK ∧ user_writes s' = user_writes sK
        ∧ (faults sK = true :: f -> usage_details s' = usage_details s)
        ∧ In (ERROR, record_failure_event mode) (log s')
        ∧ match mode with
          | normal => notifications s' = notifications s
          | _ => ∃ p, partner_debited tokens m mode s sK c p
                      ∧ notifications s'
                        = notifications s ++ notices_sent f ut (user s) p
          end.
Proof.
  intros Hd Hf. destruct mode; cbn [debited] in Hd.
  - destruct Hf as [Hf|[? _]]; [|discriminate].
    destruct (normal_record_failure tokens ut store m s sK c f Hd Hf)
      as (s' & Hrun & Hus & Huw & Hud & Hl & Hn).
    exists s'. split; [exact Hrun|]. split; [reflexivity|].
    split; [exact Hus|]. split; [exact Huw|]. split; [intros _; exact Hud|].
    split; [|exact Hn].
    cbn [record_failure_event]. rewrite Hl. apply in_or_app. right. now left.
  - destruct Hd as (p & Hd).
    destruct (partner_record_failure tokens ut store m _ s sK c p f Hd Hf)
      as (s' & Hrun & Hus & Huw & Hud & Hl & Hn).
    exists s'. repeat split; try assumption. exists p. now split.
  - destruct Hd as (p & Hd).
    destruct (partner_record_failure tokens ut store m _ s sK c p f Hd Hf)
      as (s' & Hrun & Hus & Huw & Hud & Hl & Hn).
    exists s'. repeat split; try assumption. exists p. now split.
Qed.

(** User 1 under partner 2 with a running entitlement: the partner's row is
    debited from 100 to 90 by one write, the record is missing, the call
    returns [False] with the exception, and both notices of an insufficient
    balance are filed. *)
Lemma record_failure_keeps_debit_reports_error_witness :
  ∃ s', deduct_balance_by_tokens 10000 "ai回复" None PyFloat.one
          (sponsored 0 0 100 [running]
             [false; false; false; false; false; true])
        = (Ok (false, partner_exception DatabaseError partner_only), s')
        ∧ status_of (partner_exception DatabaseError partner_only)
          = status_error
        ∧ users s'
          = <[2 := mkRow 90 None "partner"]>
              (users (sponsored 0 0 100 [running] []))
        ∧ user_writes s' = [wr_decrement 2 10]
        ∧ usage_details s' = []
        ∧ In (ERROR, ev_partner_billing_exception DatabaseError) (log s')
        ∧ notifications s'
          = [user_notice "ai回复" (mkUser 1 0 (Some 2) "bob");
             partner_notice (mkUser 1 0 (Some 2) "bob")
               (mkUser 2 100 None "partner")].
Proof.
  destruct (record_failure_keeps_debit_reports_error partner_only 10000
              "ai回复" None PyFloat.one
              (sponsored 0 0 100 [running]
                 [false; false; false; false; false; true])
              (add_user_write (wr_decrement 2 10)
                 (set_users
                    (<[2 := mkRow 90 None "partner"]>
                       (users (sponsored 0 0 100 [running] [])))
                    (sponsored 0 0 100 [running] [true])))
              10 [])
    as (s' & Hrun & Hst & Hus & Huw & Hud & Hlog & p & Hp & Hn).
  - exists (mkUser 2 100 None "partner").
    constructor; [reflexivity|discriminate|].
    exists (sponsored 0 0 100 [running] [false; false; true]),
      (add_user_write (wr_decrement 2 10)
         (set_users
            (<[2 := mkRow 90 None "partner"]>
               (users (sponsored 0 0 100 [running] [])))
            (sponsored 0 0 100 [running] [false; true]))),
      (add_user_write (wr_decrement 2 10)
         (set_users
            (<[2 := mkRow 90 None "partner"]>
               (users (sponsored 0 0 100 [running] [])))
            (sponsored 0 0 100 [running] [true]))),
      (mkUser 2 90 None "partner").
    split; [vm_compute; reflexivity|]. split; [cbn; lia|].
    split; [vm_compute; reflexivity|]. split; [vm_compute; reflexivity|].
    left. split; reflexivity.
  - left. reflexivity.
  - destruct Hp as [_ _ (s0 & _ & _ & _ & Hs0 & _)].
    assert (Hc : _get_billing_strategy
                   (sponsored 0 0 100 [running]
                      [false; false; false; false; false; true])
                 = (Ok (mkStrategy true (Some (mkUser 2 100 None "partner"))
                          true partner_only),
                    sponsored 0 0 100 [running] [false; false; true]))
      by (vm_compute; reflexivity).
    rewrite Hc in Hs0. injection Hs0 as <- _.
    exists s'. split; [exact Hrun|]. split; [exact Hst|].
    split; [exact Hus|]. split; [exact Huw|].
    split; [exact (Hud eq_refl)|]. split; [exact Hlog|exact Hn].
Defined.

(** The call of C7 on one user: the row is debited from 10 to 9, the record
    is missing, and the call returns [False] with the exception. *)
Lemma record_failure_is_not_success :
  let r := deduct_balance_by_tokens 1000 "ai回复" None PyFloat.one
             (solo 10 [false; false; true]) in
  r.1 = Ok (false, deduct_exception DatabaseError)
  ∧ balance_of 1 r.2 = Some 9
  ∧ usage_details r.2 = []
  ∧ log r.2 = [(ERROR, ev_deduct_exception DatabaseError)].
Proof. vm_compute. repeat split; reflexivity. Qed.

(** ** The normal path and its pre-check *)

Lemma normal_deduction_commits tokens ut store m s sK c :
  normal_debited tokens m s sK c ->
  faults sK = [] ->
  ∃ s' r,
    users s !! pk (user s) = Some r ∧ c <= row_surplus_number r
    ∧ deduct_balance_by_tokens tokens ut store m s
      = (Ok (true, normal_done c tokens (row_surplus_number r - c) m), s')
    ∧ balance_of (pk (user s)) s' = Some (row_surplus_number r - c)
    ∧ usage_details s'
      = usage_details s
        ++ [mkUsage c (row_surplus_number r - c) ut (pk (user s)) tokens
              (pk (user s)) (store_of ut store)].
Proof.
  intros [Hc Hc0 (s0 & s1 & s2 & b & u' & Hs0 & Hb & Hs1 & Hle & Hd & Hr)] Hf.
  destruct (strategy_run_same _ _ _ Hs0) as ((Hu0 & Hus0 & _) & Hud0 & Hl0).
  destruct (strategy_run_same _ _ _ Hs1) as ((Hu1 & Hus1 & _) & Hud1 & Hl1).
  pose proof (decrement_hit _ _ _ _ Hd) as (r & Hlk & Hcr & E2).
  pose proof (refresh_ok _ _ _ _ Hr) as (EK & r' & Hlk' & Eu).
  assert (r' = with_surplus (row_surplus_number r - c) r) as ->.
  { rewrite E2 in Hlk'. cbn in Hlk'. rewrite lookup_insert_eq in Hlk'. congruence. }
  exists (add_alert (pk (user s), row_surplus_number r - c)
            (add_log (INFO, ev_normal_done c (row_surplus_number r - c))
               (add_usage
                  (mkUsage c (row_surplus_number r - c) ut (pk (user s)) tokens
                     (pk (user s)) (store_of ut store))
                  (set_user u' sK)))), r.
  split; [congruence|]. split; [exact Hcr|].
  assert (Hrun : deduct_balance_by_tokens tokens ut store m s
    = (Ok (true, normal_done c tokens (row_surplus_number r - c) m),
       add_alert (pk (user s), row_surplus_number r - c)
            (add_log (INFO, ev_normal_done c (row_surplus_number r - c))
               (add_usage
                  (mkUsage c (row_surplus_number r - c) ut (pk (user s)) tokens
                     (pk (user s)) (store_of ut store))
                  (set_user u' sK))))).
  { unfold deduct_balance_by_tokens, _execute_normal_billing,
      check_and_handle_insufficient_balance, try_except, bind, lift, get, ret.
    rewrite Hc. apply Z.eqb_neq in Hc0. rewrite Hc0, Hs0.
    cbn [is_partner_subordinate default_strategy].
    rewrite Hb, Hs1.
    cbn [partner_only_payer is_partner_subordinate default_strategy andb].
    rewrite Hu1, Hu0.
    assert ((b <=? surplus_number (user s)) = true) as -> by lia.
    cbn [negb]. rewrite ?Hu1, ?Hu0, Hd. cbn [Z.eqb]. rewrite Hr.
    unfold modify, AIUsageDetails_acreate, alert_check_and_trigger, bind,
      awaited, logger, modify.
    state_simpl. rewrite Hf. state_simpl. rewrite Hf. subst u'. reflexivity. }
  split; [exact Hrun|]. state_simpl. unfold balance_of. state_simpl.
  rewrite EK, E2. state_simpl. rewrite lookup_insert_eq.
  split; [reflexivity|]. congruence.
Qed.

Lemma insufficient_consumes_remainder tokens ut store s s0 b :
  base_cost tokens = Ok b ->
  _get_billing_strategy s = (Ok default_strategy, s0) ->
  surplus_number (user s) < b ->
  faults s0 = [] ->
  ∃ info s',
    check_and_handle_insufficient_balance tokens ut store s
    = (Ok (false, Some (_get_customer_friendly_message ut), Some info), s')
    ∧ info_status info = status_success
    ∧ balance_of (pk (user s)) s' = Some 0
    ∧ surplus_number (user s') = 0
    ∧ usage_details s'
      = usage_details s
        ++ (if 0 <? surplus_number (user s)
            then [mkUsage (surplus_number (user s)) 0 ut (pk (user s)) tokens
                    (pk (user s)) (store_of ut store)]
            else [])
    ∧ notifications s'
      = notifications s
        ++ [mkNotify (_get_notification_title ut)
              (_get_notification_content ut 0) "系统通知" (pk (user s))].
Proof.
  intros Hb Hs0 Hlt Hf.
  destruct (strategy_run_same _ _ _ Hs0) as ((Hu0 & Hus0 & _) & Hud0 & Hl0).
  assert (Hn0 : notifications s0 = notifications s).
  { assert (Hx : notifications (_get_billing_strategy s).2 = notifications s).
    { unfold _get_billing_strategy. prims.
      destruct s as [u us pg es t ud ns al lg uw fl].
      state_simpl. repeat (split_match; state_simpl); reflexivity. }
    now rewrite Hs0 in Hx. }
  unfold check_and_handle_insufficient_balance,
    _handle_insufficient_balance_internal.
  unfold bind at 1. unfold lift at 1. rewrite Hb.
  unfold bind at 1. rewrite Hs0.
  cbn [partner_only_payer is_partner_subordinate default_strategy andb].
  unfold bind at 1. unfold get at 1. rewrite Hu0.
  assert ((b <=? surplus_number (user s)) = false) as -> by lia.
  prims. state_simpl. rewrite Hu0.
  destruct (0 <? surplus_number (user s)) eqn:Hpos; state_simpl; rewrite ?Hf;
    state_simpl; rewrite ?Hf; state_simpl; rewrite ?Hf; state_simpl;
    rewrite ?Hf;
    eexists _, _; (split; [reflexivity|]); state_simpl;
    unfold balance_of; state_simpl; rewrite lookup_insert_eq;
    rewrite ?Hud0, ?Hn0, ?app_nil_r; now repeat split.
Qed.

(** C3 at a multiplier below one.  Cost 5, balance 7: the pre-check compares
    the balance with the cost before the multiplier, 10, so the call is
    rejected, the remainder is recorded as used and the balance is zeroed
    instead of becoming 2. *)
Theorem precheck_ignores_multiplier_and_rejects :
  let r := deduct_balance_by_tokens 10000 "ai回复" None PyFloat.half
             (solo 7 []) in
  token_cost_of 10000 PyFloat.half = Ok 5
  ∧ base_cost 10000 = Ok 10
  ∧ r.1 = Ok (false,
              normal_insufficient 5 0
                (result_info 1 "alice" 7 10 10000 "ai回复" status_success
                   (msg "余额不足处理完成")))
  ∧ balance_of 1 r.2 = Some 0
  ∧ usage_details r.2 = [mkUsage 7 0 "ai回复" 1 10000 1 None].
Proof. vm_compute. repeat split; reflexivity. Qed.

(** C5 at the multiplier 2.0.  Cost 2, balance 1: the pre-check compares the
    balance with the cost before the multiplier, 1, and lets the call
    through; the conditional update changes no row and the call ends as a
    conflict, with the balance still 1, no usage record and no
    notification. *)
Theorem shortfall_under_multiplier_skips_handler :
  let r := deduct_balance_by_tokens 1000 "ai回复" None PyFloat.two
             (solo 1 []) in
  token_cost_of 1000 PyFloat.two = Ok 2
  ∧ base_cost 1000 = Ok 1
  ∧ r.1 = Ok (false, normal_conflict 2)
  ∧ balance_of 1 r.2 = Some 1
  ∧ usage_details r.2 = []
  ∧ notifications r.2 = []
  ∧ log r.2 = [(ERROR, ev_normal_conflict 2)].
Proof. vm_compute. repeat split; reflexivity. Qed.

(** ** Non-negative balances *)

Lemma nonneg_in_insert (acct k : Z) (r : UserRow) (m : gmap Z UserRow) :
  (k = acct -> 0 <= row_surplus_number r) ->
  nonneg_in acct m -> nonneg_in acct (<[k := r]> m).
Proof.
  intros Hr Hm r0. destruct (decide (k = acct)) as [->|Hne].
  - rewrite lookup_insert_eq. intros [= <-]. now apply Hr.
  - rewrite lookup_insert_ne by assumption. apply Hm.
Qed.

Section OneAccount.

Variable acct : Z.

Local Abbreviation keeps := (preserves acct).

Lemma preserves_ret {A} (a : A) : keeps (ret a).
Proof. now intros s H. Qed.

Lemma preserves_raise {A} (e : exn) : keeps (@raise A e).
Proof. now intros s H. Qed.

Lemma preserves_lift {A} (r : Res A) : keeps (lift r).
Proof. now intros s H. Qed.

Lemma preserves_get : keeps get.
Proof. now intros s H. Qed.

Lemma preserves_bind {A B} (m : M A) (f : A -> M B) :
  keeps m -> (∀ a, keeps (f a)) -> keeps (bind m f).
Proof.
  intros Hm Hf s H. unfold bind. specialize (Hm s H).
  destruct (m s) as [[a|e] s']; [apply Hf|]; exact Hm.
Qed.

Lemma preserves_bind_from {A B} (m : M A) (f : A -> M B) (s : State) :
  balance_nonneg acct (m s).2 -> (∀ a, keeps (f a)) ->
  balance_nonneg acct (bind m f s).2.
Proof.
  intros Hm Hf. unfold bind.
  destruct (m s) as [[a|e] s']; [apply Hf|]; exact Hm.
Qed.

Lemma preserves_try_except {A} (m : M A) (h : exn -> M A) :
  keeps m -> (∀ e, keeps (h e)) -> keeps (try_except m h).
Proof.
  intros Hm Hh s H. unfold try_except. specialize (Hm s H).
  destruct (m s) as [[a|e] s']; [|apply Hh]; exact Hm.
Qed.

Lemma preserves_modify (f : State -> State) :
  (∀ s, users (f s) = users s) -> keeps (modify f).
Proof. intros Hf s H. unfold balance_nonneg, modify. cbn. now rewrite Hf. Qed.

Lemma preserves_awaited (e : exn) : keeps (awaited e).
Proof.
  intros s H. unfold awaited. now destruct (faults s) as [|[] f].
Qed.

Lemma preserves_logger l e : keeps (logger l e).
Proof. now apply preserves_modify. Qed.

Ltac pres :=
  repeat
    match goal with
    | |- preserves _ (bind _ _) => apply preserves_bind; [|intros ?]
    | |- preserves _ (try_except _ _) => apply preserves_try_except; [|intros ?]
    | |- preserves _ (ret _) => apply preserves_ret
    | |- preserves _ (raise _) => apply preserves_raise
    | |- preserves _ (lift _) => apply preserves_lift
    | |- preserves _ get => apply preserves_get
    | |- preserves _ (awaited _) => apply preserves_awaited
    | |- preserves _ (logger _ _) => apply preserves_logger
    | |- preserves _ (modify (set_user _)) => now apply preserves_modify
    | |- preserves _ (modify (add_usage _)) => now apply preserves_modify
    | |- preserves _ (modify (add_notify _)) => now apply preserves_modify
    | |- preserves _ (modify (add_alert _)) => now apply preserves_modify
    | |- preserves _ (modify (add_user_write _)) => now apply preserves_modify
    | |- preserves _ (match ?x with _ => _ end) => destruct x eqn:?
    | |- preserves _ (let '(_, _) := ?x in _) => destruct x
    | H : preserves ?a ?m |- preserves ?a ?m => exact H
    end.

Lemma preserves_User_aget k : keeps (User_aget k).
Proof. unfold User_aget. pres. Qed.

Lemma preserves_groups u : keeps (groups_partner_aexists u).
Proof. unfold groups_partner_aexists. pres. Qed.

Lemma preserves_entitlement u p t : keeps (entitlement_aexists u p t).
Proof. unfold entitlement_aexists. pres. Qed.

Lemma preserves_refresh u : keeps (arefresh_from_db u).
Proof. unfold arefresh_from_db. pres. Qed.

Lemma preserves_usage r : keeps (AIUsageDetails_acreate r).
Proof. unfold AIUsageDetails_acreate. pres. Qed.

Lemma preserves_notify n : keeps (SystemNotify_acreate n).
Proof. unfold SystemNotify_acreate. pres. Qed.

Lemma preserves_alert u v : keeps (alert_check_and_trigger u v).
Proof. unfold alert_check_and_trigger. pres. Qed.

(** The conditional update keeps the changed row at or above zero whatever
    the sign of the cost. *)
Lemma preserves_decrement k c : keeps (aupdate_decrement k c).
Proof.
  unfold aupdate_decrement. apply preserves_bind; [pres|intros _].
  intros s H. unfold bind, get, modify, ret. cbn.
  destruct (users s !! k) as [r|] eqn:Hr; [|exact H].
  destruct (c <=? row_surplus_number r) eqn:Hc; [|exact H].
  cbn. apply nonneg_in_insert; [cbn; lia|exact H].
Qed.

Lemma preserves_increment k a : 0 <= a -> keeps (aupdate_increment k a).
Proof.
  intros Ha. unfold aupdate_increment. apply preserves_bind; [pres|intros _].
  intros s H. unfold bind, get, modify, ret. cbn.
  destruct (users s !! k) as [r|] eqn:Hr; [|exact H].
  cbn. apply nonneg_in_insert; [|exact H].
  intros ->. cbn. pose proof (H r Hr). lia.
Qed.

Lemma preserves_asave u : 0 <= surplus_number u -> keeps (User_asave u).
Proof.
  intros Hu. unfold User_asave. apply preserves_bind; [pres|intros _].
  intros s H. unfold bind, get, modify, ret. cbn.
  apply nonneg_in_insert; [intros _; exact Hu|exact H].
Qed.

Lemma preserves_strategy : keeps _get_billing_strategy.
Proof.
  unfold _get_billing_strategy. pres;
    first [apply preserves_User_aget | apply preserves_groups
          | apply preserves_entitlement | unfold timezone_now; pres].
Qed.

Lemma preserves_handler c tokens ut store :
  keeps (_handle_insufficient_balance_internal c tokens ut store).
Proof.
  unfold _handle_insufficient_balance_internal. pres;
    first [apply preserves_usage | apply preserves_notify
          | apply preserves_asave; cbn; lia].
Qed.

Lemma preserves_partner_notice p c ut :
  keeps (_handle_partner_insufficient_balance p c ut).
Proof.
  unfold _handle_partner_insufficient_balance. pres; apply preserves_notify.
Qed.

Lemma preserves_check tokens ut store :
  keeps (check_and_handle_insufficient_balance tokens ut store).
Proof.
  unfold check_and_handle_insufficient_balance. pres;
    first [apply preserves_strategy | apply preserves_partner_notice
          | apply preserves_handler].
Qed.

Lemma preserves_increase amount ut : keeps (increase_balance amount ut).
Proof.
  unfold increase_balance. pres;
    first [apply preserves_increment; lia | apply preserves_refresh
          | apply preserves_usage].
Qed.

Lemma preserves_normal tokens c ut store m :
  keeps (_execute_normal_billing tokens c ut store m).
Proof.
  unfold _execute_normal_billing. pres;
    first [apply preserves_check | apply preserves_decrement
          | apply preserves_refresh | apply preserves_usage
          | apply preserves_alert].
Qed.

Lemma preserves_alerts p : keeps (_trigger_balance_alerts p).
Proof. unfold _trigger_balance_alerts. pres; apply preserves_alert. Qed.

Lemma preserves_log_success d : keeps (_log_partner_billing_success d).
Proof. unfold _log_partner_billing_success. pres. Qed.

(** The compensating credit adds back what the same call took: the sponsor
    row it lands on is the debited one, so the sum is the old balance. *)
Lemma preserves_partner p c mode ut tokens store :
  keeps (_execute_partner_billing p c mode ut tokens store).
Proof.
  unfold _execute_partner_billing.
  apply preserves_bind; [pres|intros s0].
  destruct (match mode with
            | partner_only => _
            | _ => _
            end); [pres|].
  apply preserves_try_except; [|intros e; pres].
  intros s H. unfold bind at 1.
  destruct (aupdate_decrement (pk p) c s) as [[n|e] s1] eqn:Hd;
    pose proof (preserves_decrement (pk p) c s H) as H1; rewrite Hd in H1;
    [|exact H1].
  destruct (Z.eqb_spec n 0) as [->|Hn]; [exact H1|].
  destruct (decrement_cases _ _ _ _ _ Hd) as [[-> _]|(_ & r & Hr & Hc & E1)];
    [contradiction|].
  unfold bind at 1.
  destruct (arefresh_from_db p s1) as [[p'|e] s2] eqn:Hrf;
    pose proof (preserves_refresh p s1 H1) as H2; rewrite Hrf in H2;
    [|exact H2].
  apply refresh_ok in Hrf as (E2 & r2 & _ & ->).
  assert (Hus2 : users s2 = users s1) by (rewrite E2; reflexivity).
  cbn [pk].
  apply preserves_bind_from;
    [|intros [|]; pres; apply preserves_usage].
  destruct (bool_decide (mode = dual)) eqn:Hm; [|exact H2].
  unfold bind at 1.
  destruct (aupdate_decrement (pk (user s0)) c s2) as [[n2|e] s3] eqn:Hd2;
    pose proof (preserves_decrement (pk (user s0)) c s2 H2) as H3;
    rewrite Hd2 in H3; [|exact H3].
  destruct (Z.eqb_spec n2 0) as [->|Hn2].
  - apply decrement_miss in Hd2 as (E3 & _).
    assert (Hus3 : users s3
                   = <[pk p := with_surplus (row_surplus_number r - c) r]>
                       (users s)).
    { rewrite E3. cbn. congruence. }
    unfold aupdate_increment, bind, awaited, get, modify, ret.
    destruct (faults s3) as [|[] f]; cbn; [|exact H3|];
      rewrite Hus3, lookup_insert_eq; cbn;
      (apply nonneg_in_insert; [|rewrite <- Hus3; exact H3]);
      intros Heq; cbn; rewrite Heq in Hr; pose proof (H r Hr); lia.
  - apply preserves_bind_from; [|intros u'; pres].
    apply preserves_refresh. exact H3.
Qed.

Lemma preserves_deduct tokens ut store m :
  keeps (deduct_balance_by_tokens tokens ut store m).
Proof.
  unfold deduct_balance_by_tokens. pres;
    first [apply preserves_strategy | apply preserves_partner
          | apply preserves_partner_notice | apply preserves_log_success
          | apply preserves_alerts | apply preserves_normal].
Qed.

Lemma preserves_single ut store : keeps (deduct_single_balance ut store).
Proof. unfold deduct_single_balance. pres; apply preserves_deduct. Qed.

End OneAccount.

(** C2.  For every account, a stored balance that is not negative before a
    call is not negative after it: in every entry point and every billing
    path, whatever the arguments and whichever awaited calls fail. *)
Theorem balances_stay_nonneg (acct : Z) (s : State) :
  balance_nonneg acct s ->
  (∀ tokens ut store m,
     balance_nonneg acct (deduct_balance_by_tokens tokens ut store m s).2)
  ∧ (∀ tokens c ut store m,
       balance_nonneg acct (_execute_normal_billing tokens c ut store m s).2)
  ∧ (∀ p c mode ut tokens store,
       balance_nonneg acct
         (_execute_partner_billing p c mode ut tokens store s).2)
  ∧ (∀ tokens ut store,
       balance_nonneg acct
         (check_and_handle_insufficient_balance tokens ut store s).2)
  ∧ (∀ c tokens ut store,
       balance_nonneg acct
         (_handle_insufficient_balance_internal c tokens ut store s).2)
  ∧ (∀ amount ut, balance_nonneg acct (increase_balance amount ut s).2)
  ∧ (∀ ut store, balance_nonneg acct (deduct_single_balance ut store s).2).
Proof.
  intros H. repeat split; intros.
  - now apply preserves_deduct.
  - now apply preserves_normal.
  - now apply preserves_partner.
  - now apply preserves_check.
  - now apply preserves_handler.
  - now apply preserves_increase.
  - now apply preserves_single.
Qed.

Lemma balances_stay_nonneg_witness :
  balance_nonneg 1
    (deduct_balance_by_tokens 1000000 "ai回复" None PyFloat.one (solo 500 [])).2
  ∧ balance_nonneg 1 (increase_balance 25 "充值" (solo 500 [])).2.
Proof.
  assert (H : balance_nonneg 1 (solo 500 [])).
  { intros r Hr. vm_compute in Hr. injection Hr as <-. cbn. lia. }
  split.
  - exact (proj1 (balances_stay_nonneg 1 (solo 500 []) H) 1000000 "ai回复"
             None PyFloat.one).
  - destruct (balances_stay_nonneg 1 (solo 500 []) H)
      as (_ & _ & _ & _ & _ & Hinc & _).
    exact (Hinc 25 "充值").
Defined.

(** The same over the whole table. *)
Lemma all_balances_stay_nonneg tokens ut store m (s : State) :
  (∀ k, balance_nonneg k s) ->
  ∀ k, balance_nonneg k (deduct_balance_by_tokens tokens ut store m s).2.
Proof. intros H k. now apply preserves_deduct. Qed.

(** ** The two balance checks *)

(** C10.  Under dual billing [check_and_handle_insufficient_balance] decides
    on the user's own balance alone, whatever the partner holds;
    [check_balance_sufficient] asks for both balances; the partner's balance
    decides only under partner-only billing. *)
Theorem dual_check_reads_own_balance tokens ut store s s0 p c mode :
  base_cost tokens = Ok c ->
  _get_billing_strategy s
  = (Ok (mkStrategy true (Some p) (bool_decide (mode = partner_only)) mode), s0) ->
  mode ≠ normal ->
  (mode = dual ->
     (c <= surplus_number (user s) ->
        check_and_handle_insufficient_balance tokens ut store s
        = (Ok (true, None, None), s0))
     ∧ (∃ msg info s',
          check_and_handle_insufficient_balance tokens ut store s
          = (Ok (bool_decide (c <= surplus_number (user s)), msg, info), s'))
     ∧ (∃ msg s',
          check_balance_sufficient tokens s
          = (Ok (bool_decide
                   (c = 0 ∨ c <= surplus_number p ∧ c <= surplus_number (user s)),
                 msg), s')))
  ∧ (mode = partner_only ->
       ∃ msg info s',
         check_and_handle_insufficient_balance tokens ut store s
         = (Ok (bool_decide (c <= surplus_number p), msg, info), s')).
Proof.
  intros Hb Hst Hmode.
  destruct (strategy_run_same _ _ _ Hst) as ((Hu & _) & _).
  split; intros ->.
  - assert (Hgo : ∃ msg info s',
              check_and_handle_insufficient_balance tokens ut store s
              = (Ok (bool_decide (c <= surplus_number (user s)), msg, info), s')
              ∧ (c <= surplus_number (user s) ->
                 msg = None ∧ info = None ∧ s' = s0)).
    { unfold check_and_handle_insufficient_balance, bind, lift, get, ret.
      rewrite Hb, Hst. unfold partner_only_payer. cbn [ is_partner_subordinate
                             billing_mode partner_user andb].
      rewrite bool_decide_eq_false_2 by discriminate. cbv beta iota.
      rewrite Hu.
      destruct (Z.leb_spec c (surplus_number (user s))) as [Hle|Hlt].
      - rewrite bool_decide_eq_true_2 by assumption.
        eexists _, _, _. split; [reflexivity|]. now intros _.
      - rewrite bool_decide_eq_false_2 by lia.
        unfold logger, modify.
        destruct (handler_runs c tokens ut store
                    (add_log (WARNING,
                              ev_balance_insufficient c (surplus_number (user s)))
                       s0)) as (info & s' & ->).
        eexists _, _, _. split; [reflexivity|]. lia. }
    destruct Hgo as (msg & info & s' & Hrun & Hok).
    split; [|split].
    + intros Hle. destruct (Hok Hle) as (-> & -> & ->).
      rewrite Hrun. now rewrite bool_decide_eq_true_2.
    + now exists msg, info, s'.
    + unfold check_balance_sufficient, bind, lift, get, ret. rewrite Hb.
      destruct (Z.eqb_spec c 0) as [->|Hc0].
      * eexists _, _. rewrite bool_decide_eq_true_2 by now left. reflexivity.
      * rewrite Hst. cbn [is_partner_subordinate partner_user billing_mode].
        rewrite bool_decide_eq_false_2 by discriminate. cbv beta iota.
        rewrite Hu.
        destruct (Z.leb_spec c (surplus_number p)),
          (Z.leb_spec c (surplus_number (user s))); cbn [andb negb];
          eexists _, _;
          first [ rewrite bool_decide_eq_true_2 by (right; lia); reflexivity
                | rewrite bool_decide_eq_false_2 by lia; reflexivity ].
  - unfold check_and_handle_insufficient_balance, bind, lift, get, ret.
    rewrite Hb, Hst. unfold partner_only_payer. cbn [ is_partner_subordinate
                           billing_mode partner_user andb].
    rewrite bool_decide_eq_true_2 by reflexivity. cbv beta iota.
    destruct (Z.leb_spec c (surplus_number p)) as [Hle|Hlt].
    + rewrite bool_decide_eq_true_2 by assumption. now eexists _, _, _.
    + rewrite bool_decide_eq_false_2 by lia.
      destruct (partner_notice_runs p c ut s0) as (s' & -> & _).
      now eexists _, _, _.
Qed.

Lemma dual_check_reads_own_balance_witness :
  check_and_handle_insufficient_balance 10000 "ai回复" None
    (sponsored 50 50 3 [expired] [])
  = (Ok (true, None, None), sponsored 50 50 3 [expired] [])
  ∧ ∃ msg s',
      check_balance_sufficient 10000 (sponsored 50 50 3 [expired] [])
      = (Ok (bool_decide (10 = 0 ∨ 10 <= 3 ∧ 10 <= 50), msg), s').
Proof.
  destruct (dual_check_reads_own_balance 10000 "ai回复" None
              (sponsored 50 50 3 [expired] []) (sponsored 50 50 3 [expired] [])
              (mkUser 2 3 None "partner") 10 dual
              eq_refl eq_refl ltac:(discriminate)) as [H _].
  destruct (H eq_refl) as (Hown & _ & Hboth).
  split; [apply Hown; cbn; lia|exact Hboth].
Defined.

(** * Further properties of the module *)

(** ** The cost at its edges *)

Lemma ceil_raises x e :
  PyFloat.math_ceil x = Raise e -> e = ValueError ∨ e = OverflowError.
Proof.
  destruct x as [sg|sg| |sg m ex]; cbn; try congruence.
  - intros [= <-]. now right.
  - intros [= <-]. now left.
  - destruct ex; discriminate.
Qed.

Lemma base_cost_raises t e : base_cost t = Raise e -> e = ValueError ∨ e = OverflowError.
Proof.
  unfold base_cost. destruct (0 <? t); [|discriminate].
  unfold PyFloat.truediv. cbn [Z.eqb].
  destruct (t =? 0); [cbn; discriminate|].
  destruct (SFdiv_core_binary _ _ _ _ _ _) as [[mz ez] lz].
  destruct (binary_round_aux _ _ _ _ _ _) eqn:E; try apply ceil_raises.
  intros [= <-]. now right.
Qed.

Lemma float_of_int_cases n :
  PyFloat.float_of_int n = Raise OverflowError
  ∨ ∃ f, PyFloat.float_of_int n = Ok f ∧ ∀ sg, f ≠ S754_infinity sg.
Proof.
  unfold PyFloat.float_of_int.
  destruct (binary_normalize _ _ _ _ _) eqn:E; [right|left|right|right];
    try reflexivity; eexists; (split; [reflexivity|discriminate]).
Qed.

Lemma mul_nonfinite f m :
  PyFloat.is_finite m = false ->
  ∃ e, (e = ValueError ∨ e = OverflowError)
       ∧ PyFloat.math_ceil (SFmul PyFloat.prec PyFloat.emax f m) = Raise e.
Proof.
  destruct m as [sg|sg| |sg mm me]; try discriminate; intros _;
    destruct f as [sf|sf| |sf fm fe]; cbn;
    eexists; (split; [|reflexivity]); auto.
Qed.

Lemma cost_of_nonfinite tokens m :
  PyFloat.is_finite m = false ->
  ∃ e, (e = ValueError ∨ e = OverflowError) ∧ token_cost_of tokens m = Raise e.
Proof.
  intros Hm. unfold token_cost_of.
  destruct (base_cost tokens) as [b|e] eqn:Hb.
  - unfold PyFloat.int_mul_float.
    destruct (float_of_int_cases b) as [->|(f & -> & _)].
    + exists OverflowError. split; [now right|reflexivity].
    + exact (mul_nonfinite f m Hm).
  - exists e. split; [exact (base_cost_raises _ _ Hb)|reflexivity].
Qed.

Lemma ceiling_bounds (t : Z) :
  0 < t <= 1000 * 2 ^ 44 ->
  0 < (t + 999) / 1000 < 2 ^ 45
  ∧ 1000 * ((t + 999) / 1000 - 1) < t <= 1000 * ((t + 999) / 1000).
Proof.
  intros Ht.
  pose proof (Z.div_mod (t + 999) 1000 ltac:(lia)).
  pose proof (Z.mod_pos_bound (t + 999) 1000 ltac:(lia)). lia.
Qed.

Lemma cost_of_zero_multiplier t sg :
  0 < t <= 1000 * 2 ^ 44 -> token_cost_of t (S754_zero sg) = Ok 0.
Proof.
  intros Ht. unfold token_cost_of. rewrite (base_cost_exact t Ht).
  set (n := (t + 999) / 1000).
  assert (Hn : 0 < n < 2 ^ 45).
  { pose proof (Z.div_mod (t + 999) 1000 ltac:(lia)).
    pose proof (Z.mod_pos_bound (t + 999) 1000 ltac:(lia)). subst n. lia. }
  unfold PyFloat.int_mul_float.
  destruct n as [|np|np] eqn:En; try lia.
  pose proof (Zdigits2_bounds np) as Hb.
  assert (Hd : Zdigits2 (Z.pos np) < 53).
  { destruct (Z.lt_ge_cases (Zdigits2 (Z.pos np)) 53) as [|Hge]; [assumption|].
    assert (2 ^ 52 <= 2 ^ (Zdigits2 (Z.pos np) - 1))
      by (apply Z.pow_le_mono_r; lia). lia. }
  rewrite (float_of_int_exact (Z.pos np) _ ltac:(lia) eq_refl Hd).
  reflexivity.
Qed.

(** At the multiplier 1.0 the cost is the cost before the multiplier. *)
Lemma cost_at_one (t : Z) :
  0 < t <= 1000 * 2 ^ 44 ->
  token_cost_of t PyFloat.one = Ok ((t + 999) / 1000).
Proof.
  intros Ht. unfold token_cost_of. rewrite (base_cost_exact t Ht).
  change PyFloat.one with (S754_finite false 4503599627370496 (0 - 52)).
  rewrite ceil_int_mul_pow2 by (pose proof (ceiling_bounds t Ht); lia).
  f_equal. lia.
Qed.

Lemma zero_cost_run tokens ut store m s :
  token_cost_of tokens m = Ok 0 ->
  deduct_balance_by_tokens tokens ut store m s
  = (Ok (true, zero_cost (surplus_number (user s)) m),
     add_log (WARNING, ev_zero_tokens) s).
Proof.
  intros Hc. unfold deduct_balance_by_tokens, try_except, bind, lift.
  now rewrite Hc.
Qed.

(** X1.  A call whose cost is zero is free and touches nothing.  For
    [tokens <= 0] with any finite multiplier, and for a zero multiplier with
    any token count up to [1000 * 2^44], [deduct_balance_by_tokens] returns
    [True] with nothing deducted; it runs no query and awaits no call, so
    the state changes by one warning in the log, whatever the balance and
    whoever the superior. *)
Theorem free_calls_touch_nothing ut store s :
  (∀ tokens m, tokens <= 0 -> PyFloat.is_finite m = true ->
     deduct_balance_by_tokens tokens ut store m s
     = (Ok (true, zero_cost (surplus_number (user s)) m),
        add_log (WARNING, ev_zero_tokens) s))
  ∧ (∀ tokens sg, 0 < tokens <= 1000 * 2 ^ 44 ->
       deduct_balance_by_tokens tokens ut store (S754_zero sg) s
       = (Ok (true, zero_cost (surplus_number (user s)) (S754_zero sg)),
          add_log (WARNING, ev_zero_tokens) s)).
Proof.
  split.
  - intros tokens m Ht Hm. apply zero_cost_run.
    exact (proj2 (cost_of_nonpositive tokens m Ht Hm)).
  - intros tokens sg Ht. apply zero_cost_run.
    now apply cost_of_zero_multiplier.
Qed.

Lemma free_calls_touch_nothing_witness :
  deduct_balance_by_tokens (-3) "ai回复" None PyFloat.two
    (sponsored 0 0 0 [] [true])
  = (Ok (true, zero_cost 0 PyFloat.two),
     add_log (WARNING, ev_zero_tokens) (sponsored 0 0 0 [] [true]))
  ∧ deduct_balance_by_tokens 5000 "ai回复" None (S754_zero false) (solo 0 [true])
    = (Ok (true, zero_cost 0 (S754_zero false)),
       add_log (WARNING, ev_zero_tokens) (solo 0 [true])).
Proof.
  split.
  - apply (proj1 (free_calls_touch_nothing "ai回复" None
                    (sponsored 0 0 0 [] [true])) (-3) PyFloat.two);
      [lia|reflexivity].
  - apply (proj2 (free_calls_touch_nothing "ai回复" None (solo 0 [true]))
             5000 false). lia.
Defined.

(** X2.  A multiplier that is a NaN or an infinity makes [math.ceil] raise.
    The catch-all handler of [deduct_balance_by_tokens] turns the
    [ValueError] or [OverflowError] into [False] with status [error], logged
    at error level, before any query is made. *)
Theorem nonfinite_multiplier_is_an_error tokens ut store m s :
  PyFloat.is_finite m = false ->
  ∃ e, (e = ValueError ∨ e = OverflowError)
       ∧ token_cost_of tokens m = Raise e
       ∧ deduct_balance_by_tokens tokens ut store m s
         = (Ok (false, deduct_exception e),
            add_log (ERROR, ev_deduct_exception e) s).
Proof.
  intros Hm. destruct (cost_of_nonfinite tokens m Hm) as (e & He & Hc).
  exists e. split; [exact He|]. split; [exact Hc|].
  unfold deduct_balance_by_tokens, try_except, bind, lift. rewrite Hc.
  reflexivity.
Qed.

Lemma nonfinite_multiplier_is_an_error_witness :
  ∃ e, (e = ValueError ∨ e = OverflowError)
       ∧ token_cost_of 1000 S754_nan = Raise e
       ∧ deduct_balance_by_tokens 1000 "ai回复" None S754_nan (solo 10 [])
         = (Ok (false, deduct_exception e),
            add_log (ERROR, ev_deduct_exception e) (solo 10 [])).
Proof.
  exact (nonfinite_multiplier_is_an_error 1000 "ai回复" None S754_nan
           (solo 10 []) eq_refl).
Defined.

(** ** Exceptions at the entry points *)

Lemma try_except_returns {A} (body : M A) (h : exn -> M A) (s : State) :
  (∀ e s1, ∃ a s', h e s1 = (Ok a, s')) ->
  ∃ a s', try_except body h s = (Ok a, s').
Proof.
  intros Hh. unfold try_except. destruct (body s) as [[a|e] s1].
  - now exists a, s1.
  - apply Hh.
Qed.

(** X3.  No exception leaves the entry points.  Whichever awaited call
    fails, and whatever the arguments, [deduct_balance_by_tokens],
    [deduct_single_balance] and [increase_balance] return their result, and
    [get_balance_owner] and [get_balance_owner_id] return an account. *)
Theorem entry_points_never_raise (s : State) :
  (∀ tokens ut store m,
     ∃ r s', deduct_balance_by_tokens tokens ut store m s = (Ok r, s'))
  ∧ (∀ ut store, ∃ b s', deduct_single_balance ut store s = (Ok b, s'))
  ∧ (∀ amount ut, ∃ r s', increase_balance amount ut s = (Ok r, s'))
  ∧ (∃ owner s', get_balance_owner s = (Ok owner, s'))
  ∧ (∃ k s', get_balance_owner_id s = (Ok k, s')).
Proof.
  assert (Ho : ∃ owner s', get_balance_owner s = (Ok owner, s')).
  { unfold get_balance_owner, bind, get.
    apply try_except_returns. intros e s1. now eexists _, _. }
  repeat split.
  - intros. apply try_except_returns. intros e s1. now eexists _, _.
  - intros. apply try_except_returns. intros e s1. now eexists _, _.
  - intros. apply try_except_returns. intros e s1. now eexists _, _.
  - exact Ho.
  - destruct Ho as (o & s' & Ho). unfold get_balance_owner_id, bind.
    rewrite Ho. now eexists _, _.
Qed.

Lemma first_query_fails s f :
  truthy (superior_id (user s)) = true -> faults s = true :: f ->
  _get_billing_strategy s = (Raise DatabaseError, set_faults f s).
Proof.
  intros Hs Hf. unfold _get_billing_strategy. prims. now rewrite Hs, Hf.
Qed.

(** X4.  The two checks have no handler of their own.  When the user has a
    superior and the first query of the strategy fails,
    [check_and_handle_insufficient_balance] and [check_balance_sufficient]
    raise the failure to their caller, while [get_balance_owner] falls back
    to the user and [deduct_balance_by_tokens] reports status [error]. *)
Theorem checks_propagate_query_failure tokens ut store m s f b c :
  truthy (superior_id (user s)) = true ->
  faults s = true :: f ->
  base_cost tokens = Ok b -> b ≠ 0 ->
  token_cost_of tokens m = Ok c -> c ≠ 0 ->
  check_and_handle_insufficient_balance tokens ut store s
  = (Raise DatabaseError, set_faults f s)
  ∧ check_balance_sufficient tokens s = (Raise DatabaseError, set_faults f s)
  ∧ get_balance_owner s = (Ok (user s), set_faults f s)
  ∧ deduct_balance_by_tokens tokens ut store m s
    = (Ok (false, deduct_exception DatabaseError),
       add_log (ERROR, ev_deduct_exception DatabaseError) (set_faults f s)).
Proof.
  intros Hs Hf Hb Hb0 Hc Hc0.
  pose proof (first_query_fails s f Hs Hf) as Hq.
  apply Z.eqb_neq in Hb0, Hc0.
  repeat split.
  - unfold check_and_handle_insufficient_balance, bind, lift.
    now rewrite Hb, Hq.
  - unfold check_balance_sufficient, bind, lift. now rewrite Hb, Hb0, Hq.
  - unfold get_balance_owner, try_except, bind, get. now rewrite Hq.
  - unfold deduct_balance_by_tokens, try_except, bind, lift.
    now rewrite Hc, Hc0, Hq.
Qed.

Lemma checks_propagate_query_failure_witness :
  check_and_handle_insufficient_balance 1000 "ai回复" None
    (sponsored 5 5 100 [running] [true])
  = (Raise DatabaseError, sponsored 5 5 100 [running] [])
  ∧ check_balance_sufficient 1000 (sponsored 5 5 100 [running] [true])
    = (Raise DatabaseError, sponsored 5 5 100 [running] [])
  ∧ get_balance_owner (sponsored 5 5 100 [running] [true])
    = (Ok (mkUser 1 5 (Some 2) "bob"), sponsored 5 5 100 [running] [])
  ∧ deduct_balance_by_tokens 1000 "ai回复" None PyFloat.one
      (sponsored 5 5 100 [running] [true])
    = (Ok (false, deduct_exception DatabaseError),
       add_log (ERROR, ev_deduct_exception DatabaseError)
         (sponsored 5 5 100 [running] [])).
Proof.
  apply (checks_propagate_query_failure 1000 "ai回复" None PyFloat.one
           (sponsored 5 5 100 [running] [true]) [] 1 1);
    (reflexivity || discriminate).
Defined.

(** ** The queries *)

Lemma only_faults_refl (s : State) : only_faults_consumed s s.
Proof. now destruct s. Qed.

Lemma strategy_only_faults (s : State) :
  only_faults_consumed s (_get_billing_strategy s).2.
Proof.
  unfold only_faults_consumed, _get_billing_strategy. prims.
  destruct s as [u us pg es t ud ns al lg uw fl].
  state_simpl. repeat (split_match; state_simpl); reflexivity.
Qed.

Lemma strategy_run_only_faults s r s0 :
  _get_billing_strategy s = (r, s0) -> s0 = set_faults (faults s0) s.
Proof.
  intros H. pose proof (strategy_only_faults s) as Hs. now rewrite H in Hs.
Qed.

(** X5.  [check_balance_sufficient], [get_balance_owner] and
    [get_balance_owner_id] only read: whatever they return or raise, the
    state after them differs from the one before in the failure schedule
    alone.  [check_balance_sufficient] answers [True] exactly with the empty
    message. *)
Theorem balance_queries_are_read_only (s : State) :
  (∀ tokens,
     only_faults_consumed s (check_balance_sufficient tokens s).2
     ∧ match (check_balance_sufficient tokens s).1 with
       | Ok (sufficient, message) => sufficient = true ↔ message = ""
       | Raise _ => True
       end)
  ∧ only_faults_consumed s (get_balance_owner s).2
  ∧ only_faults_consumed s (get_balance_owner_id s).2.
Proof.
  assert (Ho : only_faults_consumed s (get_balance_owner s).2).
  { unfold get_balance_owner, try_except, bind, get.
    destruct (_get_billing_strategy s) as [[st|e] s0] eqn:Hst;
      apply strategy_run_only_faults in Hst;
      [destruct (partner_only_payer st)|]; exact Hst. }
  split; [|split; [exact Ho|]].
  - intros tokens. unfold check_balance_sufficient, bind, lift.
    destruct (base_cost tokens) as [c|e];
      [|split; [apply only_faults_refl|exact I]].
    destruct (c =? 0); [split; [apply only_faults_refl|now split]|].
    destruct (_get_billing_strategy s) as [[st|e] s0] eqn:Hst;
      apply strategy_run_only_faults in Hst; [|now split].
    unfold get, ret. cbv beta iota.
    destruct (is_partner_subordinate st), (partner_user st);
      repeat (match goal with
              | |- context [if ?x then _ else _] => destruct x
              end; cbn [andb negb fst snd]);
      (split; [exact Hst|]); split; (reflexivity || discriminate).
  - unfold get_balance_owner_id, bind.
    destruct (get_balance_owner s) as [[o|e] s']; exact Ho.
Qed.


(** X7.  Every usage type gets the same notification title.  The customer
    message is the busy message for the AI reply type alone; every other
    type, listed in the dictionary or not, gets the remaining-count
    message. *)
Theorem messages_by_usage_type (ut : string) :
  _get_notification_title ut = "AI回复条数不足"
  ∧ _get_customer_friendly_message ut
    = (if bool_decide (ut = "ai回复") then "抱歉，当前客服繁忙"
       else "剩余AI回复条数不足，请检查剩余条数").
Proof.
  unfold _get_notification_title, _get_customer_friendly_message, dict_get.
  cbn [find fst snd].
  split; repeat case_bool_decide; try reflexivity; congruence.
Qed.

(** ** Runs in which nothing fails *)

(** Run a call in a state whose failure schedule [Hf] is known. *)
Ltac run_with Hf :=
  repeat first
    [ progress state_simpl | progress cbn [Z.eqb] | rewrite Hf
    | rewrite lookup_insert_eq ].

Lemma strategy_of_unsponsored s :
  truthy (superior_id (user s)) = false ->
  _get_billing_strategy s = (Ok default_strategy, s).
Proof. intros H. unfold _get_billing_strategy. prims. now rewrite H. Qed.

(** The strategy of a user under a partner, when no query fails. *)
Lemma strategy_of_sponsored s k r :
  faults s = [] ->
  superior_id (user s) = Some k -> k ≠ 0 ->
  users s !! k = Some r -> k ∈ partner_group s ->
  _get_billing_strategy s
  = (Ok (let granted :=
           existsb (entitlement_matches (pk (user s)) k (now s))
             (entitlements s) in
         mkStrategy true (Some (instance_of k r)) granted
           (if granted then partner_only else dual)), s).
Proof.
  intros Hf Hs Hk Hr Hin. unfold _get_billing_strategy. prims.
  rewrite Hs. cbn [truthy]. assert ((k =? 0) = false) as -> by lia.
  cbn [negb default from_option id]. rewrite Hf, Hr, Hf. state_simpl.
  rewrite bool_decide_eq_true_2 by assumption. now rewrite Hf.
Qed.

Lemma strategy_of_stranger s k :
  faults s = [] ->
  superior_id (user s) = Some k ->
  users s !! k = None ∨ k ∉ partner_group s ->
  _get_billing_strategy s = (Ok default_strategy, s).
Proof.
  intros Hf Hs Hno. unfold _get_billing_strategy. prims.
  rewrite Hs. cbn [truthy]. destruct (k =? 0); [reflexivity|].
  cbn [negb default from_option id]. rewrite Hf.
  destruct (users s !! k) as [r|] eqn:Hr; [|reflexivity].
  destruct Hno as [?|Hno]; [discriminate|].
  rewrite Hf. state_simpl. now rewrite bool_decide_eq_false_2.
Qed.

(** The three outcomes of the strategy when no query fails. *)
Lemma strategy_cases s :
  faults s = [] ->
  _get_billing_strategy s = (Ok default_strategy, s)
  ∨ ∃ k r, superior_id (user s) = Some k ∧ k ≠ 0
           ∧ users s !! k = Some r ∧ k ∈ partner_group s.
Proof.
  intros Hf.
  destruct (truthy (superior_id (user s))) eqn:Ht;
    [|left; now apply strategy_of_unsponsored].
  destruct (superior_id (user s)) as [k|] eqn:Hs; [|discriminate].
  cbn [truthy] in Ht. apply negb_true_iff, Z.eqb_neq in Ht.
  destruct (users s !! k) as [r|] eqn:Hr;
    [|left; apply (strategy_of_stranger s k); auto].
  destruct (decide (k ∈ partner_group s)) as [Hin|Hin];
    [|left; apply (strategy_of_stranger s k); auto].
  right. now exists k, r.
Qed.

Lemma granted s k :
  active_grant s k ->
  existsb (entitlement_matches (pk (user s)) k (now s)) (entitlements s) = true.
Proof. apply entitlement_exists_iff. Qed.

Lemma not_granted s k :
  ¬ active_grant s k ->
  existsb (entitlement_matches (pk (user s)) k (now s)) (entitlements s) = false.
Proof.
  intros H. destruct (existsb _ _) eqn:E; [|reflexivity].
  now apply entitlement_exists_iff in E.
Qed.

(** The normal path when nothing fails. *)
Lemma normal_run tokens ut store m s r b c :
  _get_billing_strategy s = (Ok default_strategy, s) ->
  faults s = [] ->
  users s !! pk (user s) = Some r ->
  base_cost tokens = Ok b -> token_cost_of tokens m = Ok c -> c ≠ 0 ->
  b <= surplus_number (user s) -> c <= row_surplus_number r ->
  let remaining := row_surplus_number r - c in
  let u := user s in
  deduct_balance_by_tokens tokens ut store m s
  = (Ok (true, normal_done c tokens remaining m),
     add_alert (pk u, remaining)
       (add_log (INFO, ev_normal_done c remaining)
          (add_usage
             (mkUsage c remaining ut (pk u) tokens (pk u) (store_of ut store))
             (set_user (mkUser (pk u) remaining (superior_id u) (username u))
                (add_user_write (wr_decrement (pk u) c)
                   (set_users (<[pk u := with_surplus remaining r]> (users s))
                      s)))))).
Proof.
  intros Hs Hf Hr Hb Hc Hc0 Hle Hcr remaining u.
  unfold deduct_balance_by_tokens, _execute_normal_billing,
    check_and_handle_insufficient_balance.
  unfold try_except at 1. unfold bind at 1. unfold lift at 1. rewrite Hc.
  apply Z.eqb_neq in Hc0. rewrite Hc0.
  unfold bind at 1. rewrite Hs.
  cbn [is_partner_subordinate default_strategy].
  unfold bind at 1. unfold bind at 1. unfold lift at 1. rewrite Hb.
  unfold bind at 1. rewrite Hs.
  cbn [partner_only_payer is_partner_subordinate default_strategy andb].
  unfold bind at 1. unfold get at 1.
  assert ((b <=? surplus_number (user s)) = true) as -> by lia.
  unfold ret at 1. cbn [negb].
  prims. state_simpl. rewrite Hf, Hr.
  assert ((c <=? row_surplus_number r) = true) as -> by lia.
  run_with Hf. reflexivity.
Qed.

(** X8.  The normal path when nothing fails.  For a user without superior
    whose cached balance covers the cost before the multiplier and whose
    stored balance covers the cost, the call returns [True]; the stored and
    the cached balance become the stored balance minus the cost; exactly one
    conditional update, one usage record holding the balance after, one log
    line and one alert check are issued. *)
Theorem normal_billing_commits tokens ut store m s r b c :
  truthy (superior_id (user s)) = false ->
  faults s = [] ->
  users s !! pk (user s) = Some r ->
  base_cost tokens = Ok b -> token_cost_of tokens m = Ok c -> c ≠ 0 ->
  b <= surplus_number (user s) -> c <= row_surplus_number r ->
  let remaining := row_surplus_number r - c in
  let u := user s in
  ∃ s',
    deduct_balance_by_tokens tokens ut store m s
    = (Ok (true, normal_done c tokens remaining m), s')
    ∧ users s' = <[pk u := with_surplus remaining r]> (users s)
    ∧ user s' = mkUser (pk u) remaining (superior_id u) (username u)
    ∧ user_writes s' = user_writes s ++ [wr_decrement (pk u) c]
    ∧ usage_details s'
      = usage_details s
        ++ [mkUsage c remaining ut (pk u) tokens (pk u) (store_of ut store)]
    ∧ notifications s' = notifications s
    ∧ alerts s' = alerts s ++ [(pk u, remaining)]
    ∧ log s' = log s ++ [(INFO, ev_normal_done c remaining)].
Proof.
  intros Hs Hf Hr Hb Hc Hc0 Hle Hcr remaining u. eexists. split.
  - apply (normal_run tokens ut store m s r b c); try assumption.
    now apply strategy_of_unsponsored.
  - state_simpl. now repeat split.
Qed.

Lemma normal_billing_commits_witness :
  ∃ s',
    deduct_balance_by_tokens 3000 "ai回复" (Some 7) PyFloat.two (solo 10 [])
    = (Ok (true, normal_done 6 3000 4 PyFloat.two), s')
    ∧ users s' = <[1 := mkRow 4 None "alice"]> (users (solo 10 []))
    ∧ user s' = mkUser 1 4 None "alice"
    ∧ user_writes s' = [wr_decrement 1 6]
    ∧ usage_details s' = [mkUsage 6 4 "ai回复" 1 3000 1 (Some 7)]
    ∧ notifications s' = []
    ∧ alerts s' = [(1, 4)]
    ∧ log s' = [(INFO, ev_normal_done 6 4)].
Proof.
  apply (normal_billing_commits 3000 "ai回复" (Some 7) PyFloat.two (solo 10 [])
           (mkRow 10 None "alice") 3 6);
    first [reflexivity | discriminate | cbn; lia].
Defined.

(** X9.  A stale instance cannot overdraw.  When the cached balance passes
    the pre-check but the stored balance is below the cost, the conditional
    update changes no row: the call returns [False] with
    [concurrent_conflict], logs an error and leaves every table as it was;
    no remainder is consumed and no notification is written. *)
Theorem stale_cache_is_caught_by_the_update tokens ut store m s r b c :
  truthy (superior_id (user s)) = false ->
  faults s = [] ->
  users s !! pk (user s) = Some r ->
  base_cost tokens = Ok b -> token_cost_of tokens m = Ok c -> c ≠ 0 ->
  b <= surplus_number (user s) -> row_surplus_number r < c ->
  deduct_balance_by_tokens tokens ut store m s
  = (Ok (false, normal_conflict c), add_log (ERROR, ev_normal_conflict c) s).
Proof.
  intros Hs Hf Hr Hb Hc Hc0 Hle Hlt.
  unfold deduct_balance_by_tokens, _execute_normal_billing,
    check_and_handle_insufficient_balance.
  unfold try_except at 1. unfold bind at 1. unfold lift at 1. rewrite Hc.
  apply Z.eqb_neq in Hc0. rewrite Hc0.
  unfold bind at 1. rewrite (strategy_of_unsponsored s Hs).
  cbn [is_partner_subordinate default_strategy].
  unfold bind at 1. unfold bind at 1. unfold lift at 1. rewrite Hb.
  unfold bind at 1. rewrite (strategy_of_unsponsored s Hs).
  cbn [partner_only_payer is_partner_subordinate default_strategy andb].
  unfold bind at 1. unfold get at 1.
  assert ((b <=? surplus_number (user s)) = true) as -> by lia.
  unfold ret at 1. cbn [negb].
  prims. state_simpl. rewrite Hf, Hr.
  assert ((c <=? row_surplus_number r) = false) as -> by lia.
  reflexivity.
Qed.

Lemma stale_cache_is_caught_by_the_update_witness :
  deduct_balance_by_tokens 5000 "ai回复" None PyFloat.one
    (initial (mkUser 1 50 None "alice") [(1, mkRow 2 None "alice")] [] [] 0 [])
  = (Ok (false, normal_conflict 5),
     add_log (ERROR, ev_normal_conflict 5)
       (initial (mkUser 1 50 None "alice") [(1, mkRow 2 None "alice")] [] []
          0 [])).
Proof.
  apply (stale_cache_is_caught_by_the_update 5000 "ai回复" None PyFloat.one
           (initial (mkUser 1 50 None "alice") [(1, mkRow 2 None "alice")] []
              [] 0 [])
           (mkRow 2 None "alice") 5 5);
    first [reflexivity | discriminate | cbn; lia].
Defined.

Lemma handler_run c tokens ut store s :
  faults s = [] ->
  _handle_insufficient_balance_internal c tokens ut store s
  = (Ok (handler_info (user s) c tokens ut None), settled tokens ut store s).
Proof.
  intros Hf. unfold _handle_insufficient_balance_internal, settled. prims.
  state_simpl.
  destruct (0 <? surplus_number (user s)); run_with Hf; reflexivity.
Qed.

(** The normal path when the pre-check rejects and nothing fails. *)
Lemma normal_reject_run tokens ut store m s b c :
  _get_billing_strategy s = (Ok default_strategy, s) ->
  faults s = [] ->
  base_cost tokens = Ok b -> token_cost_of tokens m = Ok c -> c ≠ 0 ->
  surplus_number (user s) < b ->
  deduct_balance_by_tokens tokens ut store m s
  = (Ok (false,
         normal_insufficient c 0 (handler_info (user s) b tokens ut None)),
     add_log (WARNING, ev_normal_insufficient c 0)
       (settled tokens ut store
          (add_log
             (WARNING, ev_balance_insufficient b (surplus_number (user s)))
             s))).
Proof.
  intros Hs Hf Hb Hc Hc0 Hlt.
  unfold deduct_balance_by_tokens, _execute_normal_billing,
    check_and_handle_insufficient_balance.
  unfold try_except at 1. unfold bind at 1. unfold lift at 1. rewrite Hc.
  apply Z.eqb_neq in Hc0. rewrite Hc0.
  unfold bind at 1. rewrite Hs.
  cbn [is_partner_subordinate default_strategy].
  unfold bind at 1. unfold bind at 1. unfold lift at 1. rewrite Hb.
  unfold bind at 1. rewrite Hs.
  cbn [partner_only_payer is_partner_subordinate default_strategy andb].
  unfold bind at 1. unfold get at 1.
  assert ((b <=? surplus_number (user s)) = false) as -> by lia.
  unfold bind at 1. unfold logger at 1. unfold modify at 1.
  unfold bind at 1.
  rewrite (handler_run b tokens ut store) by (state_simpl; exact Hf).
  reflexivity.
Qed.

(** X10.  The dictionary of a rejected normal call ends with the handler's
    entries.  When the handler completes, the failed call carries status
    [success] and the handler's message; its [available] is the balance
    after the reset, 0; its [required] is the cost with the multiplier,
    while the handler's [required_cost] is the cost without.  The stored
    balance is 0 afterwards, whatever the row held. *)
Theorem rejected_call_carries_handler_status tokens ut store m s b c :
  truthy (superior_id (user s)) = false ->
  faults s = [] ->
  base_cost tokens = Ok b -> token_cost_of tokens m = Ok c -> c ≠ 0 ->
  surplus_number (user s) < b ->
  ∃ d s',
    deduct_balance_by_tokens tokens ut store m s = (Ok (false, d), s')
    ∧ d = normal_insufficient c 0 (handler_info (user s) b tokens ut None)
    ∧ status_of d = status_success
    ∧ message_of d = Some (msg "余额不足处理完成")
    ∧ balance_of (pk (user s)) s' = Some 0.
Proof.
  intros Hs Hf Hb Hc Hc0 Hlt. eexists _, _.
  split; [apply (normal_reject_run tokens ut store m s b c); try assumption;
          now apply strategy_of_unsponsored|].
  split; [reflexivity|]. split; [reflexivity|]. split; [reflexivity|].
  unfold balance_of, settled. state_simpl. now rewrite lookup_insert_eq.
Qed.

Lemma rejected_call_carries_handler_status_witness :
  ∃ d s',
    deduct_balance_by_tokens 10000 "ai回复" None PyFloat.two (solo 7 [])
    = (Ok (false, d), s')
    ∧ d = normal_insufficient 20 0
            (handler_info (mkUser 1 7 None "alice") 10 10000 "ai回复" None)
    ∧ status_of d = status_success
    ∧ message_of d = Some (msg "余额不足处理完成")
    ∧ balance_of 1 s' = Some 0.
Proof.
  apply (rejected_call_carries_handler_status 10000 "ai回复" None PyFloat.two
           (solo 7 []) 10 20);
    first [reflexivity | discriminate | cbn; lia].
Defined.

(** X11.  A failing alert check never changes the outcome.  In the normal
    path the deduction still returns [True]: the row and the instance hold
    the balance minus the cost, the conditional update and the usage record
    are in place as when nothing fails, the success is logged, and only the
    alert is missing.  [_trigger_balance_alerts] returns normally, and when
    its first check fails the partner's check is skipped. *)
Theorem alert_failure_is_swallowed tokens ut store m s r b c f p :
  (truthy (superior_id (user s)) = false ->
   faults s = false :: false :: false :: true :: f ->
   users s !! pk (user s) = Some r ->
   base_cost tokens = Ok b -> token_cost_of tokens m = Ok c -> c ≠ 0 ->
   b <= surplus_number (user s) -> c <= row_surplus_number r ->
   let remaining := row_surplus_number r - c in
   let u := user s in
   ∃ s', deduct_balance_by_tokens tokens ut store m s
         = (Ok (true, normal_done c tokens remaining m), s')
         ∧ users s' = <[pk u := with_surplus remaining r]> (users s)
         ∧ user s' = mkUser (pk u) remaining (superior_id u) (username u)
         ∧ user_writes s' = user_writes s ++ [wr_decrement (pk u) c]
         ∧ usage_details s'
           = usage_details s
             ++ [mkUsage c remaining ut (pk u) tokens (pk u)
                   (store_of ut store)]
         ∧ notifications s' = notifications s
         ∧ log s' = log s ++ [(INFO, ev_normal_done c remaining)]
         ∧ alerts s' = alerts s ∧ faults s' = f)
  ∧ (faults s = true :: f ->
     _trigger_balance_alerts p s = (Ok (), set_faults f s))
  ∧ (faults s = false :: true :: f ->
     _trigger_balance_alerts p s
     = (Ok (),
        set_faults f (add_alert (pk (user s), surplus_number (user s)) s))).
Proof.
  split; [|split].
  - intros Hs Hf Hr Hb Hc Hc0 Hle Hcr remaining u.
    unfold deduct_balance_by_tokens, _execute_normal_billing,
      check_and_handle_insufficient_balance.
    unfold try_except at 1. unfold bind at 1. unfold lift at 1. rewrite Hc.
    apply Z.eqb_neq in Hc0. rewrite Hc0.
    unfold bind at 1. rewrite (strategy_of_unsponsored s Hs).
    cbn [is_partner_subordinate default_strategy].
    unfold bind at 1. unfold bind at 1. unfold lift at 1. rewrite Hb.
    unfold bind at 1. rewrite (strategy_of_unsponsored s Hs).
    cbn [partner_only_payer is_partner_subordinate default_strategy andb].
    unfold bind at 1. unfold get at 1.
    assert ((b <=? surplus_number (user s)) = true) as -> by lia.
    unfold ret at 1. cbn [negb].
    prims. state_simpl. rewrite Hf. state_simpl. rewrite Hr.
    assert ((c <=? row_surplus_number r) = true) as -> by lia.
    run_with Hf. eexists. split; [reflexivity|].
    state_simpl. now repeat split.
  - intros Hf. unfold _trigger_balance_alerts. prims. now rewrite Hf.
  - intros Hf. unfold _trigger_balance_alerts. prims. rewrite Hf.
    state_simpl. reflexivity.
Qed.

Lemma alert_failure_is_swallowed_witness :
  ∃ s', deduct_balance_by_tokens 3000 "ai回复" None PyFloat.one
          (solo 10 [false; false; false; true])
        = (Ok (true, normal_done 3 3000 7 PyFloat.one), s')
        ∧ users s' = <[1 := mkRow 7 None "alice"]> (users (solo 10 []))
        ∧ user s' = mkUser 1 7 None "alice"
        ∧ user_writes s' = [wr_decrement 1 3]
        ∧ usage_details s' = [mkUsage 3 7 "ai回复" 1 3000 1 None]
        ∧ notifications s' = []
        ∧ log s' = [(INFO, ev_normal_done 3 7)]
        ∧ alerts s' = [] ∧ faults s' = [].
Proof.
  apply (proj1 (alert_failure_is_swallowed 3000 "ai回复" None PyFloat.one
                  (solo 10 [false; false; false; true])
                  (mkRow 10 None "alice") 3 3 [] (mkUser 1 10 None "alice")));
    first [reflexivity | discriminate | cbn; lia].
Defined.

(** X12.  [deduct_single_balance] costs exactly one unit.  For a user
    without superior it debits 1 and records a usage of 1 for 1000 tokens
    when the cached and the stored balance are at least 1; when the cached
    balance is below 1 it returns [False], the stored balance becomes 0, no
    usage record is written and the user is notified. *)
Theorem single_deduction_costs_one ut store s r :
  truthy (superior_id (user s)) = false ->
  faults s = [] ->
  users s !! pk (user s) = Some r ->
  let u := user s in
  (1 <= surplus_number u -> 1 <= row_surplus_number r ->
     ∃ s', deduct_single_balance ut store s = (Ok true, s')
           ∧ balance_of (pk u) s' = Some (row_surplus_number r - 1)
           ∧ surplus_number (user s') = row_surplus_number r - 1
           ∧ usage_details s'
             = usage_details s
               ++ [mkUsage 1 (row_surplus_number r - 1) ut (pk u) 1000 (pk u)
                     (store_of ut store)])
  ∧ (surplus_number u < 1 ->
       ∃ s', deduct_single_balance ut store s = (Ok false, s')
             ∧ balance_of (pk u) s' = Some 0
             ∧ usage_details s' = usage_details s
             ∧ notifications s' = notifications s ++ [balance_notice ut u]).
Proof.
  intros Hs Hf Hr u. split.
  - intros Hc Hst. unfold deduct_single_balance, try_except, bind.
    rewrite (normal_run 1000 ut store PyFloat.one s r 1 1
               (strategy_of_unsponsored s Hs) Hf Hr eq_refl
               eq_refl ltac:(discriminate) Hc Hst).
    eexists. split; [reflexivity|]. unfold balance_of. state_simpl.
    rewrite lookup_insert_eq. now repeat split.
  - intros Hlt. unfold deduct_single_balance, try_except, bind.
    rewrite (normal_reject_run 1000 ut store PyFloat.one s 1 1
               (strategy_of_unsponsored s Hs) Hf eq_refl
               eq_refl ltac:(discriminate) Hlt).
    eexists. split; [reflexivity|]. unfold balance_of, settled. state_simpl.
    rewrite lookup_insert_eq.
    assert ((0 <? surplus_number (user s)) = false) as -> by (fold u; lia).
    now repeat split.
Qed.

Lemma single_deduction_costs_one_witness :
  ∃ s', deduct_single_balance "催单回复" (Some 4) (solo 3 []) = (Ok true, s')
        ∧ balance_of 1 s' = Some 2
        ∧ surplus_number (user s') = 2
        ∧ usage_details s' = [mkUsage 1 2 "催单回复" 1 1000 1 (Some 4)].
Proof.
  apply (proj1 (single_deduction_costs_one "催单回复" (Some 4) (solo 3 [])
                  (mkRow 3 None "alice") eq_refl eq_refl eq_refl));
    cbn; lia.
Defined.

(** The partner-only path when nothing fails. *)
Lemma partner_only_run tokens ut store m s k rp c :
  faults s = [] ->
  superior_id (user s) = Some k -> k ≠ 0 ->
  users s !! k = Some rp -> k ∈ partner_group s ->
  active_grant s k ->
  token_cost_of tokens m = Ok c -> c ≠ 0 ->
  c <= row_surplus_number rp ->
  let remaining := row_surplus_number rp - c in
  let u := user s in
  deduct_balance_by_tokens tokens ut store m s
  = (Ok (true, partner_done partner_only c 0 remaining (surplus_number u)),
     add_alert (k, remaining)
       (add_alert (pk u, surplus_number u)
          (add_log (INFO, ev_partner_billing_done partner_only)
             (add_usage
                (mkUsage c remaining ut k tokens (pk u) (store_of ut store))
                (add_user_write (wr_decrement k c)
                   (set_users (<[k := with_surplus remaining rp]> (users s))
                      s)))))).
Proof.
  intros Hf Hs Hk Hr Hin Hg Hc Hc0 Hle remaining u.
  unfold deduct_balance_by_tokens.
  unfold try_except at 1. unfold bind at 1. unfold lift at 1. rewrite Hc.
  apply Z.eqb_neq in Hc0. rewrite Hc0.
  unfold bind at 1. rewrite (strategy_of_sponsored s k rp Hf Hs Hk Hr Hin).
  rewrite (granted s k Hg).
  cbv zeta. cbn [is_partner_subordinate partner_user billing_mode].
  unfold _execute_partner_billing, _log_partner_billing_success,
    _trigger_balance_alerts.
  prims. state_simpl.
  assert ((row_surplus_number rp <? c) = false) as -> by lia.
  rewrite Hf, Hr.
  assert ((c <=? row_surplus_number rp) = true) as -> by lia.
  run_with Hf. rewrite bool_decide_eq_false_2 by discriminate.
  run_with Hf. reflexivity.
Qed.

(** X13.  Partner-only billing when nothing fails: with an active grant the
    sponsor alone pays.  The sponsor's row is debited by the cost; the
    user's balance is neither checked nor changed; one usage record is filed
    under the sponsor with the user as consumer; both alert checks run, the
    user's first. *)
Theorem partner_only_billing_commits tokens ut store m s k rp c :
  faults s = [] ->
  superior_id (user s) = Some k -> k ≠ 0 ->
  users s !! k = Some rp -> k ∈ partner_group s ->
  active_grant s k ->
  token_cost_of tokens m = Ok c -> c ≠ 0 ->
  c <= row_surplus_number rp ->
  let remaining := row_surplus_number rp - c in
  let u := user s in
  ∃ s',
    deduct_balance_by_tokens tokens ut store m s
    = (Ok (true, partner_done partner_only c 0 remaining (surplus_number u)),
       s')
    ∧ users s' = <[k := with_surplus remaining rp]> (users s)
    ∧ user s' = u
    ∧ user_writes s' = user_writes s ++ [wr_decrement k c]
    ∧ usage_details s'
      = usage_details s
        ++ [mkUsage c remaining ut k tokens (pk u) (store_of ut store)]
    ∧ notifications s' = notifications s
    ∧ alerts s' = alerts s ++ [(pk u, surplus_number u); (k, remaining)].
Proof.
  intros Hf Hs Hk Hr Hin Hg Hc Hc0 Hle remaining u. eexists. split.
  - now apply (partner_only_run tokens ut store m s k rp c).
  - state_simpl. rewrite <- app_assoc. now repeat split.
Qed.

Lemma partner_only_billing_commits_witness :
  ∃ s',
    deduct_balance_by_tokens 10000 "ai回复" None PyFloat.one
      (sponsored 0 0 100 [running] [])
    = (Ok (true, partner_done partner_only 10 0 90 0), s')
    ∧ users s'
      = <[2 := mkRow 90 None "partner"]>
          (users (sponsored 0 0 100 [running] []))
    ∧ user s' = mkUser 1 0 (Some 2) "bob"
    ∧ user_writes s' = [wr_decrement 2 10]
    ∧ usage_details s' = [mkUsage 10 90 "ai回复" 2 10000 1 None]
    ∧ notifications s' = []
    ∧ alerts s' = [(1, 0); (2, 90)].
Proof.
  apply (partner_only_billing_commits 10000 "ai回复" None PyFloat.one
           (sponsored 0 0 100 [running] []) 2 (mkRow 100 None "partner") 10);
    try first [reflexivity | discriminate | cbn; lia].
  exists running. repeat split; cbn; (now left) || lia.
Defined.

(** The dual path when nothing fails. *)
Lemma dual_run tokens ut store m s k rp ru c :
  faults s = [] ->
  superior_id (user s) = Some k -> k ≠ 0 -> k ≠ pk (user s) ->
  users s !! k = Some rp -> k ∈ partner_group s ->
  ¬ active_grant s k ->
  users s !! pk (user s) = Some ru ->
  token_cost_of tokens m = Ok c -> c ≠ 0 ->
  c <= row_surplus_number rp ->
  c <= surplus_number (user s) -> c <= row_surplus_number ru ->
  let partner_remaining := row_surplus_number rp - c in
  let user_remaining := row_surplus_number ru - c in
  let u := user s in
  deduct_balance_by_tokens tokens ut store m s
  = (Ok (true, partner_done dual c c partner_remaining user_remaining),
     add_alert (k, partner_remaining)
       (add_alert (pk u, user_remaining)
          (add_log (INFO, ev_partner_billing_done dual)
             (add_usage
                (mkUsage c user_remaining ut (pk u) tokens (pk u)
                   (store_of ut store))
                (add_usage
                   (mkUsage c partner_remaining ut k tokens (pk u)
                      (store_of ut store))
                   (set_user
                      (mkUser (pk u) user_remaining (superior_id u) (username u))
                      (add_user_write (wr_decrement (pk u) c)
                         (set_users
                            (<[pk u := with_surplus user_remaining ru]>
                               (<[k := with_surplus partner_remaining rp]>
                                  (users s)))
                            (add_user_write (wr_decrement k c) s))))))))).
Proof.
  intros Hf Hs Hk Hne Hr Hin Hg Hru Hc Hc0 Hle Hlu Hlr pr ur u.
  unfold deduct_balance_by_tokens.
  unfold try_except at 1. unfold bind at 1. unfold lift at 1. rewrite Hc.
  apply Z.eqb_neq in Hc0. rewrite Hc0.
  unfold bind at 1. rewrite (strategy_of_sponsored s k rp Hf Hs Hk Hr Hin).
  rewrite (not_granted s k Hg).
  cbv zeta. cbn [is_partner_subordinate partner_user billing_mode].
  unfold _execute_partner_billing, _log_partner_billing_success,
    _trigger_balance_alerts.
  prims. state_simpl.
  assert ((row_surplus_number rp <? c) = false) as -> by lia.
  assert ((surplus_number (user s) <? c) = false) as -> by lia.
  cbn [orb]. rewrite Hf, Hr.
  assert ((c <=? row_surplus_number rp) = true) as -> by lia.
  run_with Hf. rewrite !bool_decide_eq_true_2 by reflexivity.
  run_with Hf. rewrite lookup_insert_ne, Hru by assumption.
  assert ((c <=? row_surplus_number ru) = true) as -> by lia.
  run_with Hf. reflexivity.
Qed.

(** X14.  Dual billing when nothing fails.  Without an active grant, when
    the sponsor's balance and the user's cached and stored balance cover the
    cost, both rows are debited by the same cost, the sponsor's first, and
    two usage records are filed, the sponsor's first. *)
Theorem dual_billing_commits tokens ut store m s k rp ru c :
  faults s = [] ->
  superior_id (user s) = Some k -> k ≠ 0 -> k ≠ pk (user s) ->
  users s !! k = Some rp -> k ∈ partner_group s ->
  ¬ active_grant s k ->
  users s !! pk (user s) = Some ru ->
  token_cost_of tokens m = Ok c -> c ≠ 0 ->
  c <= row_surplus_number rp ->
  c <= surplus_number (user s) -> c <= row_surplus_number ru ->
  let partner_remaining := row_surplus_number rp - c in
  let user_remaining := row_surplus_number ru - c in
  let u := user s in
  ∃ s',
    deduct_balance_by_tokens tokens ut store m s
    = (Ok (true, partner_done dual c c partner_remaining user_remaining), s')
    ∧ users s'
      = <[pk u := with_surplus user_remaining ru]>
          (<[k := with_surplus partner_remaining rp]> (users s))
    ∧ user s' = mkUser (pk u) user_remaining (superior_id u) (username u)
    ∧ user_writes s'
      = user_writes s ++ [wr_decrement k c; wr_decrement (pk u) c]
    ∧ usage_details s'
      = usage_details s
        ++ [mkUsage c partner_remaining ut k tokens (pk u) (store_of ut store);
            mkUsage c user_remaining ut (pk u) tokens (pk u)
              (store_of ut store)]
    ∧ notifications s' = notifications s
    ∧ alerts s' = alerts s ++ [(pk u, user_remaining); (k, partner_remaining)].
Proof.
  intros Hf Hs Hk Hne Hr Hin Hg Hru Hc Hc0 Hle Hlu Hlr pr ur u.
  eexists. split.
  - now apply (dual_run tokens ut store m s k rp ru c).
  - state_simpl. rewrite <- !app_assoc. now repeat split.
Qed.

Lemma dual_billing_commits_witness :
  ∃ s',
    deduct_balance_by_tokens 10000 "ai回复" None PyFloat.one
      (sponsored 50 50 100 [expired] [])
    = (Ok (true, partner_done dual 10 10 90 40), s')
    ∧ users s'
      = <[1 := mkRow 40 (Some 2) "bob"]>
          (<[2 := mkRow 90 None "partner"]>
             (users (sponsored 50 50 100 [expired] [])))
    ∧ user s' = mkUser 1 40 (Some 2) "bob"
    ∧ user_writes s' = [wr_decrement 2 10; wr_decrement 1 10]
    ∧ usage_details s'
      = [mkUsage 10 90 "ai回复" 2 10000 1 None;
         mkUsage 10 40 "ai回复" 1 10000 1 None]
    ∧ notifications s' = []
    ∧ alerts s' = [(1, 40); (2, 90)].
Proof.
  apply (dual_billing_commits 10000 "ai回复" None PyFloat.one
           (sponsored 50 50 100 [expired] []) 2 (mkRow 100 None "partner")
           (mkRow 50 (Some 2) "bob") 10);
    try first [reflexivity | discriminate | cbn; lia].
  intros (e & Hin & _ & _ & _ & Hw). destruct Hin as [<-|[]].
  cbn in Hw. lia.
Defined.

Lemma partner_only_reject_run tokens ut store m s k rp c :
  faults s = [] ->
  superior_id (user s) = Some k -> k ≠ 0 ->
  users s !! k = Some rp -> k ∈ partner_group s ->
  active_grant s k ->
  token_cost_of tokens m = Ok c -> c ≠ 0 ->
  row_surplus_number rp < c ->
  deduct_balance_by_tokens tokens ut store m s
  = (Ok (false, partner_insufficient c (row_surplus_number rp) partner_only),
     notified ut (instance_of k rp) s).
Proof.
  intros Hf Hs Hk Hr Hin Hg Hc Hc0 Hlt.
  unfold deduct_balance_by_tokens.
  unfold try_except at 1. unfold bind at 1. unfold lift at 1. rewrite Hc.
  apply Z.eqb_neq in Hc0. rewrite Hc0.
  unfold bind at 1. rewrite (strategy_of_sponsored s k rp Hf Hs Hk Hr Hin).
  rewrite (granted s k Hg).
  cbv zeta. cbn [is_partner_subordinate partner_user billing_mode].
  unfold _execute_partner_billing, _handle_partner_insufficient_balance.
  prims. state_simpl.
  assert ((row_surplus_number rp <? c) = true) as -> by lia.
  run_with Hf. reflexivity.
Qed.

Lemma dual_reject_run tokens ut store m s k rp c :
  faults s = [] ->
  superior_id (user s) = Some k -> k ≠ 0 ->
  users s !! k = Some rp -> k ∈ partner_group s ->
  ¬ active_grant s k ->
  token_cost_of tokens m = Ok c -> c ≠ 0 ->
  row_surplus_number rp < c ∨ surplus_number (user s) < c ->
  deduct_balance_by_tokens tokens ut store m s
  = (Ok (false,
         dual_insufficient c (row_surplus_number rp) (surplus_number (user s))
           dual),
     notified ut (instance_of k rp) s).
Proof.
  intros Hf Hs Hk Hr Hin Hg Hc Hc0 Hlt.
  unfold deduct_balance_by_tokens.
  unfold try_except at 1. unfold bind at 1. unfold lift at 1. rewrite Hc.
  apply Z.eqb_neq in Hc0. rewrite Hc0.
  unfold bind at 1. rewrite (strategy_of_sponsored s k rp Hf Hs Hk Hr Hin).
  rewrite (not_granted s k Hg).
  cbv zeta. cbn [is_partner_subordinate partner_user billing_mode].
  unfold _execute_partner_billing, _handle_partner_insufficient_balance.
  prims. state_simpl.
  assert ((row_surplus_number rp <? c) || (surplus_number (user s) <? c) = true)
    as -> by (apply orb_true_iff; lia).
  run_with Hf. reflexivity.
Qed.

(** X15.  A partner-only rejection leaves every balance alone.  When the
    sponsor cannot cover the cost, [deduct_balance_by_tokens] and
    [check_and_handle_insufficient_balance] return [False] after filing one
    notice for the user and one for the sponsor; no row is changed, the
    user's balance is not reset and no usage record is written. *)
Theorem partner_only_rejection_spares_balances tokens ut store s k rp :
  faults s = [] ->
  superior_id (user s) = Some k -> k ≠ 0 ->
  users s !! k = Some rp -> k ∈ partner_group s ->
  active_grant s k ->
  let rejected := notified ut (instance_of k rp) s in
  (∀ m c, token_cost_of tokens m = Ok c -> c ≠ 0 ->
     row_surplus_number rp < c ->
     deduct_balance_by_tokens tokens ut store m s
     = (Ok (false, partner_insufficient c (row_surplus_number rp) partner_only),
        rejected))
  ∧ (∀ b, base_cost tokens = Ok b -> row_surplus_number rp < b ->
       check_and_handle_insufficient_balance tokens ut store s
       = (Ok (false, Some (_get_customer_friendly_message ut),
              Some (error_info b (row_surplus_number rp))), rejected))
  ∧ users rejected = users s ∧ user rejected = user s
  ∧ usage_details rejected = usage_details s
  ∧ notifications rejected
    = notifications s
      ++ [user_notice ut (user s); partner_notice (user s) (instance_of k rp)].
Proof.
  intros Hf Hs Hk Hr Hin Hg rejected. split; [|split].
  - intros m c Hc Hc0 Hlt.
    now apply (partner_only_reject_run tokens ut store m s k rp c).
  - intros b Hb Hlt.
    unfold check_and_handle_insufficient_balance.
    unfold bind at 1. unfold lift at 1. rewrite Hb.
    unfold bind at 1. rewrite (strategy_of_sponsored s k rp Hf Hs Hk Hr Hin).
    rewrite (granted s k Hg).
    cbv zeta. unfold partner_only_payer.
    cbn [is_partner_subordinate partner_user billing_mode andb].
    rewrite bool_decide_eq_true_2 by reflexivity.
    unfold _handle_partner_insufficient_balance.
    prims. state_simpl.
    assert ((b <=? row_surplus_number rp) = false) as -> by lia.
    run_with Hf. reflexivity.
  - subst rejected. unfold notified. state_simpl.
    rewrite <- app_assoc. now repeat split.
Qed.

Lemma partner_only_rejection_spares_balances_witness :
  deduct_balance_by_tokens 10000 "ai回复" None PyFloat.one
    (sponsored 50 50 3 [running] [])
  = (Ok (false, partner_insufficient 10 3 partner_only),
     notified "ai回复" (mkUser 2 3 None "partner")
       (sponsored 50 50 3 [running] []))
  ∧ check_and_handle_insufficient_balance 10000 "ai回复" None
      (sponsored 50 50 3 [running] [])
    = (Ok (false, Some "抱歉，当前客服繁忙", Some (error_info 10 3)),
       notified "ai回复" (mkUser 2 3 None "partner")
         (sponsored 50 50 3 [running] [])).
Proof.
  assert (Hg : active_grant (sponsored 50 50 3 [running] []) 2).
  { exists running. repeat split; cbn; (now left) || lia. }
  destruct (partner_only_rejection_spares_balances 10000 "ai回复" None
              (sponsored 50 50 3 [running] []) 2 (mkRow 3 None "partner")
              eq_refl eq_refl ltac:(discriminate) eq_refl
              ltac:(apply elem_of_list_to_set; now left) Hg) as (Hd & Hc & _).
  split.
  - apply (Hd PyFloat.one 10); [reflexivity|discriminate|cbn; lia].
  - apply (Hc 10); [reflexivity|cbn; lia].
Defined.

(** X16.  A stale sponsor instance cannot overdraw either.  When
    [_execute_partner_billing] is handed a sponsor instance whose cached
    balance passes the pre-check while the stored balance is below the cost,
    or the row is gone, the conditional update changes no row: the function
    returns [False] with [concurrent_conflict] and the state is the one it
    was called in. *)
Theorem stale_sponsor_is_caught_by_the_update p c mode ut tokens store s :
  faults s = [] ->
  c <= surplus_number p ->
  (mode = partner_only ∨ c <= surplus_number (user s)) ->
  match users s !! pk p with
  | Some row => row_surplus_number row < c
  | None => True
  end ->
  _execute_partner_billing p c mode ut tokens store s
  = (Ok (p, (false, partner_conflict mode)), s).
Proof.
  intros Hf Hp Hu Hrow. unfold _execute_partner_billing. prims.
  assert ((surplus_number p <? c) = false) as Hpc by lia.
  assert (Hpre : match mode with
                 | partner_only => surplus_number p <? c
                 | _ => (surplus_number p <? c)
                        || (surplus_number (user s) <? c)
                 end = false).
  { rewrite Hpc. destruct mode; try reflexivity;
      destruct Hu as [?|Hu]; try discriminate; cbn [orb]; lia. }
  rewrite Hpre, Hf.
  destruct (users s !! pk p) as [row|]; [|reflexivity].
  now assert ((c <=? row_surplus_number row) = false) as -> by lia.
Qed.

Lemma stale_sponsor_is_caught_by_the_update_witness :
  _execute_partner_billing (mkUser 2 100 None "partner") 10 dual "ai回复" 10000
    None (sponsored 50 50 3 [expired] [])
  = (Ok (mkUser 2 100 None "partner", (false, partner_conflict dual)),
     sponsored 50 50 3 [expired] []).
Proof.
  apply (stale_sponsor_is_caught_by_the_update (mkUser 2 100 None "partner") 10
           dual "ai回复" 10000 None (sponsored 50 50 3 [expired] []));
    first [reflexivity | cbn; lia | right; cbn; lia].
Defined.

(** X17.  [_handle_partner_insufficient_balance] is best effort and never
    raises.  When nothing fails it files the user's notice and then the
    sponsor's, which names the user; when the first creation fails it files
    none; when the second fails the user's notice stays alone. *)
Theorem partner_notices_are_best_effort partner c ut s f :
  let u := user s in
  (faults s = [] ->
     _handle_partner_insufficient_balance partner c ut s
     = (Ok (),
        add_log (INFO, ev_partner_notified)
          (add_notify (partner_notice u partner)
             (add_notify (user_notice ut u) s))))
  ∧ (faults s = true :: f ->
       _handle_partner_insufficient_balance partner c ut s
       = (Ok (),
          add_log (ERROR, ev_partner_notify_failed DatabaseError)
            (set_faults f s)))
  ∧ (faults s = false :: true :: f ->
       _handle_partner_insufficient_balance partner c ut s
       = (Ok (),
          add_log (ERROR, ev_partner_notify_failed DatabaseError)
            (set_faults f (add_notify (user_notice ut u) s)))).
Proof.
  intros u. repeat split; intros Hf;
    unfold _handle_partner_insufficient_balance; prims; run_with Hf;
    reflexivity.
Qed.

Lemma partner_notices_are_best_effort_witness :
  _handle_partner_insufficient_balance (mkUser 2 3 None "partner") 10 "ai回复"
    (sponsored 5 5 3 [] [false; true])
  = (Ok (),
     add_log (ERROR, ev_partner_notify_failed DatabaseError)
       (set_faults []
          (add_notify (user_notice "ai回复" (mkUser 1 5 (Some 2) "bob"))
             (sponsored 5 5 3 [] [false; true])))).
Proof.
  exact (proj2 (proj2 (partner_notices_are_best_effort
                         (mkUser 2 3 None "partner") 10 "ai回复"
                         (sponsored 5 5 3 [] [false; true]) []))
           eq_refl).
Defined.

(** ** The internal handler *)

(** X18.  The internal handler writes the caller's instance back.  When
    nothing fails, the row of the user becomes the fields of the instance
    with balance 0, whatever the row held before, and is created if there
    was none.  A usage record is appended only when the cached balance was
    positive, and it records the cached balance as used. *)
Theorem handler_writes_the_instance_back c tokens ut store s :
  faults s = [] ->
  let u := user s in
  ∃ s',
    _handle_insufficient_balance_internal c tokens ut store s
    = (Ok (handler_info u c tokens ut None), s')
    ∧ users s' = <[pk u := mkRow 0 (superior_id u) (username u)]> (users s)
    ∧ user s' = zeroed u
    ∧ user_writes s' = user_writes s ++ [wr_save (pk u) 0]
    ∧ usage_details s'
      = usage_details s
        ++ (if 0 <? surplus_number u then [remainder_record u tokens ut store]
            else [])
    ∧ notifications s' = notifications s ++ [balance_notice ut u].
Proof.
  intros Hf u. exists (settled tokens ut store s).
  split; [now apply handler_run|]. unfold settled. fold u.
  destruct (0 <? surplus_number u); state_simpl; rewrite ?app_nil_r;
    now repeat split.
Qed.

Lemma handler_writes_the_instance_back_witness :
  ∃ s',
    _handle_insufficient_balance_internal 10 10000 "ai回复" None
      (sponsored 0 75 100 [] [])
    = (Ok (handler_info (mkUser 1 0 (Some 2) "bob") 10 10000 "ai回复" None), s')
    ∧ users s'
      = <[1 := mkRow 0 (Some 2) "bob"]> (users (sponsored 0 75 100 [] []))
    ∧ user s' = mkUser 1 0 (Some 2) "bob"
    ∧ user_writes s' = [wr_save 1 0]
    ∧ usage_details s' = []
    ∧ notifications s' = [balance_notice "ai回复" (mkUser 1 0 (Some 2) "bob")].
Proof.
  exact (handler_writes_the_instance_back 10 10000 "ai回复" None
           (sponsored 0 75 100 [] []) eq_refl).
Defined.

(** X19.  The internal handler is not atomic, and it reports a failure in
    its result instead of raising.  For a positive cached balance: when the
    first awaited call fails, nothing is changed; when the save of the reset
    balance fails, the remainder is already recorded as used and the
    instance already reads 0, while the stored balance is unchanged; when
    the notification fails, the balance is reset and saved.  The status is
    [error] each time. *)
Theorem handler_is_not_atomic c tokens ut store s f :
  0 < surplus_number (user s) ->
  let u := user s in
  (faults s = true :: f ->
     _handle_insufficient_balance_internal c tokens ut store s
     = (Ok (handler_info u c tokens ut (Some DatabaseError)),
        add_log (ERROR, ev_handler_exception DatabaseError) (set_faults f s)))
  ∧ (faults s = false :: true :: f ->
       ∃ s',
         _handle_insufficient_balance_internal c tokens ut store s
         = (Ok (handler_info u c tokens ut (Some DatabaseError)), s')
         ∧ usage_details s'
           = usage_details s ++ [remainder_record u tokens ut store]
         ∧ user s' = zeroed u
         ∧ users s' = users s ∧ user_writes s' = user_writes s
         ∧ notifications s' = notifications s)
  ∧ (faults s = false :: false :: true :: f ->
       ∃ s',
         _handle_insufficient_balance_internal c tokens ut store s
         = (Ok (handler_info u c tokens ut (Some DatabaseError)), s')
         ∧ usage_details s'
           = usage_details s ++ [remainder_record u tokens ut store]
         ∧ user s' = zeroed u
         ∧ users s' = <[pk u := row_of (zeroed u)]> (users s)
         ∧ notifications s' = notifications s).
Proof.
  intros Hpos u.
  assert (Hp : (0 <? surplus_number (user s)) = true) by lia.
  repeat split; intros Hf;
    unfold _handle_insufficient_balance_internal; prims; state_simpl;
    rewrite Hp.
  - run_with Hf. reflexivity.
  - run_with Hf. eexists. split; [reflexivity|]. state_simpl. now repeat split.
  - run_with Hf. eexists. split; [reflexivity|]. state_simpl. now repeat split.
Qed.

Lemma handler_is_not_atomic_witness :
  ∃ s',
    _handle_insufficient_balance_internal 10 10000 "ai回复" None
      (solo 7 [false; true])
    = (Ok (handler_info (mkUser 1 7 None "alice") 10 10000 "ai回复"
             (Some DatabaseError)), s')
    ∧ usage_details s'
      = [remainder_record (mkUser 1 7 None "alice") 10000 "ai回复" None]
    ∧ user s' = mkUser 1 0 None "alice"
    ∧ users s' = users (solo 7 []) ∧ user_writes s' = []
    ∧ notifications s' = [].
Proof.
  destruct (handler_is_not_atomic 10 10000 "ai回复" None (solo 7 [false; true])
              [] ltac:(cbn; lia)) as (_ & H & _).
  exact (H eq_refl).
Defined.

(** ** Credit *)

Lemma credit_run amount ut s r :
  0 < amount -> faults s = [] -> users s !! pk (user s) = Some r ->
  increase_balance amount ut s
  = (Ok (true, credit_done amount (row_surplus_number r + amount)),
     credited amount ut r s).
Proof.
  intros Ha Hf Hr. unfold increase_balance, credited. prims.
  assert ((amount <=? 0) = false) as -> by lia.
  rewrite Hf, Hr. run_with Hf. reflexivity.
Qed.

(** X20.  [increase_balance] rejects without effect.  An amount that is not
    positive is refused before any awaited call.  A positive amount for a
    user that has no row changes nothing and reports that the user does not
    exist. *)
Theorem credit_rejections_change_nothing amount ut s :
  (amount <= 0 ->
     increase_balance amount ut s
     = (Ok (false, credit_not_positive amount),
        add_log (WARNING, ev_credit_not_positive amount) s))
  ∧ (0 < amount -> users s !! pk (user s) = None ->
     head (faults s) ≠ Some true ->
     ∃ s', increase_balance amount ut s = (Ok (false, credit_user_missing), s')
           ∧ s' = add_log (ERROR, ev_credit_user_missing)
                    (set_faults (faults s') s)).
Proof.
  split.
  - intros Ha. unfold increase_balance. prims.
    now assert ((amount <=? 0) = true) as -> by lia.
  - intros Ha Hr Hf. unfold increase_balance. prims.
    assert ((amount <=? 0) = false) as -> by lia.
    destruct (faults s) as [|[] f] eqn:E; [|now contradiction Hf|];
      state_simpl; rewrite Hr; state_simpl;
      eexists; (split; [reflexivity|]); state_simpl;
      destruct s; cbn in *; now subst.
Qed.

Lemma credit_rejections_change_nothing_witness :
  increase_balance (-5) "充值" (solo 10 [])
  = (Ok (false, credit_not_positive (-5)),
     add_log (WARNING, ev_credit_not_positive (-5)) (solo 10 []))
  ∧ ∃ s', increase_balance 5 "充值"
            (initial (mkUser 9 10 None "ghost") [] [] [] 0 [])
          = (Ok (false, credit_user_missing), s')
          ∧ s' = add_log (ERROR, ev_credit_user_missing)
                   (set_faults (faults s')
                      (initial (mkUser 9 10 None "ghost") [] [] [] 0 [])).
Proof.
  split.
  - apply (proj1 (credit_rejections_change_nothing (-5) "充值" (solo 10 []))).
    lia.
  - apply (proj2 (credit_rejections_change_nothing 5 "充值"
                    (initial (mkUser 9 10 None "ghost") [] [] [] 0 [])));
      [lia|reflexivity|discriminate].
Defined.

(** X21.  A credit when nothing fails.  The stored balance grows by the
    amount; the instance is refreshed to it, whatever it cached; one usage
    record is filed, with the amount, the new balance, zero tokens and no
    store. *)
Theorem credit_commits amount ut s r :
  0 < amount -> faults s = [] -> users s !! pk (user s) = Some r ->
  let u := user s in
  let balance := row_surplus_number r + amount in
  ∃ s',
    increase_balance amount ut s = (Ok (true, credit_done amount balance), s')
    ∧ users s' = <[pk u := with_surplus balance r]> (users s)
    ∧ user s' = mkUser (pk u) balance (superior_id u) (username u)
    ∧ user_writes s' = user_writes s ++ [wr_increment (pk u) amount]
    ∧ usage_details s'
      = usage_details s ++ [mkUsage amount balance ut (pk u) 0 (pk u) None]
    ∧ notifications s' = notifications s.
Proof.
  intros Ha Hf Hr u balance. exists (credited amount ut r s).
  split; [now apply credit_run|]. now repeat split.
Qed.

Lemma credit_commits_witness :
  ∃ s',
    increase_balance 25 "充值" (sponsored 0 40 100 [] [])
    = (Ok (true, credit_done 25 65), s')
    ∧ users s'
      = <[1 := mkRow 65 (Some 2) "bob"]> (users (sponsored 0 40 100 [] []))
    ∧ user s' = mkUser 1 65 (Some 2) "bob"
    ∧ user_writes s' = [wr_increment 1 25]
    ∧ usage_details s' = [mkUsage 25 65 "充值" 1 0 1 None]
    ∧ notifications s' = [].
Proof.
  apply (credit_commits 25 "充值" (sponsored 0 40 100 [] [])
           (mkRow 40 (Some 2) "bob")); [lia|reflexivity|reflexivity].
Defined.

(** X22.  A credit is not undone by a later failure.  When the refresh or
    the usage record fails after the update, the stored balance keeps the
    amount, no usage record exists, and the call returns [False] with status
    [error]. *)
Theorem credit_survives_later_failure amount ut s r f :
  0 < amount -> users s !! pk (user s) = Some r ->
  faults s = false :: true :: f ∨ faults s = false :: false :: true :: f ->
  ∃ s',
    increase_balance amount ut s
    = (Ok (false, credit_exception DatabaseError), s')
    ∧ status_of (credit_exception DatabaseError) = status_error
    ∧ balance_of (pk (user s)) s' = Some (row_surplus_number r + amount)
    ∧ user_writes s' = user_writes s ++ [wr_increment (pk (user s)) amount]
    ∧ usage_details s' = usage_details s
    ∧ In (ERROR, ev_credit_exception DatabaseError) (log s').
Proof.
  intros Ha Hr Hf. unfold increase_balance. prims.
  assert ((amount <=? 0) = false) as -> by lia.
  destruct Hf as [Hf|Hf]; rewrite Hf; state_simpl; rewrite Hr;
    run_with Hf; (eexists; split; [reflexivity|]);
    unfold balance_of; state_simpl; rewrite lookup_insert_eq;
    repeat split; apply in_or_app; right; now left.
Qed.

Lemma credit_survives_later_failure_witness :
  ∃ s',
    increase_balance 25 "充值" (solo 40 [false; false; true])
    = (Ok (false, credit_exception DatabaseError), s')
    ∧ status_of (credit_exception DatabaseError) = status_error
    ∧ balance_of 1 s' = Some 65
    ∧ user_writes s' = [wr_increment 1 25]
    ∧ usage_details s' = []
    ∧ In (ERROR, ev_credit_exception DatabaseError) (log s').
Proof.
  apply (credit_survives_later_failure 25 "充值"
           (solo 40 [false; false; true]) (mkRow 40 None "alice") []);
    [lia|reflexivity|now right].
Defined.

(** X23.  What the flag of [increase_balance] means, whatever fails.
    [True]: the amount is positive, the row is credited by exactly the
    amount and one usage record is filed.  [False]: the status is [error]
    and no usage record is filed; the row is unchanged, or already credited
    when the failure came after the update. *)
Theorem credit_outcomes amount ut s ok d s' :
  increase_balance amount ut s = (Ok (ok, d), s') ->
  let u := user s in
  (ok = true ->
     0 < amount
     ∧ ∃ row,
         users s !! pk u = Some row
         ∧ d = credit_done amount (row_surplus_number row + amount)
         ∧ users s'
           = <[pk u := with_surplus (row_surplus_number row + amount) row]>
               (users s)
         ∧ surplus_number (user s') = row_surplus_number row + amount
         ∧ user_writes s' = user_writes s ++ [wr_increment (pk u) amount]
         ∧ usage_details s'
           = usage_details s
             ++ [mkUsage amount (row_surplus_number row + amount) ut (pk u) 0
                   (pk u) None])
  ∧ (ok = false ->
       status_of d = status_error
       ∧ usage_details s' = usage_details s
       ∧ (users s' = users s
          ∨ ∃ row,
              0 < amount ∧ users s !! pk u = Some row
              ∧ users s'
                = <[pk u := with_surplus (row_surplus_number row + amount) row]>
                    (users s))).
Proof.
  intros H u. subst u. revert H. unfold increase_balance. prims.
  destruct (amount <=? 0) eqn:Ha.
  { intros H. inversion H; subst; clear H. split; [discriminate|]. intros _.
    split; [reflexivity|]. split; [reflexivity|]. now left. }
  apply Z.leb_gt in Ha.
  destruct (users s !! pk (user s)) as [row|] eqn:Hr;
    destruct (faults s) as [|[] [|[] [|[] f]]] eqn:Hf;
    run_with Hf; rewrite ?Hr; run_with Hf;
    intros H; inversion H; subst; clear H; state_simpl;
    (split; [try discriminate|try discriminate]); intros _;
    first [ split; [exact Ha|]; exists row; now repeat split
          | split; [reflexivity|]; split; [reflexivity|];
            first [ left; reflexivity
                  | right; exists row; now repeat split ] ].
Qed.

Lemma credit_outcomes_witness :
  0 < 25
  ∧ ∃ row,
      users (solo 40 []) !! 1 = Some row
      ∧ credit_done 25 65 = credit_done 25 (row_surplus_number row + 25).
Proof.
  destruct (credit_outcomes 25 "充值" (solo 40 []) true (credit_done 25 65)
              (increase_balance 25 "充值" (solo 40 [])).2 eq_refl) as [H _].
  destruct (H eq_refl) as (Ha & row & Hr & Hd & _).
  split; [exact Ha|]. now exists row.
Defined.

(** X24.  Credit and deduction are inverse.  For a user without superior
    and with a stored balance that is not negative, crediting the cost of a
    token count and then deducting that token count at the multiplier 1.0
    succeeds twice and gives back the user table and the balance there
    were. *)
Theorem credit_then_debit_round_trip tokens ut ut' store s r :
  truthy (superior_id (user s)) = false -> faults s = [] ->
  users s !! pk (user s) = Some r -> 0 <= row_surplus_number r ->
  0 < tokens <= 1000 * 2 ^ 44 ->
  let n := (tokens + 999) / 1000 in
  ∃ s1 s2,
    increase_balance n ut s
    = (Ok (true, credit_done n (row_surplus_number r + n)), s1)
    ∧ deduct_balance_by_tokens tokens ut' store PyFloat.one s1
      = (Ok (true, normal_done n tokens (row_surplus_number r) PyFloat.one), s2)
    ∧ users s2 = users s
    ∧ surplus_number (user s2) = row_surplus_number r.
Proof.
  intros Hs Hf Hr H0 Ht n.
  destruct (ceiling_bounds tokens Ht) as (Hn & _). fold n in Hn.
  exists (credited n ut r s). eexists.
  split; [apply credit_run; (assumption || lia)|].
  assert (Hrun := normal_run tokens ut' store PyFloat.one (credited n ut r s)
                    (with_surplus (row_surplus_number r + n) r) n n).
  cbv zeta in Hrun.
  replace (row_surplus_number (with_surplus (row_surplus_number r + n) r) - n)
    with (row_surplus_number r) in Hrun by (cbn; lia).
  split.
  - apply Hrun.
    + now apply strategy_of_unsponsored.
    + exact Hf.
    + unfold credited. state_simpl. apply lookup_insert_eq.
    + exact (base_cost_exact tokens Ht).
    + exact (cost_at_one tokens Ht).
    + lia.
    + unfold credited. state_simpl. lia.
    + cbn. lia.
  - unfold credited. state_simpl. split; [|reflexivity].
    rewrite insert_insert_eq. destruct r as [bal sp nm]. state_simpl.
    now apply insert_id.
Qed.

Lemma credit_then_debit_round_trip_witness :
  ∃ s1 s2,
    increase_balance 3 "充值" (solo 4 []) = (Ok (true, credit_done 3 7), s1)
    ∧ deduct_balance_by_tokens 2500 "ai回复" None PyFloat.one s1
      = (Ok (true, normal_done 3 2500 4 PyFloat.one), s2)
    ∧ users s2 = users (solo 4 [])
    ∧ surplus_number (user s2) = 4.
Proof.
  apply (credit_then_debit_round_trip 2500 "充值" "ai回复" None (solo 4 [])
           (mkRow 4 None "alice"));
    first [reflexivity | cbn; lia].
Defined.

(** ** The check before the deduction *)

(** X25.  [check_balance_sufficient] predicts [deduct_balance_by_tokens] at
    the multiplier 1.0.  When nothing fails, the instance agrees with its
    row and the user is not its own superior, the two return the same flag,
    under each of the three strategies. *)
Theorem check_predicts_deduction tokens ut store s ru :
  faults s = [] ->
  users s !! pk (user s) = Some ru ->
  row_surplus_number ru = surplus_number (user s) ->
  superior_id (user s) ≠ Some (pk (user s)) ->
  0 < tokens <= 1000 * 2 ^ 44 ->
  ∃ sufficient message detail s',
    check_balance_sufficient tokens s = (Ok (sufficient, message), s)
    ∧ deduct_balance_by_tokens tokens ut store PyFloat.one s
      = (Ok (sufficient, detail), s').
Proof.
  intros Hf Hru Hsync Hself Ht.
  pose proof (base_cost_exact tokens Ht) as Hb.
  pose proof (cost_at_one tokens Ht) as Hc.
  destruct (ceiling_bounds tokens Ht) as (Hn & _).
  set (n := (tokens + 999) / 1000) in *.
  assert (Hn0 : n ≠ 0) by lia.
  assert (Hz : (n =? 0) = false) by lia.
  destruct (strategy_cases s Hf) as [Hst|(k & rp & Hs & Hk & Hrp & Hin)].
  - (* normal *)
    unfold check_balance_sufficient, bind, lift, get, ret.
    rewrite Hb, Hz, Hst. cbn [is_partner_subordinate default_strategy].
    destruct (Z.leb_spec n (surplus_number (user s))) as [Hle|Hlt].
    + eexists _, _, _, _. split; [reflexivity|].
      apply (normal_run tokens ut store PyFloat.one s ru n n);
        (assumption || lia).
    + eexists _, _, _, _. split; [reflexivity|].
      now apply (normal_reject_run tokens ut store PyFloat.one s n n).
  - destruct (existsb (entitlement_matches (pk (user s)) k (now s))
                (entitlements s)) eqn:Hex.
    + (* partner only *)
      assert (Hg : active_grant s k) by now apply entitlement_exists_iff.
      unfold check_balance_sufficient, bind, lift, get, ret.
      rewrite Hb, Hz, (strategy_of_sponsored s k rp Hf Hs Hk Hrp Hin), Hex.
      cbv zeta. cbn [is_partner_subordinate partner_user billing_mode].
      rewrite bool_decide_eq_true_2 by reflexivity. cbn [instance_of surplus_number].
      destruct (Z.leb_spec n (row_surplus_number rp)) as [Hle|Hlt].
      * eexists _, _, _, _. split; [reflexivity|].
        now apply (partner_only_run tokens ut store PyFloat.one s k rp n).
      * eexists _, _, _, _. split; [reflexivity|].
        now apply (partner_only_reject_run tokens ut store PyFloat.one s k rp n).
    + (* dual *)
      assert (Hg : ¬ active_grant s k).
      { intros Hg. apply entitlement_exists_iff in Hg. congruence. }
      assert (Hne : k ≠ pk (user s)) by congruence.
      unfold check_balance_sufficient, bind, lift, get, ret.
      rewrite Hb, Hz, (strategy_of_sponsored s k rp Hf Hs Hk Hrp Hin), Hex.
      cbv zeta. cbn [is_partner_subordinate partner_user billing_mode].
      rewrite bool_decide_eq_false_2 by discriminate.
      cbn [instance_of surplus_number].
      destruct (Z.leb_spec n (row_surplus_number rp)) as [Hle|Hlt],
        (Z.leb_spec n (surplus_number (user s))) as [Hlu|Hlu];
        cbn [andb negb]; eexists _, _, _, _; (split; [reflexivity|]).
      * apply (dual_run tokens ut store PyFloat.one s k rp ru n);
          (assumption || lia).
      * apply (dual_reject_run tokens ut store PyFloat.one s k rp n);
          (assumption || lia).
      * apply (dual_reject_run tokens ut store PyFloat.one s k rp n);
          (assumption || lia).
      * apply (dual_reject_run tokens ut store PyFloat.one s k rp n);
          (assumption || lia).
Qed.

Lemma check_predicts_deduction_witness :
  ∃ sufficient message detail s',
    check_balance_sufficient 10000 (sponsored 50 50 3 [expired] [])
    = (Ok (sufficient, message), sponsored 50 50 3 [expired] [])
    ∧ deduct_balance_by_tokens 10000 "ai回复" None PyFloat.one
        (sponsored 50 50 3 [expired] [])
      = (Ok (sufficient, detail), s').
Proof.
  apply (check_predicts_deduction 10000 "ai回复" None
           (sponsored 50 50 3 [expired] []) (mkRow 50 (Some 2) "bob"));
    first [reflexivity | discriminate | lia].
Defined.

(** ** Reading a run backwards *)

Lemma bind_ok {A B} (m : M A) (f : A -> M B) s b s' :
  bind m f s = (Ok b, s') -> ∃ a s1, m s = (Ok a, s1) ∧ f a s1 = (Ok b, s').
Proof. unfold bind. destruct (m s) as [[a|e] s1]; [eauto|discriminate]. Qed.

Lemma try_ok {A} (m : M A) (h : exn -> M A) s a s' :
  try_except m h s = (Ok a, s') ->
  m s = (Ok a, s') ∨ ∃ e s1, m s = (Raise e, s1) ∧ h e s1 = (Ok a, s').
Proof. unfold try_except. destruct (m s) as [[a0|e] s1]; eauto. Qed.

Lemma strategy_ok_inv s st s0 :
  _get_billing_strategy s = (Ok st, s0) ->
  only_faults_consumed s s0
  ∧ (st = default_strategy
     ∨ ∃ k r granted,
         superior_id (user s) = Some k ∧ users s !! k = Some r
         ∧ st = mkStrategy true (Some (instance_of k r)) granted
                  (if granted then partner_only else dual)).
Proof.
  intros H. split; [exact (strategy_run_only_faults _ _ _ H)|].
  unfold _get_billing_strategy in H. prims.
  destruct (superior_id (user s)) as [k|] eqn:Hs;
    cbn [truthy default from_option id] in H; [|left; congruence].
  destruct (negb (k =? 0)); [|left; congruence].
  destruct s as [u us pg es t ud ns al lg uw fl]. state_simpl.
  repeat (split_in H; state_simpl); try discriminate;
    injection H as <- <-;
    first [ left; reflexivity
          | right; eexists _, _, _;
            split; [reflexivity|split; [eassumption|reflexivity]] ].
Qed.

Lemma set_faults_same s : set_faults (faults s) s = s.
Proof. now destruct s. Qed.

Lemma awaited_ok e s a s1 :
  awaited e s = (Ok a, s1) -> only_faults_consumed s s1.
Proof.
  unfold awaited, only_faults_consumed.
  destruct (faults s) as [|[] f] eqn:E; intros [= <- <-]; cbn.
  - now rewrite set_faults_same.
  - now destruct s.
Qed.

Lemma usage_ok r s a s1 :
  AIUsageDetails_acreate r s = (Ok a, s1) ->
  ∃ s0, only_faults_consumed s s0 ∧ s1 = add_usage r s0.
Proof.
  unfold AIUsageDetails_acreate. intros H.
  apply bind_ok in H as (? & s0 & H0 & H). apply awaited_ok in H0.
  exists s0. split; [exact H0|]. unfold modify in H. congruence.
Qed.

Lemma alert_try_same u v s a s1 :
  try_except (alert_check_and_trigger u v) (λ _ : exn, ret ()) s = (Ok a, s1) ->
  same_tables s s1.
Proof.
  intros H.
  assert (Hs : same_tables s
                 (try_except (alert_check_and_trigger u v)
                    (λ _ : exn, ret ()) s).2).
  { unfold alert_check_and_trigger. prims.
    destruct s as [u0 us pg es t ud ns al lg uw fl].
    destruct fl as [|[] f]; cbn; now repeat split. }
  now rewrite H in Hs.
Qed.

Lemma alerts_same p s a s1 :
  _trigger_balance_alerts p s = (Ok a, s1) -> same_tables s s1.
Proof.
  intros H.
  assert (Hs : same_tables s (_trigger_balance_alerts p s).2).
  { unfold _trigger_balance_alerts, alert_check_and_trigger. prims.
    destruct s as [u0 us pg es t ud ns al lg uw fl].
    destruct fl as [|[] [|[] f]]; cbn; now repeat split. }
  now rewrite H in Hs.
Qed.

(** A pre-check that answers [True] has done nothing but query. *)
Lemma check_true_inv tokens ut store s message info s1 :
  check_and_handle_insufficient_balance tokens ut store s
  = (Ok (true, message, info), s1) ->
  only_faults_consumed s s1
  ∧ ∃ b, base_cost tokens = Ok b.
Proof.
  unfold check_and_handle_insufficient_balance. intros H.
  apply bind_ok in H as (b & s0 & Hb & H).
  unfold lift in Hb. injection Hb as Hb <-.
  split; [|now exists b].
  apply bind_ok in H as (st & s2 & Hst & H).
  apply strategy_run_only_faults in Hst.
  destruct (partner_only_payer st) as [p|].
  - destruct (b <=? surplus_number p).
    + unfold ret in H. congruence.
    + apply bind_ok in H as (? & ? & _ & H). discriminate.
  - apply bind_ok in H as (s3 & s4 & Hg & H).
    unfold get in Hg. injection Hg as <- <-.
    destruct (b <=? surplus_number (user s2)).
    + unfold ret in H. congruence.
    + apply bind_ok in H as (? & ? & _ & H).
      apply bind_ok in H as (? & ? & _ & H). discriminate.
Qed.

Lemma handler_returns c tokens ut store s info s' :
  _handle_insufficient_balance_internal c tokens ut store s = (Ok info, s') ->
  ∃ outcome, info = handler_info (user s) c tokens ut outcome.
Proof.
  unfold _handle_insufficient_balance_internal. intros H.
  apply bind_ok in H as (s0 & ? & Hg & H).
  unfold get in Hg. injection Hg as <- <-. cbv zeta in H.
  apply try_ok in H as [H|(e & s1 & _ & H)].
  - repeat (apply bind_ok in H as (? & ? & _ & H)).
    unfold ret in H. injection H as <- _. now exists None.
  - apply bind_ok in H as (? & ? & _ & H).
    unfold ret in H. injection H as <- _. now exists (Some e).
Qed.

(** X26.  The two outcomes of [check_and_handle_insufficient_balance],
    whatever fails on the way.  [True] comes with no message and no detail,
    and nothing but queries has run.  [False] comes with the customer
    message of the usage type and either the partner-only detail, after
    which no row and no usage record has changed, or the detail of the
    internal handler, which ran because the cached balance was below the
    cost before the multiplier. *)
Theorem check_outcomes tokens ut store s sufficient message info s' :
  check_and_handle_insufficient_balance tokens ut store s
  = (Ok (sufficient, message, info), s') ->
  (sufficient = true ->
     message = None ∧ info = None ∧ only_faults_consumed s s')
  ∧ (sufficient = false ->
       message = Some (_get_customer_friendly_message ut)
       ∧ ∃ b, base_cost tokens = Ok b
              ∧ ((∃ partner_available,
                    info = Some (error_info b partner_available)
                    ∧ partner_available < b ∧ users s' = users s
                    ∧ usage_details s' = usage_details s)
                 ∨ (∃ outcome,
                      info = Some (handler_info (user s) b tokens ut outcome)
                      ∧ surplus_number (user s) < b))).
Proof.
  unfold check_and_handle_insufficient_balance. intros H.
  apply bind_ok in H as (b & s0 & Hb & H).
  unfold lift in Hb. injection Hb as Hb <-.
  apply bind_ok in H as (st & s2 & Hst & H).
  apply strategy_run_only_faults in Hst.
  destruct (partner_only_payer st) as [p|].
  - destruct (Z.leb_spec b (surplus_number p)) as [Hle|Hlt].
    + unfold ret in H. injection H as <- <- <- <-.
      split; [now intros _|discriminate].
    + apply bind_ok in H as (? & s3 & Hn & H).
      unfold ret in H. injection H as <- <- <- <-.
      split; [discriminate|intros _]. split; [reflexivity|].
      exists b. split; [exact Hb|]. left. exists (surplus_number p).
      split; [reflexivity|]. split; [exact Hlt|].
      destruct (partner_notice_runs p b ut s2)
        as (s3' & Hn' & (_ & Hus & _) & Hud & _).
      assert (s3' = s3) as -> by congruence.
      rewrite Hus, Hud, Hst. now split.
  - apply bind_ok in H as (s3 & s4 & Hg & H).
    unfold get in Hg. injection Hg as <- <-.
    assert (Hu : user s2 = user s) by (rewrite Hst; reflexivity).
    destruct (Z.leb_spec b (surplus_number (user s2))) as [Hle|Hlt].
    + unfold ret in H. injection H as <- <- <- <-.
      split; [now intros _|discriminate].
    + apply bind_ok in H as (? & s5 & Hl & H).
      unfold logger, modify in Hl. injection Hl as _ <-.
      apply bind_ok in H as (i & s6 & Hh & H).
      unfold ret in H. injection H as <- <- <- <-.
      split; [discriminate|intros _]. split; [reflexivity|].
      exists b. split; [exact Hb|]. right.
      apply handler_returns in Hh as (outcome & ->). cbn [user add_log].
      exists outcome. rewrite Hu in *. now split.
Qed.

Lemma check_outcomes_witness :
  ∃ b, base_cost 3000 = Ok b
       ∧ ∃ outcome,
           handler_info (mkUser 1 1 None "alice") 3 3000 "ai回复" None
           = handler_info (user (solo 1 [])) b 3000 "ai回复" outcome
           ∧ surplus_number (user (solo 1 [])) < b.
Proof.
  assert (Hrun : check_and_handle_insufficient_balance 3000 "ai回复" None
                   (solo 1 [])
                 = (Ok (false, Some "抱歉，当前客服繁忙",
                        Some (handler_info (mkUser 1 1 None "alice") 3 3000
                                "ai回复" None)),
                    (check_and_handle_insufficient_balance 3000 "ai回复" None
                       (solo 1 [])).2))
    by (vm_compute; reflexivity).
  destruct (check_outcomes _ _ _ _ _ _ _ _ Hrun) as [_ H].
  destruct (H eq_refl) as (_ & b & Hb & [(pa & Hpa & _)|(o & Ho & Hlt)]).
  - discriminate Hpa.
  - exists b. split; [exact Hb|]. exists o. split; [congruence|exact Hlt].
Defined.

(** What a successful normal deduction has done, whatever failed on the
    way. *)
Lemma normal_success_inv tokens c ut store m s d s' :
  _execute_normal_billing tokens c ut store m s = (Ok (true, d), s') ->
  ∃ row,
    users s !! pk (user s) = Some row ∧ c <= row_surplus_number row
    ∧ d = normal_done c tokens (row_surplus_number row - c) m
    ∧ users s'
      = <[pk (user s) := with_surplus (row_surplus_number row - c) row]>
          (users s)
    ∧ user_writes s' = user_writes s ++ [wr_decrement (pk (user s)) c]
    ∧ usage_details s'
      = usage_details s
        ++ [mkUsage c (row_surplus_number row - c) ut (pk (user s)) tokens
              (pk (user s)) (store_of ut store)]
    ∧ notifications s' = notifications s.
Proof.
  unfold _execute_normal_billing. intros H.
  apply bind_ok in H as ([[suff message] info] & s1 & Hck & H).
  destruct suff; cbn [negb] in H.
  2:{ apply bind_ok in H as (? & ? & _ & H).
      apply bind_ok in H as (? & ? & _ & H).
      destruct info; discriminate. }
  apply check_true_inv in Hck as (E1 & _).
  apply bind_ok in H as (s1' & ? & Hg & H).
  unfold get in Hg. injection Hg as <- <-.
  apply bind_ok in H as (n & s2 & Hd & H).
  destruct (Z.eqb_spec n 0) as [->|Hn].
  { apply bind_ok in H as (? & ? & _ & H). discriminate. }
  destruct (decrement_cases _ _ _ _ _ Hd) as [[-> _]|(-> & _)];
    [contradiction|].
  apply decrement_hit in Hd as (row & Hrow & Hle & E2).
  apply bind_ok in H as (u' & s3 & Hrf & H).
  apply refresh_ok in Hrf as (E3 & r3 & Hr3 & ->).
  apply bind_ok in H as (? & s4 & Hm & H).
  unfold modify in Hm. injection Hm as _ <-.
  apply bind_ok in H as (? & s5 & Hu & H).
  apply usage_ok in Hu as (s4' & E4 & ->).
  apply bind_ok in H as (? & s6 & Hl & H).
  unfold logger, modify in Hl. injection Hl as _ <-.
  apply bind_ok in H as (? & s7 & Ha & H).
  apply alert_try_same in Ha as (Ha1 & Ha2 & Ha3 & Ha4 & Ha5).
  unfold ret in H. injection H as <- <-.
  assert (Hu1 : user s1 = user s) by (rewrite E1; reflexivity).
  assert (Hus1 : users s1 = users s) by (rewrite E1; reflexivity).
  rewrite Hu1, Hus1 in *.
  assert (r3 = with_surplus (row_surplus_number row - c) row) as ->.
  { rewrite E2 in Hr3. cbn in Hr3. rewrite lookup_insert_eq in Hr3. congruence. }
  exists row. split; [exact Hrow|]. split; [exact Hle|].
  cbn [pk surplus_number with_surplus row_surplus_number].
  split; [reflexivity|].
  rewrite Ha2, Ha3, Ha4, Ha5. state_simpl.
  rewrite E4. state_simpl. rewrite E3. state_simpl.
  rewrite E2. state_simpl. rewrite E1. state_simpl.
  now repeat split.
Qed.

(** The fields of a state given by an equation. *)
Ltac fields E :=
  let H := fresh "F" in
  pose proof (conj (f_equal user E)
                (conj (f_equal users E)
                   (conj (f_equal user_writes E)
                      (conj (f_equal usage_details E)
                         (f_equal notifications E))))) as H;
  cbn [user users user_writes usage_details notifications set_user set_users
       add_usage add_notify add_alert add_log add_user_write set_faults] in H;
  destruct H as (? & ? & ? & ? & ?).

(** What a successful partner deduction has done, whatever failed on the
    way: [paid] is the user table after the sponsor's row is debited. *)
Lemma partner_success_inv p c mode ut tokens store s p' d s' :
  _execute_partner_billing p c mode ut tokens store s = (Ok (p', (true, d)), s') ->
  ∃ prow,
    users s !! pk p = Some prow ∧ c <= row_surplus_number prow
    ∧ notifications s' = notifications s
    ∧ let u := user s in
      let partner_remaining := row_surplus_number prow - c in
      let paid := <[pk p := with_surplus partner_remaining prow]> (users s) in
      let partner_record :=
        mkUsage c partner_remaining ut (pk p) tokens (pk u) (store_of ut store) in
      (mode ≠ dual
       ∧ d = partner_done mode c 0 partner_remaining (surplus_number u)
       ∧ users s' = paid
       ∧ user_writes s' = user_writes s ++ [wr_decrement (pk p) c]
       ∧ usage_details s' = usage_details s ++ [partner_record])
      ∨ (mode = dual
         ∧ ∃ urow,
             paid !! pk u = Some urow ∧ c <= row_surplus_number urow
             ∧ d = partner_done dual c c partner_remaining
                     (row_surplus_number urow - c)
             ∧ users s'
               = <[pk u := with_surplus (row_surplus_number urow - c) urow]> paid
             ∧ user_writes s'
               = user_writes s
                 ++ [wr_decrement (pk p) c; wr_decrement (pk u) c]
             ∧ usage_details s'
               = usage_details s
                 ++ [partner_record;
                     mkUsage c (row_surplus_number urow - c) ut (pk u) tokens
                       (pk u) (store_of ut store)]).
Proof.
  unfold _execute_partner_billing. intros H.
  apply bind_ok in H as (s0 & ? & Hg & H).
  unfold get in Hg. injection Hg as <- <-.
  match type of H with
  | (if ?b then _ else _) _ = _ => destruct b; [discriminate|]
  end.
  apply try_ok in H as [H|(e & s1 & _ & H)];
    [|apply bind_ok in H as (? & ? & _ & H); discriminate].
  apply bind_ok in H as (n & s1 & Hd & H).
  destruct (Z.eqb_spec n 0) as [->|Hn]; [discriminate|].
  destruct (decrement_cases _ _ _ _ _ Hd) as [[-> _]|(-> & _)];
    [contradiction|].
  apply decrement_hit in Hd as (prow & Hprow & Hle & E1).
  apply bind_ok in H as (q & s2 & Hrf & H).
  apply refresh_ok in Hrf as (E2 & r2 & Hr2 & ->).
  assert (r2 = with_surplus (row_surplus_number prow - c) prow) as ->.
  { rewrite E1 in Hr2. cbn in Hr2. rewrite lookup_insert_eq in Hr2. congruence. }
  clear Hr2. fields E1. fields E2. clear E1 E2.
  apply bind_ok in H as (rejected & s3 & Hrej & H).
  destruct rejected; [discriminate|].
  apply bind_ok in H as (s3' & ? & Hg & H).
  unfold get in Hg. injection Hg as <- <-.
  apply bind_ok in H as (? & s4 & Hu1 & H).
  apply usage_ok in Hu1 as (s3' & E3 & ->).
  unfold only_faults_consumed in E3. fields E3. clear E3.
  apply bind_ok in H as (? & s5 & Hu2 & H).
  unfold ret in H. injection H as <- <- <-.
  exists prow. split; [exact Hprow|]. split; [exact Hle|].
  cbn [pk surplus_number with_surplus row_surplus_number] in *.
  destruct (bool_decide (mode = dual)) eqn:Hm.
  - apply bool_decide_eq_true_1 in Hm. subst mode.
    apply bind_ok in Hrej as (n2 & s2a & Hd2 & Hrej).
    destruct (Z.eqb_spec n2 0) as [->|Hn2].
    { apply bind_ok in Hrej as (? & ? & _ & Hrej). discriminate. }
    destruct (decrement_cases _ _ _ _ _ Hd2) as [[-> _]|(-> & _)];
      [contradiction|].
    apply decrement_hit in Hd2 as (urow & Hurow & Hlu & E4).
    apply bind_ok in Hrej as (u' & s2b & Hrf2 & Hrej).
    apply refresh_ok in Hrf2 as (E5 & r5 & Hr5 & ->).
    assert (r5 = with_surplus (row_surplus_number urow - c) urow) as ->.
    { rewrite E4 in Hr5. cbn in Hr5. rewrite lookup_insert_eq in Hr5.
      congruence. }
    clear Hr5. fields E4. fields E5. clear E4 E5.
    apply bind_ok in Hrej as (? & s2c & Hmo & Hrej).
    unfold modify in Hmo. injection Hmo as _ <-.
    unfold ret in Hrej. injection Hrej as <-.
    apply usage_ok in Hu2 as (s4' & E6 & ->).
    unfold only_faults_consumed in E6. fields E6. clear E6.
    cbn [user users user_writes usage_details notifications set_user
         set_users add_usage pk surplus_number] in *.
    split; [congruence|].
    right. split; [reflexivity|]. exists urow.
    split; [congruence|]. split; [exact Hlu|].
    split; [reflexivity|].
    split; [congruence|].
    split.
    + replace (user_writes s4') with (user_writes s2b) by congruence.
      replace (user_writes s2b)
        with (user_writes s2 ++ [wr_decrement (pk (user s)) c]) by congruence.
      replace (user_writes s2) with (user_writes s ++ [wr_decrement (pk p) c])
        by congruence.
      now rewrite <- app_assoc.
    + replace (usage_details s4')
        with (usage_details s3'
              ++ [mkUsage c (row_surplus_number prow - c) ut (pk p) tokens
                    (pk (user s)) (store_of ut store)]) by congruence.
      replace (usage_details s3') with (usage_details s) by congruence.
      now rewrite <- app_assoc.
  - apply bool_decide_eq_false_1 in Hm.
    unfold ret in Hrej. injection Hrej as <-.
    unfold ret in Hu2. injection Hu2 as _ <-.
    cbn [user users user_writes usage_details notifications set_user
         set_users add_usage pk surplus_number] in *.
    split; [congruence|].
    left. split; [exact Hm|].
    replace (user s2) with (user s) by congruence.
    split; [reflexivity|]. split; [congruence|]. split; congruence.
Qed.

(** X27.  A call returns [True] only if it was paid for, whatever failed on
    the way.  Either the cost is 0 and no row changed; or the user's row,
    which covered the cost, was debited by exactly the cost; or the row of
    the superior, which covered the cost, was debited by exactly the cost,
    alone under partner-only billing and followed by the user's under dual
    billing.  One usage record of the cost is filed for each debited
    account, the status is [success], and no notification is written. *)
Theorem success_is_paid_for tokens ut store m s d s' :
  deduct_balance_by_tokens tokens ut store m s = (Ok (true, d), s') ->
  let u := user s in
  ∃ c,
    token_cost_of tokens m = Ok c
    ∧ status_of d = status_success
    ∧ notifications s' = notifications s
    ∧ ((c = 0 ∧ d = zero_cost (surplus_number u) m
        ∧ users s' = users s ∧ user_writes s' = user_writes s
        ∧ usage_details s' = usage_details s)
       ∨ (c ≠ 0
          ∧ ∃ row,
              users s !! pk u = Some row ∧ c <= row_surplus_number row
              ∧ d = normal_done c tokens (row_surplus_number row - c) m
              ∧ users s'
                = <[pk u := with_surplus (row_surplus_number row - c) row]>
                    (users s)
              ∧ user_writes s' = user_writes s ++ [wr_decrement (pk u) c]
              ∧ usage_details s'
                = usage_details s
                  ++ [mkUsage c (row_surplus_number row - c) ut (pk u) tokens
                        (pk u) (store_of ut store)])
       ∨ (c ≠ 0
          ∧ ∃ k prow,
              superior_id u = Some k ∧ users s !! k = Some prow
              ∧ c <= row_surplus_number prow
              ∧ let partner_remaining := row_surplus_number prow - c in
                let paid := <[k := with_surplus partner_remaining prow]> (users s) in
                let partner_record :=
                  mkUsage c partner_remaining ut k tokens (pk u)
                    (store_of ut store) in
                (d = partner_done partner_only c 0 partner_remaining
                       (surplus_number u)
                 ∧ users s' = paid
                 ∧ user_writes s' = user_writes s ++ [wr_decrement k c]
                 ∧ usage_details s' = usage_details s ++ [partner_record])
                ∨ (∃ urow,
                     paid !! pk u = Some urow ∧ c <= row_surplus_number urow
                     ∧ d = partner_done dual c c partner_remaining
                             (row_surplus_number urow - c)
                     ∧ users s'
                       = <[pk u := with_surplus (row_surplus_number urow - c)
                                     urow]> paid
                     ∧ user_writes s'
                       = user_writes s
                         ++ [wr_decrement k c; wr_decrement (pk u) c]
                     ∧ usage_details s'
                       = usage_details s
                         ++ [partner_record;
                             mkUsage c (row_surplus_number urow - c) ut (pk u)
                               tokens (pk u) (store_of ut store)]))).
Proof.
  intros H u. unfold deduct_balance_by_tokens in H.
  apply try_ok in H as [H|(e & s1 & _ & H)];
    [|apply bind_ok in H as (? & ? & _ & H); discriminate].
  apply bind_ok in H as (c & s0 & Hc & H).
  unfold lift in Hc. injection Hc as Hc <-.
  exists c. split; [exact Hc|].
  destruct (Z.eqb_spec c 0) as [->|Hc0].
  { unfold bind, logger, modify, get, ret in H. injection H as <- <-.
    split; [reflexivity|]. split; [reflexivity|]. left. now repeat split. }
  apply bind_ok in H as (st & s1 & Hst & H).
  apply strategy_ok_inv in Hst as (E1 & [->|(k & r & g & Hs & Hr & ->)]).
  - cbn [is_partner_subordinate default_strategy] in H.
    apply normal_success_inv in H
      as (row & Hrow & Hle & -> & Hus & Huw & Hud & Hn).
    unfold only_faults_consumed in E1. fields E1. clear E1.
    split; [reflexivity|]. split; [congruence|].
    right. left. split; [exact Hc0|]. exists row. fold u.
    replace (user s1) with u in * by (unfold u; congruence).
    repeat split; congruence.
  - cbn [is_partner_subordinate partner_user billing_mode] in H.
    apply bind_ok in H as ([p' [success result]] & s2 & Hpb & H).
    destruct success; cbn [negb] in H;
      [|apply bind_ok in H as (? & ? & _ & H); discriminate].
    apply bind_ok in H as (? & s3 & Hlog & H).
    apply bind_ok in H as (? & s4 & Hal & H).
    unfold ret in H. injection H as <- <-.
    apply alerts_same in Hal as (_ & Ha2 & Ha3 & Ha4 & Ha5).
    apply partner_success_inv in Hpb as (prow & Hprow & Hle & Hn & Hcase).
    cbv zeta in Hcase. cbn [pk instance_of] in Hprow, Hcase.
    unfold only_faults_consumed in E1. fields E1. clear E1.
    assert (prow = r) as -> by congruence.
    assert (Hs3 : user_writes s3 = user_writes s2
                  ∧ usage_details s3 = usage_details s2
                  ∧ users s3 = users s2 ∧ notifications s3 = notifications s2
                  ∧ status_of result = status_success).
    { destruct Hcase as [(_ & -> & _)|(_ & urow & _ & _ & -> & _)];
        unfold _log_partner_billing_success, logger, modify in Hlog;
        injection Hlog as _ <-; now repeat split. }
    destruct Hs3 as (Hl1 & Hl2 & Hl3 & Hl4 & Hst).
    split; [exact Hst|]. split; [congruence|].
    right. right. split; [exact Hc0|]. exists k, r. fold u.
    replace (user s1) with u in * by (unfold u; congruence).
    split; [exact Hs|]. split; [congruence|]. split; [exact Hle|].
    cbv zeta.
    destruct Hcase as [(Hm & -> & Hus & Huw & Hud)
                      |(Hm & urow & Hurow & Hlu & -> & Hus & Huw & Hud)].
    + left. destruct g; [|contradiction].
      repeat split; congruence.
    + right. exists urow. repeat split; congruence.
Qed.

Lemma success_is_paid_for_witness :
  ∃ c, token_cost_of 3000 PyFloat.two = Ok c
       ∧ status_of (normal_done 6 3000 4 PyFloat.two) = status_success
       ∧ notifications
           (deduct_balance_by_tokens 3000 "ai回复" None PyFloat.two
              (solo 10 [false; false; false; true])).2
         = notifications (solo 10 [false; false; false; true]).
Proof.
  assert (H : deduct_balance_by_tokens 3000 "ai回复" None PyFloat.two
                (solo 10 [false; false; false; true])
              = (Ok (true, normal_done 6 3000 4 PyFloat.two),
                 (deduct_balance_by_tokens 3000 "ai回复" None PyFloat.two
                    (solo 10 [false; false; false; true])).2))
    by (vm_compute; reflexivity).
  destruct (success_is_paid_for _ _ _ _ _ _ _ H) as (c & Hc & Hst & Hn & _).
  exists c. now repeat split.
Defined.

(** ** Invariants of every call *)

Section Invariants.

Context (I : State -> Prop) (ok_key : Z -> Prop) (ok_user : User -> Prop).
Context (HI : stable I ok_key ok_user).

Local Abbreviation keeps := (invariant I).

Lemma inv_ret {A} (a : A) : keeps (ret a).
Proof. now intros s H. Qed.

Lemma inv_raise {A} (e : exn) : keeps (@raise A e).
Proof. now intros s H. Qed.

Lemma inv_lift {A} (r : Res A) : keeps (lift r).
Proof. now intros s H. Qed.

Lemma inv_bind {A B} (m : M A) (f : A -> M B) :
  keeps m -> (∀ a, keeps (f a)) -> keeps (bind m f).
Proof.
  intros Hm Hf s H. unfold bind. specialize (Hm s H).
  destruct (m s) as [[a|e] s']; [apply Hf|]; exact Hm.
Qed.

Lemma inv_bind_get {A} (f : State -> M A) :
  (∀ s0, I s0 -> keeps (f s0)) -> keeps (bind get f).
Proof. intros H s Hs. exact (H s Hs s Hs). Qed.

Lemma inv_try {A} (m : M A) (h : exn -> M A) :
  keeps m -> (∀ e, keeps (h e)) -> keeps (try_except m h).
Proof.
  intros Hm Hh s H. unfold try_except. specialize (Hm s H).
  destruct (m s) as [[a|e] s']; [|apply Hh]; exact Hm.
Qed.

Lemma inv_awaited (e : exn) : keeps (awaited e).
Proof.
  intros s H. unfold awaited.
  destruct (faults s) as [|[] f]; cbn; try apply (st_faults _ _ _ HI);
    exact H.
Qed.

Lemma inv_logger l e : keeps (logger l e).
Proof. intros s H. now apply (st_log _ _ _ HI). Qed.

Lemma inv_set_user u : ok_user u -> keeps (modify (set_user u)).
Proof. intros Hu s H. now apply (st_user _ _ _ HI). Qed.

Lemma inv_only_faults {A} (m : M A) :
  (∀ s, only_faults_consumed s (m s).2) -> keeps m.
Proof. intros Hm s H. rewrite (Hm s). now apply (st_faults _ _ _ HI). Qed.

Lemma inv_usage r : keeps (AIUsageDetails_acreate r).
Proof.
  unfold AIUsageDetails_acreate. apply inv_bind; [apply inv_awaited|].
  intros _ s H. now apply (st_usage _ _ _ HI).
Qed.

Lemma inv_notify n : keeps (SystemNotify_acreate n).
Proof.
  unfold SystemNotify_acreate. apply inv_bind; [apply inv_awaited|].
  intros _ s H. now apply (st_notify _ _ _ HI).
Qed.

Lemma inv_alert u v : keeps (alert_check_and_trigger u v).
Proof.
  unfold alert_check_and_trigger. apply inv_bind; [apply inv_awaited|].
  intros _ s H. now apply (st_alert _ _ _ HI).
Qed.

Lemma inv_decrement k c : ok_key k -> keeps (aupdate_decrement k c).
Proof.
  intros Hk. unfold aupdate_decrement. apply inv_bind; [apply inv_awaited|].
  intros _ s H. unfold bind, get, modify, ret. cbn.
  destruct (users s !! k) as [r|]; [|exact H].
  destruct (c <=? row_surplus_number r); [|exact H].
  cbn. apply (st_write _ _ _ HI). now apply (st_users _ _ _ HI).
Qed.

Lemma inv_increment k a : ok_key k -> keeps (aupdate_increment k a).
Proof.
  intros Hk. unfold aupdate_increment. apply inv_bind; [apply inv_awaited|].
  intros _ s H. unfold bind, get, modify, ret. cbn.
  destruct (users s !! k) as [r|]; [|exact H].
  cbn. apply (st_write _ _ _ HI). now apply (st_users _ _ _ HI).
Qed.

Lemma inv_asave u : ok_key (pk u) -> keeps (User_asave u).
Proof.
  intros Hk. unfold User_asave. apply inv_bind; [apply inv_awaited|].
  intros _ s H. unfold bind, get, modify, ret. cbn.
  apply (st_write _ _ _ HI). now apply (st_users _ _ _ HI).
Qed.

(** What a refresh returns has the key and the superior of the instance it
    was asked for. *)
Lemma inv_bind_refresh {A} (v : User) (f : User -> M A) :
  (∀ b, keeps (f (mkUser (pk v) b (superior_id v) (username v)))) ->
  keeps (bind (arefresh_from_db v) f).
Proof.
  intros Hf s H. unfold bind.
  destruct (arefresh_from_db v s) as [[u|e] s1] eqn:Hr.
  - apply refresh_ok in Hr as (E & r & _ & ->). apply Hf.
    rewrite E. now apply (st_faults _ _ _ HI).
  - assert (Hs : I (arefresh_from_db v s).2).
    { unfold arefresh_from_db. apply inv_bind; [apply inv_awaited| |exact H].
      intros _ s2 H2. unfold bind, get. cbn.
      now destruct (users s2 !! pk v). }
    now rewrite Hr in Hs.
Qed.

(** The partner a strategy names is the superior of the caller. *)
Lemma inv_bind_strategy {A} (f : Strategy -> M A) :
  (∀ st, (∀ p, partner_user st = Some p -> ok_key (pk p)) -> keeps (f st)) ->
  keeps (bind _get_billing_strategy f).
Proof.
  intros Hf s H. unfold bind.
  destruct (_get_billing_strategy s) as [[st|e] s0] eqn:Hst.
  - pose proof (strategy_ok_inv _ _ _ Hst) as (E & Hcase).
    apply Hf.
    + intros p Hp.
      destruct Hcase as [->|(k & r & g & Hs & _ & ->)]; [discriminate|].
      cbn in Hp. injection Hp as <-. cbn [pk instance_of].
      exact (st_superior _ _ _ HI s k H Hs).
    + rewrite E. now apply (st_faults _ _ _ HI).
  - apply strategy_run_only_faults in Hst. cbn. rewrite Hst.
    now apply (st_faults _ _ _ HI).
Qed.

Ltac inv_step :=
  match goal with
  | |- invariant _ (let _ := _ in _) => cbv zeta
  | |- invariant _ (bind get _) => apply inv_bind_get; intros ? ?
  | |- invariant _ (bind (arefresh_from_db _) _) =>
      apply inv_bind_refresh; intros ?
  | |- invariant _ (bind _get_billing_strategy _) =>
      apply inv_bind_strategy; intros ? ?
  | |- invariant _ (bind _ _) => apply inv_bind; [|intros ?]
  | |- invariant _ (try_except _ _) => apply inv_try; [|intros ?]
  | |- invariant _ (ret _) => apply inv_ret
  | |- invariant _ (raise _) => apply inv_raise
  | |- invariant _ (lift _) => apply inv_lift
  | |- invariant _ (awaited _) => apply inv_awaited
  | |- invariant _ (logger _ _) => apply inv_logger
  | |- invariant _ (AIUsageDetails_acreate _) => apply inv_usage
  | |- invariant _ (SystemNotify_acreate _) => apply inv_notify
  | |- invariant _ (alert_check_and_trigger _ _) => apply inv_alert
  | |- invariant _ (match ?x with _ => _ end) => destruct x eqn:?
  | |- invariant _ (let '(_, _) := ?x in _) => destruct x
  | H : invariant ?i ?m |- invariant ?i ?m => exact H
  end.

Lemma inv_handler c tokens ut store :
  keeps (_handle_insufficient_balance_internal c tokens ut store).
Proof.
  unfold _handle_insufficient_balance_internal. repeat inv_step.
  - apply inv_set_user. apply (st_refreshed _ _ _ HI).
    now apply (st_me _ _ _ HI).
  - apply inv_asave. cbn. now apply (st_me _ _ _ HI).
Qed.

Lemma inv_partner_notice p c ut :
  keeps (_handle_partner_insufficient_balance p c ut).
Proof. unfold _handle_partner_insufficient_balance. repeat inv_step. Qed.

Lemma inv_check tokens ut store :
  keeps (check_and_handle_insufficient_balance tokens ut store).
Proof.
  unfold check_and_handle_insufficient_balance. repeat inv_step;
    first [apply inv_partner_notice | apply inv_handler].
Qed.

Lemma inv_increase amount ut : keeps (increase_balance amount ut).
Proof.
  unfold increase_balance. repeat inv_step.
  - apply inv_increment. now apply (st_me _ _ _ HI).
  - apply inv_set_user. apply (st_refreshed _ _ _ HI).
    now apply (st_me _ _ _ HI).
Qed.

Lemma inv_normal tokens c ut store m :
  keeps (_execute_normal_billing tokens c ut store m).
Proof.
  unfold _execute_normal_billing. repeat inv_step.
  - apply inv_check.
  - apply inv_decrement. now apply (st_me _ _ _ HI).
  - apply inv_set_user. apply (st_refreshed _ _ _ HI).
    now apply (st_me _ _ _ HI).
Qed.

Lemma inv_alerts p : keeps (_trigger_balance_alerts p).
Proof. unfold _trigger_balance_alerts. repeat inv_step. Qed.

Lemma inv_log_success d : keeps (_log_partner_billing_success d).
Proof. unfold _log_partner_billing_success. repeat inv_step. Qed.

Lemma inv_partner p c mode ut tokens store :
  ok_key (pk p) -> keeps (_execute_partner_billing p c mode ut tokens store).
Proof.
  intros Hp. unfold _execute_partner_billing. repeat inv_step.
  all: first [ apply inv_decrement | apply inv_increment
             | apply inv_set_user; apply (st_refreshed _ _ _ HI) ];
    first [exact Hp | now apply (st_me _ _ _ HI)].
Qed.

Lemma inv_deduct tokens ut store m :
  keeps (deduct_balance_by_tokens tokens ut store m).
Proof.
  unfold deduct_balance_by_tokens. repeat inv_step;
    first [ apply inv_partner; auto | apply inv_partner_notice
          | apply inv_log_success | apply inv_alerts | apply inv_normal ].
Qed.

Lemma inv_single ut store : keeps (deduct_single_balance ut store).
Proof. unfold deduct_single_balance. repeat inv_step. apply inv_deduct. Qed.

End Invariants.

(** ** Two invariants *)

Lemma untouched_stable me sup k R :
  me ≠ k -> sup ≠ Some k ->
  stable (untouched me sup k R) (λ k', k' ≠ k)
    (λ u, pk u = me ∧ superior_id u = sup).
Proof.
  intros Hme Hsup. unfold untouched.
  constructor; try (intros; cbn; assumption).
  - intros k' r s Hk (? & ? & ?). cbn. rewrite lookup_insert_ne by assumption.
    now repeat split.
  - intros u s (? & ?) (_ & _ & ?). now repeat split.
  - intros s (? & ? & _). repeat split; congruence.
  - intros s k' (_ & Hs & _) Hk. congruence.
Qed.

(** X28.  No call changes the row of a third account.  Whatever the
    arguments and whichever awaited calls fail, a row whose key is neither
    the user's nor the superior's is the same after a deduction, a pre-check
    or a credit. *)
Theorem third_party_rows_are_untouched (s : State) (k : Z) :
  k ≠ pk (user s) -> superior_id (user s) ≠ Some k ->
  (∀ tokens ut store m,
     users (deduct_balance_by_tokens tokens ut store m s).2 !! k
     = users s !! k)
  ∧ (∀ ut store,
       users (deduct_single_balance ut store s).2 !! k = users s !! k)
  ∧ (∀ tokens ut store,
       users (check_and_handle_insufficient_balance tokens ut store s).2 !! k
       = users s !! k)
  ∧ (∀ amount ut, users (increase_balance amount ut s).2 !! k = users s !! k).
Proof.
  intros Hme Hsup.
  assert (HI := untouched_stable (pk (user s)) (superior_id (user s)) k
                  (users s !! k) ltac:(congruence) Hsup).
  assert (H0 : untouched (pk (user s)) (superior_id (user s)) k (users s !! k) s)
    by now repeat split.
  repeat split; intros.
  - exact (proj2 (proj2 (inv_deduct _ _ _ HI tokens ut store m s H0))).
  - exact (proj2 (proj2 (inv_single _ _ _ HI ut store s H0))).
  - exact (proj2 (proj2 (inv_check _ _ _ HI tokens ut store s H0))).
  - exact (proj2 (proj2 (inv_increase _ _ _ HI amount ut s H0))).
Qed.

Lemma third_party_rows_are_untouched_witness :
  users (deduct_balance_by_tokens 10000 "ai回复" None PyFloat.one
           (initial (mkUser 1 50 (Some 2) "bob")
              [(1, mkRow 50 (Some 2) "bob"); (2, mkRow 100 None "partner");
               (3, mkRow 7 None "carol")] [2] [] 20 [])).2 !! 3
  = Some (mkRow 7 None "carol").
Proof.
  exact (proj1 (third_party_rows_are_untouched
                  (initial (mkUser 1 50 (Some 2) "bob")
                     [(1, mkRow 50 (Some 2) "bob");
                      (2, mkRow 100 None "partner");
                      (3, mkRow 7 None "carol")] [2] [] 20 [])
                  3 ltac:(discriminate) ltac:(discriminate))
           10000 "ai回复" None PyFloat.one).
Defined.

Lemma grows_stable s0 : stable (grows s0) (λ _, True) (λ _, True).
Proof.
  unfold grows.
  constructor; try (intros; cbn; assumption); try (intros; exact I).
  - intros l s (? & ? & ?). cbn. repeat split; try assumption.
    now apply prefix_app_r.
  - intros r s (? & ? & ?). cbn. repeat split; try assumption.
    now apply prefix_app_r.
  - intros n s (? & ? & ?). cbn. repeat split; try assumption.
    now apply prefix_app_r.
  - intros s _. now split.
Qed.

(** X29.  Usage records, notifications and log lines are only ever
    appended: after any call, whatever fails, the ones there were are still
    there, in their order. *)
Theorem records_are_append_only (s : State) :
  (∀ tokens ut store m,
     grows s (deduct_balance_by_tokens tokens ut store m s).2)
  ∧ (∀ ut store, grows s (deduct_single_balance ut store s).2)
  ∧ (∀ tokens ut store,
       grows s (check_and_handle_insufficient_balance tokens ut store s).2)
  ∧ (∀ amount ut, grows s (increase_balance amount ut s).2).
Proof.
  assert (H0 : grows s s) by now repeat split.
  repeat split; intros.
  all: first [ apply (inv_deduct _ _ _ (grows_stable s) tokens ut store m s H0)
             | apply (inv_single _ _ _ (grows_stable s) ut store s H0)
             | apply (inv_check _ _ _ (grows_stable s) tokens ut store s H0)
             | apply (inv_increase _ _ _ (grows_stable s) amount ut s H0) ].
Qed.
